(** * Ingress policy translation of the mesh catalog (pkg/catalog/ingress.go)

    A shallow embedding of the Kubernetes-ingress path of the catalog:
    the path-type switch of the two extractors, the two extractors
    themselves, the schema-version fan-out, and the assembly of the
    ingress traffic policy with its per-port traffic matches.

    Go values are modelled as follows.
    - A Go [string] is a [string] of 8-bit characters (bytes).
    - A slice is a [list]; the [nil] slice and the empty slice are both [[]].
      The only place where the code tells them apart is the test
      [httpRoutePolicies == nil]; the slice tested there is built by
      [append] onto a [nil] slice, which stays [nil] exactly when nothing
      was appended, so the test is emptiness.
    - A pointer that may be [nil] is an [option].
    - An [error] result is an [option error] ([None] is the [nil] error).
    - A call that does not return to its caller (a run-time panic such as
      a [nil] dereference, or a callee that fails without an error result)
      is [Abort]; it unwinds through every caller in this file, none of
      which recovers. *)

From Stdlib Require Import List String Ascii Bool NArith Lia DecimalString DecimalN.
Import ListNotations.

Local Open Scope string_scope.
Local Open Scope list_scope.

(** ** Outcomes of a call *)

(** The pointers that the code dereferences without a test for [nil]:
    [*ingressPath.PathType] in the log statement of the [default] branch of
    the path-type switch, [rule.HTTP] in [rule.HTTP.Paths], and the
    [Service] of a networking/v1 backend in [.Service.Name]. *)
Inductive pointer : Type :=
| PathTypePointer
| HTTPPointer
| ServicePointer.

Inductive condition : Type :=
| AmbiguousHostnameOverlap
| NilPointerDereference (which : pointer).

Inductive outcome (A : Type) : Type :=
| Ret (a : A)
| Abort (c : condition).

Arguments Ret {A} a.
Arguments Abort {A} c.

Definition bind {A B : Type} (m : outcome A) (k : A -> outcome B) : outcome B :=
  match m with
  | Ret a => k a
  | Abort c => Abort c
  end.

Notation "x <- m ;; k" := (bind m (fun x => k))
  (at level 61, m at next level, right associativity).
Notation "' pat <- m ;; k" := (bind m (fun x => match x with pat => k end))
  (at level 61, pat pattern, m at next level, right associativity).

(** Dereference of a pointer: [*p] and [p.f] panic on [nil]. *)
Definition deref {A : Type} (which : pointer) (p : option A) : outcome A :=
  match p with
  | Some a => Ret a
  | None => Abort (NilPointerDereference which)
  end.

(** ** Errors (github.com/pkg/errors) *)

Inductive error : Type :=
| errorString (msg : string)
| withMessage (cause : error) (msg : string).

(** [errors.Wrapf] on a non-nil error. *)
Definition Wrapf (err : error) (msg : string) : error := withMessage err msg.

(** ** The functions of package [strings] that the code calls *)

Module strings.

(** Whether the byte [c] occurs in [chars]. *)
Definition IndexByte (chars : string) (c : ascii) : bool :=
  existsb (Ascii.eqb c) (list_ascii_of_string chars).

(** [strings.TrimRight s cutset]: [s] without its trailing characters
    contained in [cutset]. *)
Fixpoint TrimRight (s cutset : string) : string :=
  match s with
  | EmptyString => EmptyString
  | String c s' =>
      match TrimRight s' cutset with
      | EmptyString => if IndexByte cutset c then EmptyString
                       else String c EmptyString
      | t => String c t
      end
  end.

(** [strings.ContainsAny s chars]: whether some character of [chars]
    occurs in [s]. *)
Definition ContainsAny (s chars : string) : bool :=
  existsb (IndexByte chars) (list_ascii_of_string s).

End strings.

(** [%d] of an unsigned integer. *)
Definition formatUint (n : N) : string := NilEmpty.string_of_uint (N.to_uint n).

(** ** Constants of the file *)

Definition prefixMatchPathElementsRegex : string := "(/.*)?$".

Definition commonRegexChars : string := "^$*+[]%|".

(** ** package service *)

Module service.

Module MeshService.
(** Modelled from the spec: the identity of a workload service, a name
    and a namespace. *)
Record t : Type := mk { Name : string; Namespace : string }.
End MeshService.

Module WeightedCluster.
(** Modelled from the spec: a backend service cluster reference with a
    routing weight. *)
Record t : Type := mk { ClusterName : string; Weight : N }.
End WeightedCluster.

End service.

(** ** package identity *)

Module identity.
Definition ServiceIdentity : Type := string.
End identity.

(** ** package trafficpolicy *)

Module trafficpolicy.

Inductive PathMatchType : Type :=
| PathMatchRegex
| PathMatchExact
| PathMatchPrefix.

Module HTTPRouteMatch.
Record t : Type := mk {
  Path : string;
  PathMatchType : trafficpolicy.PathMatchType;
  Methods : list string
}.
(** The assignments [m.Path = p] and [m.PathMatchType = k]. *)
Definition setPath (m : t) (p : string) : t :=
  mk p (PathMatchType m) (Methods m).
Definition setPathMatchType (m : t) (k : trafficpolicy.PathMatchType) : t :=
  mk (Path m) k (Methods m).
End HTTPRouteMatch.

Module RouteWeightedClusters.
Record t : Type := mk {
  HTTPRouteMatch : HTTPRouteMatch.t;
  WeightedClusters : list service.WeightedCluster.t
}.
End RouteWeightedClusters.

(** Modelled from the spec: [NewRouteWeightedCluster] pairs a route match
    with its weighted clusters. *)
Definition NewRouteWeightedCluster (route : HTTPRouteMatch.t)
    (weightedClusters : list service.WeightedCluster.t) : RouteWeightedClusters.t :=
  RouteWeightedClusters.mk route weightedClusters.

Module Rule.
(** Modelled from the spec: a rule is a route with its weighted
    clusters, annotated with the permitted caller identity. *)
Record t : Type := mk {
  Route : RouteWeightedClusters.t;
  AllowedServiceIdentity : identity.ServiceIdentity
}.
End Rule.

Module InboundTrafficPolicy.
(** Modelled from the spec: a named policy keyed by hostnames, with an
    ordered list of rules. *)
Record t : Type := mk {
  Name : string;
  Hostnames : list string;
  Rules : list Rule.t
}.
End InboundTrafficPolicy.

(** Modelled from the spec: [NewInboundTrafficPolicy] builds a policy with
    the given name and hostnames and no rule. *)
Definition NewInboundTrafficPolicy (name : string) (hostnames : list string)
  : InboundTrafficPolicy.t :=
  InboundTrafficPolicy.mk name hostnames [].

(** Modelled from the spec: [AddRule] appends the rule (route, caller
    identity) to the policy, in order. *)
Definition AddRule (p : InboundTrafficPolicy.t) (route : RouteWeightedClusters.t)
    (allowed : identity.ServiceIdentity) : InboundTrafficPolicy.t :=
  InboundTrafficPolicy.mk (InboundTrafficPolicy.Name p)
    (InboundTrafficPolicy.Hostnames p)
    (InboundTrafficPolicy.Rules p ++ [Rule.mk route allowed]).

(** Modelled from the spec: the strategy under which the merger is
    described, the one the extractors pass. *)
Inductive MergeStrategy : Type :=
| DisallowPartialHostnamesMatch.

Definition hasHostname (hostnames : list string) (h : string) : bool :=
  existsb (String.eqb h) hostnames.

(** The two hostname sets are the same set. *)
Definition hostnamesMatch (a b : list string) : bool :=
  forallb (hasHostname b) a && forallb (hasHostname a) b.

(** The two hostname sets have no hostname in common. *)
Definition hostnamesDisjoint (a b : list string) : bool :=
  forallb (fun h => negb (hasHostname b h)) a.

(** Neither identical nor disjoint. *)
Definition hostnamesPartiallyOverlap (a b : list string) : bool :=
  negb (hostnamesMatch a b) && negb (hostnamesDisjoint a b).

Definition appendRules (p : InboundTrafficPolicy.t) (rules : list Rule.t)
  : InboundTrafficPolicy.t :=
  InboundTrafficPolicy.mk (InboundTrafficPolicy.Name p)
    (InboundTrafficPolicy.Hostnames p)
    (InboundTrafficPolicy.Rules p ++ rules).

(** Modelled from the spec: the policy merger, [MergeInboundPolicies],
    which is not in this file.  A candidate whose hostname set is that of
    an existing policy has its rules appended to that policy, in order and
    without de-duplication; a candidate whose hostnames are disjoint from
    every existing policy becomes a new entry at the end; a partial
    overlap with an existing policy fails with
    [AmbiguousHostnameOverlap].  The Go function has a single result, the
    merged slice, so the failure is not an error value: it is an
    [Abort]. *)
Definition MergeInboundPolicies (strategy : MergeStrategy)
    (existing : list InboundTrafficPolicy.t) (candidate : InboundTrafficPolicy.t)
  : outcome (list InboundTrafficPolicy.t) :=
  let hs := InboundTrafficPolicy.Hostnames candidate in
  if existsb (fun p => hostnamesPartiallyOverlap (InboundTrafficPolicy.Hostnames p) hs)
       existing
  then Abort AmbiguousHostnameOverlap
  else if existsb (fun p => hostnamesMatch (InboundTrafficPolicy.Hostnames p) hs) existing
  then Ret (map (fun p =>
                   if hostnamesMatch (InboundTrafficPolicy.Hostnames p) hs
                   then appendRules p (InboundTrafficPolicy.Rules candidate)
                   else p) existing)
  else Ret (existing ++ [candidate]).

Module IngressTrafficMatch.
Record t : Type := mk {
  Name : string;
  Port : N;
  Protocol : string;
  ServerNames : list string;
  SkipClientCertValidation : bool
}.
Definition setName (m : t) (name : string) : t :=
  mk name (Port m) (Protocol m) (ServerNames m) (SkipClientCertValidation m).
Definition setProtocol (m : t) (protocol : string) : t :=
  mk (Name m) (Port m) protocol (ServerNames m) (SkipClientCertValidation m).
Definition setServerNames (m : t) (serverNames : list string) : t :=
  mk (Name m) (Port m) (Protocol m) serverNames (SkipClientCertValidation m).
Definition setSkipClientCertValidation (m : t) (b : bool) : t :=
  mk (Name m) (Port m) (Protocol m) (ServerNames m) b.
End IngressTrafficMatch.

Module IngressTrafficPolicy.
Record t : Type := mk {
  TrafficMatches : list IngressTrafficMatch.t;
  HTTPRoutePolicies : list InboundTrafficPolicy.t
}.
End IngressTrafficPolicy.

End trafficpolicy.

(** ** The ingress objects of the two schema versions (k8s.io/api)

    Modelled from the spec: the declarations of the Kubernetes API types are
    not part of this repository.  An ingress object has a name, a
    namespace, an optional default backend and an ordered list of rules; a
    rule has a host and an ordered list of paths; a path has a path string,
    an optional path type and a backend naming a service.  The field
    shapes of each version are those of the Kubernetes API that the code
    reads.  In both versions the rule value [HTTP] of a rule is a pointer
    ([*HTTPIngressRuleValue]), [nil] for a rule without an http section.
    In networking/v1 the [Service] of a backend is a pointer
    ([*IngressServiceBackend]), [nil] for a backend that refers to a
    resource instead of a service; in networking/v1beta1 the service name
    is a string field of the backend itself, empty for such a backend. *)

Module networkingV1beta1.

Definition PathType : Type := string.
Definition PathTypeExact : PathType := "Exact".
Definition PathTypePrefix : PathType := "Prefix".
Definition PathTypeImplementationSpecific : PathType := "ImplementationSpecific".

Module IngressBackend.
Record t : Type := mk { ServiceName : string }.
End IngressBackend.

Module HTTPIngressPath.
Record t : Type := mk {
  Path : string;
  PathType : option PathType;
  Backend : IngressBackend.t
}.
End HTTPIngressPath.

Module HTTPIngressRuleValue.
Record t : Type := mk { Paths : list HTTPIngressPath.t }.
End HTTPIngressRuleValue.

Module IngressRule.
Record t : Type := mk { Host : string; HTTP : option HTTPIngressRuleValue.t }.
End IngressRule.

Module IngressSpec.
Record t : Type := mk {
  Backend : option IngressBackend.t;
  Rules : list IngressRule.t
}.
End IngressSpec.

Module Ingress.
Record t : Type := mk {
  Name : string;
  Namespace : string;
  Spec : IngressSpec.t
}.
End Ingress.

End networkingV1beta1.

Module networkingV1.

Definition PathType : Type := string.
Definition PathTypeExact : PathType := "Exact".
Definition PathTypePrefix : PathType := "Prefix".
Definition PathTypeImplementationSpecific : PathType := "ImplementationSpecific".

Module IngressServiceBackend.
Record t : Type := mk { Name : string }.
End IngressServiceBackend.

Module IngressBackend.
Record t : Type := mk { Service : option IngressServiceBackend.t }.
End IngressBackend.

Module HTTPIngressPath.
Record t : Type := mk {
  Path : string;
  PathType : option PathType;
  Backend : IngressBackend.t
}.
End HTTPIngressPath.

Module HTTPIngressRuleValue.
Record t : Type := mk { Paths : list HTTPIngressPath.t }.
End HTTPIngressRuleValue.

Module IngressRule.
Record t : Type := mk { Host : string; HTTP : option HTTPIngressRuleValue.t }.
End IngressRule.

Module IngressSpec.
Record t : Type := mk {
  DefaultBackend : option IngressBackend.t;
  Rules : list IngressRule.t
}.
End IngressSpec.

Module Ingress.
Record t : Type := mk {
  Name : string;
  Namespace : string;
  Spec : IngressSpec.t
}.
End Ingress.

End networkingV1.

(** ** package constants *)

Module constants.
(** Modelled from the spec: the protocol names, as they appear in the
    names of the traffic matches ([ingress_<svc>_<port>_http],
    [ingress_<svc>_<port>_https]). *)
Definition ProtocolHTTP : string := "http".
Definition ProtocolHTTPS : string := "https".
End constants.

(** ** The catalog and its collaborators

    The ingress monitor, the configurator and the port-to-protocol resolver
    are interfaces implemented elsewhere.  The ingress monitor returns a
    slice of pointers to objects, taken here as the list of the objects (no
    pointer of the slice is [nil]).  The port-to-protocol map is given as
    the sequence of its entries in the order in which the [range] statement
    visits them. *)

Module MeshCatalog.
Record t : Type := mk {
  GetIngressNetworkingV1 :
    service.MeshService.t -> list networkingV1.Ingress.t * option error;
  GetIngressNetworkingV1beta1 :
    service.MeshService.t -> list networkingV1beta1.Ingress.t * option error;
  EnableIngressBackendPolicy : bool;
  UseHTTPSIngress : bool;
  GetTargetPortToProtocolMappingForService :
    service.MeshService.t -> list (N * string) * option error
}.
End MeshCatalog.

(** What the path-type switch does with one path: it either builds the
    route match of the path, or reaches its [default] branch, which logs
    the path type it read through the pointer and skips the path. *)
Inductive pathOutcome : Type :=
| Route (httpRouteMatch : trafficpolicy.HTTPRouteMatch.t)
| InvalidPathType (pathType : string).

(** *** What the extractors read of an ingress object

    Both extractors read of an object its name and namespace, whether its
    default backend is the service, and, for each rule, its host and the
    route matches of its paths. *)


Module View.
Record rule : Type := mkRule {
  host : string;
  matches : list trafficpolicy.HTTPRouteMatch.t
}.
Record object : Type := mkObject {
  name : string;
  namespace : string;
  defaultBackendIsService : bool;
  rules : list rule
}.
End View.

(** ** Sample objects

    A service, values for the constants of the other packages, and a few
    ingress objects and catalogs, on which the definitions are run. *)

Module Sample.

Definition svc : service.MeshService.t := service.MeshService.mk "bookstore" "default".

Definition wildcard : string := "*".

Definition wildCardRouteMatch : trafficpolicy.HTTPRouteMatch.t :=
  trafficpolicy.HTTPRouteMatch.mk ".*" trafficpolicy.PathMatchRegex ["*"].

Definition wildcardIdentity : identity.ServiceIdentity := "*".

Definition defaultCluster (s : service.MeshService.t) : service.WeightedCluster.t :=
  service.WeightedCluster.mk
    (service.MeshService.Namespace s ++ "/" ++ service.MeshService.Name s) 100.

Definition svcString (s : service.MeshService.t) : string :=
  service.MeshService.Namespace s ++ "/" ++ service.MeshService.Name s.

Definition serverName (s : service.MeshService.t) : string :=
  service.MeshService.Name s ++ "." ++ service.MeshService.Namespace s
  ++ ".svc.cluster.local".

Definition backendV1 : networkingV1.IngressBackend.t :=
  networkingV1.IngressBackend.mk
    (Some (networkingV1.IngressServiceBackend.mk "bookstore")).

Definition backendV1beta1 : networkingV1beta1.IngressBackend.t :=
  networkingV1beta1.IngressBackend.mk "bookstore".

(** An object with a default backend and no rule. *)
Definition defaultOnlyV1 : networkingV1.Ingress.t :=
  networkingV1.Ingress.mk "shop" "default"
    (networkingV1.IngressSpec.mk (Some backendV1) []).

Definition defaultOnlyV1beta1 : networkingV1beta1.Ingress.t :=
  networkingV1beta1.Ingress.mk "shop" "default"
    (networkingV1beta1.IngressSpec.mk (Some backendV1beta1) []).

Definition pathsV1 : list networkingV1.HTTPIngressPath.t :=
  [networkingV1.HTTPIngressPath.mk "/foo" (Some "Prefix") backendV1;
   networkingV1.HTTPIngressPath.mk "/bar" (Some "Exact") backendV1;
   networkingV1.HTTPIngressPath.mk "/baz.*" None backendV1].

Definition pathsV1beta1 : list networkingV1beta1.HTTPIngressPath.t :=
  [networkingV1beta1.HTTPIngressPath.mk "/foo" (Some "Prefix") backendV1beta1;
   networkingV1beta1.HTTPIngressPath.mk "/bar" (Some "Exact") backendV1beta1;
   networkingV1beta1.HTTPIngressPath.mk "/baz.*" None backendV1beta1].

Definition ruleV1 : networkingV1.IngressRule.t :=
  networkingV1.IngressRule.mk "a.com"
    (Some (networkingV1.HTTPIngressRuleValue.mk pathsV1)).

Definition ruleV1beta1 : networkingV1beta1.IngressRule.t :=
  networkingV1beta1.IngressRule.mk "a.com"
    (Some (networkingV1beta1.HTTPIngressRuleValue.mk pathsV1beta1)).

(** An object with a default backend and one rule for the host a.com. *)
Definition shopV1 : networkingV1.Ingress.t :=
  networkingV1.Ingress.mk "shop" "default"
    (networkingV1.IngressSpec.mk (Some backendV1) [ruleV1]).

Definition shopV1beta1 : networkingV1beta1.Ingress.t :=
  networkingV1beta1.Ingress.mk "shop" "default"
    (networkingV1beta1.IngressSpec.mk (Some backendV1beta1) [ruleV1beta1]).

(** Two objects for the host a.com, one path each. *)
Definition fooV1 : networkingV1.Ingress.t :=
  networkingV1.Ingress.mk "foo" "default"
    (networkingV1.IngressSpec.mk None
       [networkingV1.IngressRule.mk "a.com"
          (Some (networkingV1.HTTPIngressRuleValue.mk
             [networkingV1.HTTPIngressPath.mk "/foo" (Some "Prefix") backendV1]))]).

Definition barV1 : networkingV1.Ingress.t :=
  networkingV1.Ingress.mk "bar" "default"
    (networkingV1.IngressSpec.mk None
       [networkingV1.IngressRule.mk "a.com"
          (Some (networkingV1.HTTPIngressRuleValue.mk
             [networkingV1.HTTPIngressPath.mk "/bar" (Some "Exact") backendV1]))]).

Definition unavailable : error := errorString "ingress monitor unavailable".

Definition noPorts : error := errorString "no port mapping".

Definition catalog (v1 : list networkingV1.Ingress.t * option error)
    (v1beta1 : list networkingV1beta1.Ingress.t * option error)
    (useHTTPSIngress : bool) (ports : list (N * string) * option error)
  : MeshCatalog.t :=
  MeshCatalog.mk (fun _ => v1) (fun _ => v1beta1) false useHTTPSIngress (fun _ => ports).


(** A backend naming another service, and an object that only names it. *)
Definition otherBackendV1 : networkingV1.IngressBackend.t :=
  networkingV1.IngressBackend.mk
    (Some (networkingV1.IngressServiceBackend.mk "bookbuyer")).

Definition otherBackendV1beta1 : networkingV1beta1.IngressBackend.t :=
  networkingV1beta1.IngressBackend.mk "bookbuyer".

Definition otherV1 : networkingV1.Ingress.t :=
  networkingV1.Ingress.mk "buyer" "default"
    (networkingV1.IngressSpec.mk (Some otherBackendV1)
       [networkingV1.IngressRule.mk "b.com"
          (Some (networkingV1.HTTPIngressRuleValue.mk
             [networkingV1.HTTPIngressPath.mk "/buy" (Some "Exact") otherBackendV1]))]).

Definition otherV1beta1 : networkingV1beta1.Ingress.t :=
  networkingV1beta1.Ingress.mk "buyer" "default"
    (networkingV1beta1.IngressSpec.mk (Some otherBackendV1beta1)
       [networkingV1beta1.IngressRule.mk "b.com"
          (Some (networkingV1beta1.HTTPIngressRuleValue.mk
             [networkingV1beta1.HTTPIngressPath.mk "/buy" (Some "Exact")
                otherBackendV1beta1]))]).

(** An object with a default backend and one rule with an empty host. *)
Definition anyHostV1 : networkingV1.Ingress.t :=
  networkingV1.Ingress.mk "shop" "default"
    (networkingV1.IngressSpec.mk (Some backendV1)
       [networkingV1.IngressRule.mk EmptyString
          (Some (networkingV1.HTTPIngressRuleValue.mk pathsV1))]).

(** The same object in the two versions: one rule for the host a.com
    with two paths, the first with a backend that refers to a resource
    instead of a service, the second with the service as its backend. *)
Definition resourceV1 : networkingV1.Ingress.t :=
  networkingV1.Ingress.mk "assets" "default"
    (networkingV1.IngressSpec.mk None
       [networkingV1.IngressRule.mk "a.com"
          (Some (networkingV1.HTTPIngressRuleValue.mk
             [networkingV1.HTTPIngressPath.mk "/static" (Some "Prefix")
                (networkingV1.IngressBackend.mk None);
              networkingV1.HTTPIngressPath.mk "/" (Some "Prefix") backendV1]))]).

Definition resourceV1beta1 : networkingV1beta1.Ingress.t :=
  networkingV1beta1.Ingress.mk "assets" "default"
    (networkingV1beta1.IngressSpec.mk None
       [networkingV1beta1.IngressRule.mk "a.com"
          (Some (networkingV1beta1.HTTPIngressRuleValue.mk
             [networkingV1beta1.HTTPIngressPath.mk "/static" (Some "Prefix")
                (networkingV1beta1.IngressBackend.mk EmptyString);
              networkingV1beta1.HTTPIngressPath.mk "/" (Some "Prefix")
                backendV1beta1]))]).

(** An object whose only rule has a host and no http section. *)
Definition hostOnlyV1 : networkingV1.Ingress.t :=
  networkingV1.Ingress.mk "bare" "default"
    (networkingV1.IngressSpec.mk None [networkingV1.IngressRule.mk "a.com" None]).

Definition hostOnlyV1beta1 : networkingV1beta1.Ingress.t :=
  networkingV1beta1.Ingress.mk "bare" "default"
    (networkingV1beta1.IngressSpec.mk None
       [networkingV1beta1.IngressRule.mk "a.com" None]).

(** Two objects for the host a.com, the first of which routes to another
    service. *)
Definition elsewhereV1 : networkingV1.Ingress.t :=
  networkingV1.Ingress.mk "foo" "default"
    (networkingV1.IngressSpec.mk None
       [networkingV1.IngressRule.mk "a.com"
          (Some (networkingV1.HTTPIngressRuleValue.mk
             [networkingV1.HTTPIngressPath.mk "/foo" (Some "Prefix") otherBackendV1]))]).

Definition ports : list (N * string) := [(80%N, "http"); (8080%N, "http"); (9090%N, "tcp")].

End Sample.

Section Catalog.

Import service trafficpolicy.

(** Constants and helpers of other packages of which the code only uses
    the name. *)
Variable WildcardHTTPMethod : string.
Variable WildCardRouteMatch : HTTPRouteMatch.t.
Variable WildcardServiceIdentity : identity.ServiceIdentity.
Variable getDefaultWeightedClusterForService : MeshService.t -> WeightedCluster.t.
(** [%s] of a service, and its [ServerName] method. *)
Variable MeshServiceString : MeshService.t -> string.
Variable ServerName : MeshService.t -> string.

Definition getIngressTrafficPolicyName (name namespace host : string) : string :=
  name ++ "." ++ namespace ++ "|" ++ host.

(** *** networking.k8s.io/v1beta1 *)

(** The body of the path loop from the initialisation of
    [httpRouteMatch] to the end of the [switch]. *)
Definition httpRouteMatchNetworkingV1beta1
    (ingressPath : networkingV1beta1.HTTPIngressPath.t) : outcome pathOutcome :=
  let path := networkingV1beta1.HTTPIngressPath.Path ingressPath in
  let httpRouteMatch := HTTPRouteMatch.mk "" PathMatchRegex [WildcardHTTPMethod] in
  let pathType :=
    match networkingV1beta1.HTTPIngressPath.PathType ingressPath with
    | Some pt => pt
    | None => networkingV1beta1.PathTypeImplementationSpecific
    end in
  if pathType =? networkingV1beta1.PathTypeExact then
    Ret (Route (HTTPRouteMatch.setPathMatchType
                  (HTTPRouteMatch.setPath httpRouteMatch path) PathMatchExact))
  else if pathType =? networkingV1beta1.PathTypePrefix then
    if path =? "/" then
      Ret (Route (HTTPRouteMatch.setPathMatchType
                    (HTTPRouteMatch.setPath httpRouteMatch path) PathMatchPrefix))
    else
      let path := strings.TrimRight path "/" in
      Ret (Route (HTTPRouteMatch.setPathMatchType
                    (HTTPRouteMatch.setPath httpRouteMatch
                       (path ++ prefixMatchPathElementsRegex)) PathMatchRegex))
  else if pathType =? networkingV1beta1.PathTypeImplementationSpecific then
    let httpRouteMatch := HTTPRouteMatch.setPath httpRouteMatch path in
    if strings.ContainsAny path commonRegexChars then
      Ret (Route (HTTPRouteMatch.setPathMatchType httpRouteMatch PathMatchRegex))
    else
      Ret (Route (HTTPRouteMatch.setPathMatchType httpRouteMatch PathMatchPrefix))
  else
    logged <- deref PathTypePointer
                (networkingV1beta1.HTTPIngressPath.PathType ingressPath) ;;
    Ret (InvalidPathType logged).

(** The loop over the paths of one rule. *)
Fixpoint pathsNetworkingV1beta1 (svc : MeshService.t)
    (ingressWeightedCluster : WeightedCluster.t)
    (ingressPolicy : InboundTrafficPolicy.t)
    (paths : list networkingV1beta1.HTTPIngressPath.t)
  : outcome InboundTrafficPolicy.t :=
  match paths with
  | [] => Ret ingressPolicy
  | ingressPath :: paths' =>
      if negb (networkingV1beta1.IngressBackend.ServiceName
                 (networkingV1beta1.HTTPIngressPath.Backend ingressPath)
               =? MeshService.Name svc)
      then pathsNetworkingV1beta1 svc ingressWeightedCluster ingressPolicy paths'
      else
        r <- httpRouteMatchNetworkingV1beta1 ingressPath ;;
        match r with
        | InvalidPathType _ =>
            pathsNetworkingV1beta1 svc ingressWeightedCluster ingressPolicy paths'
        | Route httpRouteMatch =>
            pathsNetworkingV1beta1 svc ingressWeightedCluster
              (AddRule ingressPolicy
                 (NewRouteWeightedCluster httpRouteMatch [ingressWeightedCluster])
                 WildcardServiceIdentity)
              paths'
        end
  end.

(** The body of the loop over the rules of one ingress object. *)
Definition ruleNetworkingV1beta1 (svc : MeshService.t)
    (ingressWeightedCluster : WeightedCluster.t)
    (ingress : networkingV1beta1.Ingress.t)
    (inboundIngressPolicies : list InboundTrafficPolicy.t)
    (rule : networkingV1beta1.IngressRule.t)
  : outcome (list InboundTrafficPolicy.t) :=
  let domain := networkingV1beta1.IngressRule.Host rule in
  let domain := if domain =? "" then WildcardHTTPMethod else domain in
  let ingressPolicy :=
    NewInboundTrafficPolicy
      (getIngressTrafficPolicyName (networkingV1beta1.Ingress.Name ingress)
         (networkingV1beta1.Ingress.Namespace ingress) domain)
      [domain] in
  http <- deref HTTPPointer (networkingV1beta1.IngressRule.HTTP rule) ;;
  ingressPolicy <- pathsNetworkingV1beta1 svc ingressWeightedCluster ingressPolicy
                     (networkingV1beta1.HTTPIngressRuleValue.Paths http) ;;
  if Nat.ltb 0 (List.length (InboundTrafficPolicy.Rules ingressPolicy)) then
    MergeInboundPolicies DisallowPartialHostnamesMatch inboundIngressPolicies ingressPolicy
  else Ret inboundIngressPolicies.

Fixpoint rulesNetworkingV1beta1 (svc : MeshService.t)
    (ingressWeightedCluster : WeightedCluster.t)
    (ingress : networkingV1beta1.Ingress.t)
    (inboundIngressPolicies : list InboundTrafficPolicy.t)
    (rules : list networkingV1beta1.IngressRule.t)
  : outcome (list InboundTrafficPolicy.t) :=
  match rules with
  | [] => Ret inboundIngressPolicies
  | rule :: rules' =>
      inboundIngressPolicies <-
        ruleNetworkingV1beta1 svc ingressWeightedCluster ingress
          inboundIngressPolicies rule ;;
      rulesNetworkingV1beta1 svc ingressWeightedCluster ingress
        inboundIngressPolicies rules'
  end.

(** The policy synthesized for a default backend. *)
Definition wildcardIngressPolicy (name namespace : string)
    (ingressWeightedCluster : WeightedCluster.t) : InboundTrafficPolicy.t :=
  AddRule
    (NewInboundTrafficPolicy
       (getIngressTrafficPolicyName name namespace WildcardHTTPMethod)
       [WildcardHTTPMethod])
    (NewRouteWeightedCluster WildCardRouteMatch [ingressWeightedCluster])
    WildcardServiceIdentity.

(** The body of the loop over the ingress objects. *)
Definition ingressNetworkingV1beta1 (svc : MeshService.t)
    (ingressWeightedCluster : WeightedCluster.t)
    (inboundIngressPolicies : list InboundTrafficPolicy.t)
    (ingress : networkingV1beta1.Ingress.t)
  : outcome (list InboundTrafficPolicy.t) :=
  inboundIngressPolicies <-
    match networkingV1beta1.IngressSpec.Backend
            (networkingV1beta1.Ingress.Spec ingress) with
    | Some backend =>
        if networkingV1beta1.IngressBackend.ServiceName backend =? MeshService.Name svc
        then MergeInboundPolicies DisallowPartialHostnamesMatch inboundIngressPolicies
               (wildcardIngressPolicy (networkingV1beta1.Ingress.Name ingress)
                  (networkingV1beta1.Ingress.Namespace ingress)
                  ingressWeightedCluster)
        else Ret inboundIngressPolicies
    | None => Ret inboundIngressPolicies
    end ;;
  rulesNetworkingV1beta1 svc ingressWeightedCluster ingress inboundIngressPolicies
    (networkingV1beta1.IngressSpec.Rules (networkingV1beta1.Ingress.Spec ingress)).

Fixpoint ingressesNetworkingV1beta1 (svc : MeshService.t)
    (ingressWeightedCluster : WeightedCluster.t)
    (inboundIngressPolicies : list InboundTrafficPolicy.t)
    (ingresses : list networkingV1beta1.Ingress.t)
  : outcome (list InboundTrafficPolicy.t) :=
  match ingresses with
  | [] => Ret inboundIngressPolicies
  | ingress :: ingresses' =>
      inboundIngressPolicies <-
        ingressNetworkingV1beta1 svc ingressWeightedCluster inboundIngressPolicies
          ingress ;;
      ingressesNetworkingV1beta1 svc ingressWeightedCluster inboundIngressPolicies
        ingresses'
  end.

Definition getIngressPoliciesNetworkingV1beta1 (mc : MeshCatalog.t) (svc : MeshService.t)
  : outcome (list InboundTrafficPolicy.t * option error) :=
  let inboundIngressPolicies : list InboundTrafficPolicy.t := [] in
  let '(ingresses, err) := MeshCatalog.GetIngressNetworkingV1beta1 mc svc in
  match err with
  | Some err => Ret (inboundIngressPolicies, Some err)
  | None =>
      if Nat.eqb (List.length ingresses) 0 then Ret (inboundIngressPolicies, None)
      else
        let ingressWeightedCluster := getDefaultWeightedClusterForService svc in
        inboundIngressPolicies <-
          ingressesNetworkingV1beta1 svc ingressWeightedCluster inboundIngressPolicies
            ingresses ;;
        Ret (inboundIngressPolicies, None)
  end.

(** *** networking.k8s.io/v1 *)

(** The body of the path loop from the initialisation of
    [httpRouteMatch] to the end of the [switch]. *)
Definition httpRouteMatchNetworkingV1
    (ingressPath : networkingV1.HTTPIngressPath.t) : outcome pathOutcome :=
  let path := networkingV1.HTTPIngressPath.Path ingressPath in
  let httpRouteMatch := HTTPRouteMatch.mk "" PathMatchRegex [WildcardHTTPMethod] in
  let pathType :=
    match networkingV1.HTTPIngressPath.PathType ingressPath with
    | Some pt => pt
    | None => networkingV1.PathTypeImplementationSpecific
    end in
  if pathType =? networkingV1.PathTypeExact then
    Ret (Route (HTTPRouteMatch.setPathMatchType
                  (HTTPRouteMatch.setPath httpRouteMatch path) PathMatchExact))
  else if pathType =? networkingV1.PathTypePrefix then
    if path =? "/" then
      Ret (Route (HTTPRouteMatch.setPathMatchType
                    (HTTPRouteMatch.setPath httpRouteMatch path) PathMatchPrefix))
    else
      let path := strings.TrimRight path "/" in
      Ret (Route (HTTPRouteMatch.setPathMatchType
                    (HTTPRouteMatch.setPath httpRouteMatch
                       (path ++ prefixMatchPathElementsRegex)) PathMatchRegex))
  else if pathType =? networkingV1.PathTypeImplementationSpecific then
    let httpRouteMatch := HTTPRouteMatch.setPath httpRouteMatch path in
    if strings.ContainsAny path commonRegexChars then
      Ret (Route (HTTPRouteMatch.setPathMatchType httpRouteMatch PathMatchRegex))
    else
      Ret (Route (HTTPRouteMatch.setPathMatchType httpRouteMatch PathMatchPrefix))
  else
    logged <- deref PathTypePointer
                (networkingV1.HTTPIngressPath.PathType ingressPath) ;;
    Ret (InvalidPathType logged).

(** The loop over the paths of one rule. *)
Fixpoint pathsNetworkingV1 (svc : MeshService.t)
    (ingressWeightedCluster : WeightedCluster.t)
    (ingressPolicy : InboundTrafficPolicy.t)
    (paths : list networkingV1.HTTPIngressPath.t)
  : outcome InboundTrafficPolicy.t :=
  match paths with
  | [] => Ret ingressPolicy
  | ingressPath :: paths' =>
      backendService <-
        deref ServicePointer
          (networkingV1.IngressBackend.Service
             (networkingV1.HTTPIngressPath.Backend ingressPath)) ;;
      if negb (networkingV1.IngressServiceBackend.Name backendService
               =? MeshService.Name svc)
      then pathsNetworkingV1 svc ingressWeightedCluster ingressPolicy paths'
      else
        r <- httpRouteMatchNetworkingV1 ingressPath ;;
        match r with
        | InvalidPathType _ =>
            pathsNetworkingV1 svc ingressWeightedCluster ingressPolicy paths'
        | Route httpRouteMatch =>
            pathsNetworkingV1 svc ingressWeightedCluster
              (AddRule ingressPolicy
                 (NewRouteWeightedCluster httpRouteMatch [ingressWeightedCluster])
                 WildcardServiceIdentity)
              paths'
        end
  end.

(** The body of the loop over the rules of one ingress object. *)
Definition ruleNetworkingV1 (svc : MeshService.t)
    (ingressWeightedCluster : WeightedCluster.t)
    (ingress : networkingV1.Ingress.t)
    (inboundIngressPolicies : list InboundTrafficPolicy.t)
    (rule : networkingV1.IngressRule.t)
  : outcome (list InboundTrafficPolicy.t) :=
  let domain := networkingV1.IngressRule.Host rule in
  let domain := if domain =? "" then WildcardHTTPMethod else domain in
  let ingressPolicy :=
    NewInboundTrafficPolicy
      (getIngressTrafficPolicyName (networkingV1.Ingress.Name ingress)
         (networkingV1.Ingress.Namespace ingress) domain)
      [domain] in
  http <- deref HTTPPointer (networkingV1.IngressRule.HTTP rule) ;;
  ingressPolicy <- pathsNetworkingV1 svc ingressWeightedCluster ingressPolicy
                     (networkingV1.HTTPIngressRuleValue.Paths http) ;;
  if Nat.ltb 0 (List.length (InboundTrafficPolicy.Rules ingressPolicy)) then
    MergeInboundPolicies DisallowPartialHostnamesMatch inboundIngressPolicies ingressPolicy
  else Ret inboundIngressPolicies.

Fixpoint rulesNetworkingV1 (svc : MeshService.t)
    (ingressWeightedCluster : WeightedCluster.t)
    (ingress : networkingV1.Ingress.t)
    (inboundIngressPolicies : list InboundTrafficPolicy.t)
    (rules : list networkingV1.IngressRule.t)
  : outcome (list InboundTrafficPolicy.t) :=
  match rules with
  | [] => Ret inboundIngressPolicies
  | rule :: rules' =>
      inboundIngressPolicies <-
        ruleNetworkingV1 svc ingressWeightedCluster ingress
          inboundIngressPolicies rule ;;
      rulesNetworkingV1 svc ingressWeightedCluster ingress
        inboundIngressPolicies rules'
  end.

(** The body of the loop over the ingress objects. *)
Definition ingressNetworkingV1 (svc : MeshService.t)
    (ingressWeightedCluster : WeightedCluster.t)
    (inboundIngressPolicies : list InboundTrafficPolicy.t)
    (ingress : networkingV1.Ingress.t)
  : outcome (list InboundTrafficPolicy.t) :=
  inboundIngressPolicies <-
    match networkingV1.IngressSpec.DefaultBackend
            (networkingV1.Ingress.Spec ingress) with
    | Some backend =>
        backendService <-
          deref ServicePointer (networkingV1.IngressBackend.Service backend) ;;
        if networkingV1.IngressServiceBackend.Name backendService
           =? MeshService.Name svc
        then MergeInboundPolicies DisallowPartialHostnamesMatch inboundIngressPolicies
               (wildcardIngressPolicy (networkingV1.Ingress.Name ingress)
                  (networkingV1.Ingress.Namespace ingress)
                  ingressWeightedCluster)
        else Ret inboundIngressPolicies
    | None => Ret inboundIngressPolicies
    end ;;
  rulesNetworkingV1 svc ingressWeightedCluster ingress inboundIngressPolicies
    (networkingV1.IngressSpec.Rules (networkingV1.Ingress.Spec ingress)).

Fixpoint ingressesNetworkingV1 (svc : MeshService.t)
    (ingressWeightedCluster : WeightedCluster.t)
    (inboundIngressPolicies : list InboundTrafficPolicy.t)
    (ingresses : list networkingV1.Ingress.t)
  : outcome (list InboundTrafficPolicy.t) :=
  match ingresses with
  | [] => Ret inboundIngressPolicies
  | ingress :: ingresses' =>
      inboundIngressPolicies <-
        ingressNetworkingV1 svc ingressWeightedCluster inboundIngressPolicies
          ingress ;;
      ingressesNetworkingV1 svc ingressWeightedCluster inboundIngressPolicies
        ingresses'
  end.

Definition getIngressPoliciesNetworkingV1 (mc : MeshCatalog.t) (svc : MeshService.t)
  : outcome (list InboundTrafficPolicy.t * option error) :=
  let inboundIngressPolicies : list InboundTrafficPolicy.t := [] in
  let '(ingresses, err) := MeshCatalog.GetIngressNetworkingV1 mc svc in
  match err with
  | Some err => Ret (inboundIngressPolicies, Some err)
  | None =>
      if Nat.eqb (List.length ingresses) 0 then Ret (inboundIngressPolicies, None)
      else
        let ingressWeightedCluster := getDefaultWeightedClusterForService svc in
        inboundIngressPolicies <-
          ingressesNetworkingV1 svc ingressWeightedCluster inboundIngressPolicies
            ingresses ;;
        Ret (inboundIngressPolicies, None)
  end.


(** *** The fan-out over the schema versions *)

Definition getIngressPoliciesFromK8s (mc : MeshCatalog.t) (svc : MeshService.t)
  : outcome (list InboundTrafficPolicy.t * option error) :=
  let inboundTrafficPolicies : list InboundTrafficPolicy.t := [] in
  '(v1Policies, err) <- getIngressPoliciesNetworkingV1 mc svc ;;
  let inboundTrafficPolicies :=
    match err with
    | Some _ => inboundTrafficPolicies
    | None => inboundTrafficPolicies ++ v1Policies
    end in
  '(v1beta1Policies, err) <- getIngressPoliciesNetworkingV1beta1 mc svc ;;
  let inboundTrafficPolicies :=
    match err with
    | Some _ => inboundTrafficPolicies
    | None => inboundTrafficPolicies ++ v1beta1Policies
    end in
  Ret (inboundTrafficPolicies, None).

(** *** The traffic matches of the ports *)

(** [fmt.Sprintf("ingress_%s_%d_%s", svc, port, protocol)]. *)
Definition trafficMatchName (svc : MeshService.t) (port : N) (protocol : string)
  : string :=
  "ingress_" ++ MeshServiceString svc ++ "_" ++ formatUint port ++ "_" ++ protocol.

(** The body of the loop over the port-to-protocol map: the traffic
    matches appended for one entry. *)
Definition trafficMatchesForPort (svc : MeshService.t) (enableHTTPSIngress : bool)
    (port : N) (appProtocol : string) : list IngressTrafficMatch.t :=
  if negb (appProtocol =? constants.ProtocolHTTP) then []
  else
    let trafficMatch := IngressTrafficMatch.mk "" port "" [] false in
    if enableHTTPSIngress then
      let trafficMatch :=
        IngressTrafficMatch.setName trafficMatch
          (trafficMatchName svc port constants.ProtocolHTTPS) in
      let trafficMatch :=
        IngressTrafficMatch.setProtocol trafficMatch constants.ProtocolHTTPS in
      let trafficMatch :=
        IngressTrafficMatch.setSkipClientCertValidation trafficMatch true in
      let trafficMatchWithSNI := trafficMatch in
      let trafficMatchWithSNI :=
        IngressTrafficMatch.setName trafficMatchWithSNI
          (trafficMatchName svc port constants.ProtocolHTTPS ++ "_with_sni") in
      let trafficMatchWithSNI :=
        IngressTrafficMatch.setServerNames trafficMatchWithSNI [ServerName svc] in
      [trafficMatch; trafficMatchWithSNI]
    else
      let trafficMatch :=
        IngressTrafficMatch.setName trafficMatch
          (trafficMatchName svc port constants.ProtocolHTTP) in
      let trafficMatch :=
        IngressTrafficMatch.setProtocol trafficMatch constants.ProtocolHTTP in
      [trafficMatch].

Fixpoint buildTrafficMatches (svc : MeshService.t) (enableHTTPSIngress : bool)
    (trafficMatches : list IngressTrafficMatch.t)
    (protocolToPortMap : list (N * string)) : list IngressTrafficMatch.t :=
  match protocolToPortMap with
  | [] => trafficMatches
  | (port, appProtocol) :: entries =>
      buildTrafficMatches svc enableHTTPSIngress
        (trafficMatches ++ trafficMatchesForPort svc enableHTTPSIngress port appProtocol)
        entries
  end.

(** *** The assembly *)

Definition getIngressTrafficPolicyFromK8s (mc : MeshCatalog.t) (svc : MeshService.t)
  : outcome (option IngressTrafficPolicy.t * option error) :=
  '(httpRoutePolicies, err) <- getIngressPoliciesFromK8s mc svc ;;
  match err with
  | Some err =>
      Ret (None,
           Some (Wrapf err
                   ("Error retrieving ingress HTTP routing policies for service "
                    ++ MeshServiceString svc ++ " from Kubernetes")))
  | None =>
      match httpRoutePolicies with
      | [] => Ret (None, None)
      | _ :: _ =>
          let '(protocolToPortMap, err) :=
            MeshCatalog.GetTargetPortToProtocolMappingForService mc svc in
          match err with
          | Some err =>
              Ret (None,
                   Some (Wrapf err
                           ("Error retrieving port to protocol mapping for service "
                            ++ MeshServiceString svc)))
          | None =>
              let enableHTTPSIngress := MeshCatalog.UseHTTPSIngress mc in
              let trafficMatches :=
                buildTrafficMatches svc enableHTTPSIngress [] protocolToPortMap in
              Ret (Some (IngressTrafficPolicy.mk trafficMatches httpRoutePolicies), None)
          end
      end
  end.

(** The stub of the IngressBackend path. *)
Definition getIngressTrafficPolicy (mc : MeshCatalog.t) (svc : MeshService.t)
  : outcome (option IngressTrafficPolicy.t * option error) :=
  Ret (None, None).

Definition GetIngressTrafficPolicy (mc : MeshCatalog.t) (svc : MeshService.t)
  : outcome (option IngressTrafficPolicy.t * option error) :=
  if MeshCatalog.EnableIngressBackendPolicy mc then getIngressTrafficPolicy mc svc
  else getIngressTrafficPolicyFromK8s mc svc.

(** ** Vocabulary of the statements *)

(** The string of [n] slashes. *)
Fixpoint slashes (n : nat) : string :=
  match n with
  | O => EmptyString
  | S n' => String "/" (slashes n')
  end.

(** [t] is [p] with all its trailing slashes stripped: [p] is [t] followed
    by slashes only, and [t] does not end with a slash. *)
Definition trailingSlashesStripped (p t : string) : Prop :=
  (exists n, p = (t ++ slashes n)%string) /\ (forall u, t <> (u ++ "/")%string).

(** The characters of the fixed set [^ $ * + [ ] % |]. *)
Definition regexChars : list ascii :=
  ["^"; "$"; "*"; "+"; "["; "]"; "%"; "|"]%char.

(** [p] contains at least one character of the fixed set. *)
Definition containsRegexChar (p : string) : Prop :=
  exists c, In c (list_ascii_of_string p) /\ In c regexChars.

(** The path-type tag is one of the three known ones. *)
Definition knownPathType (pt : string) : Prop :=
  pt = "Exact" \/ pt = "Prefix" \/ pt = "ImplementationSpecific".

(** The route match of a path under the implementation-specific type. *)
Definition implementationSpecificMatch (p : string) : HTTPRouteMatch.t :=
  HTTPRouteMatch.mk p
    (if strings.ContainsAny p commonRegexChars then PathMatchRegex else PathMatchPrefix)
    [WildcardHTTPMethod].

(** The rule that the path loop adds for a route match. *)
Definition ruleFor (ingressWeightedCluster : WeightedCluster.t)
    (httpRouteMatch : HTTPRouteMatch.t) : Rule.t :=
  Rule.mk (NewRouteWeightedCluster httpRouteMatch [ingressWeightedCluster])
    WildcardServiceIdentity.

(** A backend names the service.  A networking/v1 backend without a
    [Service] names no service. *)
Definition namesServiceV1 (svc : MeshService.t) (backend : networkingV1.IngressBackend.t)
  : bool :=
  match networkingV1.IngressBackend.Service backend with
  | Some backendService =>
      networkingV1.IngressServiceBackend.Name backendService =? MeshService.Name svc
  | None => false
  end.

Definition namesServiceV1beta1 (svc : MeshService.t)
    (backend : networkingV1beta1.IngressBackend.t) : bool :=
  networkingV1beta1.IngressBackend.ServiceName backend =? MeshService.Name svc.

(** The paths of a rule; a rule without an http section has none. *)
Definition pathsOfV1 (rule : networkingV1.IngressRule.t)
  : list networkingV1.HTTPIngressPath.t :=
  match networkingV1.IngressRule.HTTP rule with
  | Some http => networkingV1.HTTPIngressRuleValue.Paths http
  | None => []
  end.

Definition pathsOfV1beta1 (rule : networkingV1beta1.IngressRule.t)
  : list networkingV1beta1.HTTPIngressPath.t :=
  match networkingV1beta1.IngressRule.HTTP rule with
  | Some http => networkingV1beta1.HTTPIngressRuleValue.Paths http
  | None => []
  end.

(** *** Objects all of whose pointers can be followed

    The extractors follow [rule.HTTP] of every rule and, in networking/v1,
    the [Service] of the default backend and of the backend of every path,
    whether or not the object has to do with the service. *)
Definition hasServiceV1 (backend : networkingV1.IngressBackend.t) : bool :=
  match networkingV1.IngressBackend.Service backend with
  | Some _ => true
  | None => false
  end.

Definition pathsReadableV1 (paths : list networkingV1.HTTPIngressPath.t) : bool :=
  forallb (fun ingressPath =>
             hasServiceV1 (networkingV1.HTTPIngressPath.Backend ingressPath))
    paths.

Definition ruleReadableV1 (rule : networkingV1.IngressRule.t) : bool :=
  match networkingV1.IngressRule.HTTP rule with
  | Some http => pathsReadableV1 (networkingV1.HTTPIngressRuleValue.Paths http)
  | None => false
  end.

Definition readableV1 (ingress : networkingV1.Ingress.t) : bool :=
  match networkingV1.IngressSpec.DefaultBackend (networkingV1.Ingress.Spec ingress) with
  | Some backend => hasServiceV1 backend
  | None => true
  end
  && forallb ruleReadableV1
       (networkingV1.IngressSpec.Rules (networkingV1.Ingress.Spec ingress)).

Definition ruleReadableV1beta1 (rule : networkingV1beta1.IngressRule.t) : bool :=
  match networkingV1beta1.IngressRule.HTTP rule with
  | Some _ => true
  | None => false
  end.

Definition readableV1beta1 (ingress : networkingV1beta1.Ingress.t) : bool :=
  forallb ruleReadableV1beta1
    (networkingV1beta1.IngressSpec.Rules (networkingV1beta1.Ingress.Spec ingress)).

(** The route matches that the paths of a rule contribute, in order: one
    for each path whose backend is the service and for which the switch
    builds a route match. *)
Definition routeMatchesNetworkingV1 (svc : MeshService.t)
    (paths : list networkingV1.HTTPIngressPath.t) : list HTTPRouteMatch.t :=
  flat_map
    (fun ingressPath =>
       if namesServiceV1 svc (networkingV1.HTTPIngressPath.Backend ingressPath)
       then match httpRouteMatchNetworkingV1 ingressPath with
            | Ret (Route m) => [m]
            | _ => []
            end
       else [])
    paths.

Definition routeMatchesNetworkingV1beta1 (svc : MeshService.t)
    (paths : list networkingV1beta1.HTTPIngressPath.t) : list HTTPRouteMatch.t :=
  flat_map
    (fun ingressPath =>
       if namesServiceV1beta1 svc
            (networkingV1beta1.HTTPIngressPath.Backend ingressPath)
       then match httpRouteMatchNetworkingV1beta1 ingressPath with
            | Ret (Route m) => [m]
            | _ => []
            end
       else [])
    paths.

(** A policy keyed by exactly one hostname. *)
Definition singleHostname (p : InboundTrafficPolicy.t) : Prop :=
  exists h, InboundTrafficPolicy.Hostnames p = [h].

(** The hostname under which a rule is filed: an empty host is the
    wildcard token. *)
Definition domainOf (host : string) : string :=
  if host =? "" then WildcardHTTPMethod else host.

(** The per-hostname policy of a rule of the object [name]/[namespace]
    once the path loop has added a rule for each of [matches]. *)
Definition hostPolicy (name namespace host : string)
    (ingressWeightedCluster : WeightedCluster.t) (matches : list HTTPRouteMatch.t)
  : InboundTrafficPolicy.t :=
  InboundTrafficPolicy.mk
    (getIngressTrafficPolicyName name namespace (domainOf host))
    [domainOf host]
    (map (ruleFor ingressWeightedCluster) matches).

(** The switch on a path [p] declared with the path type [Prefix]. *)
Definition prefixPathV1 (p : string) (b : networkingV1.IngressBackend.t)
  : outcome pathOutcome :=
  httpRouteMatchNetworkingV1
    (networkingV1.HTTPIngressPath.mk p (Some networkingV1.PathTypePrefix) b).

Definition prefixPathV1beta1 (p : string) (b : networkingV1beta1.IngressBackend.t)
  : outcome pathOutcome :=
  httpRouteMatchNetworkingV1beta1
    (networkingV1beta1.HTTPIngressPath.mk p (Some networkingV1beta1.PathTypePrefix) b).

(** The loops of the extractors over the reading [View.object] of the
    objects. *)
Definition mergeRuleView (c : WeightedCluster.t) (name namespace : string)
    (acc : list InboundTrafficPolicy.t) (r : View.rule)
  : outcome (list InboundTrafficPolicy.t) :=
  let ingressPolicy := hostPolicy name namespace (View.host r) c (View.matches r) in
  if Nat.ltb 0 (List.length (InboundTrafficPolicy.Rules ingressPolicy))
  then MergeInboundPolicies DisallowPartialHostnamesMatch acc ingressPolicy
  else Ret acc.

Fixpoint mergeRulesView (c : WeightedCluster.t) (name namespace : string)
    (acc : list InboundTrafficPolicy.t) (rs : list View.rule)
  : outcome (list InboundTrafficPolicy.t) :=
  match rs with
  | [] => Ret acc
  | r :: rs' =>
      acc <- mergeRuleView c name namespace acc r ;;
      mergeRulesView c name namespace acc rs'
  end.

Definition mergeObjectView (c : WeightedCluster.t)
    (acc : list InboundTrafficPolicy.t) (o : View.object)
  : outcome (list InboundTrafficPolicy.t) :=
  acc <- (if View.defaultBackendIsService o
          then MergeInboundPolicies DisallowPartialHostnamesMatch acc
                 (wildcardIngressPolicy (View.name o) (View.namespace o) c)
          else Ret acc) ;;
  mergeRulesView c (View.name o) (View.namespace o) acc (View.rules o).

Fixpoint mergeObjectsView (c : WeightedCluster.t)
    (acc : list InboundTrafficPolicy.t) (os : list View.object)
  : outcome (list InboundTrafficPolicy.t) :=
  match os with
  | [] => Ret acc
  | o :: os' =>
      acc <- mergeObjectView c acc o ;;
      mergeObjectsView c acc os'
  end.

(** The reading of an object all of whose pointers can be followed. *)
Definition ruleViewNetworkingV1 (svc : MeshService.t) (rule : networkingV1.IngressRule.t)
  : View.rule :=
  View.mkRule (networkingV1.IngressRule.Host rule)
    (routeMatchesNetworkingV1 svc (pathsOfV1 rule)).

Definition viewNetworkingV1 (svc : MeshService.t) (ingress : networkingV1.Ingress.t)
  : View.object :=
  View.mkObject (networkingV1.Ingress.Name ingress)
    (networkingV1.Ingress.Namespace ingress)
    match networkingV1.IngressSpec.DefaultBackend (networkingV1.Ingress.Spec ingress) with
    | Some backend => namesServiceV1 svc backend
    | None => false
    end
    (map (ruleViewNetworkingV1 svc)
       (networkingV1.IngressSpec.Rules (networkingV1.Ingress.Spec ingress))).

Definition ruleViewNetworkingV1beta1 (svc : MeshService.t)
    (rule : networkingV1beta1.IngressRule.t) : View.rule :=
  View.mkRule (networkingV1beta1.IngressRule.Host rule)
    (routeMatchesNetworkingV1beta1 svc (pathsOfV1beta1 rule)).

Definition viewNetworkingV1beta1 (svc : MeshService.t)
    (ingress : networkingV1beta1.Ingress.t) : View.object :=
  View.mkObject (networkingV1beta1.Ingress.Name ingress)
    (networkingV1beta1.Ingress.Namespace ingress)
    match networkingV1beta1.IngressSpec.Backend
            (networkingV1beta1.Ingress.Spec ingress) with
    | Some backend => namesServiceV1beta1 svc backend
    | None => false
    end
    (map (ruleViewNetworkingV1beta1 svc)
       (networkingV1beta1.IngressSpec.Rules (networkingV1beta1.Ingress.Spec ingress))).

(** An object [name]/[namespace] one of whose rules, for [host], has the
    paths [paths]. *)
Definition objectWithPathsV1 (name namespace : string)
    (defaultBackend : option networkingV1.IngressBackend.t)
    (rs1 : list networkingV1.IngressRule.t) (host : string)
    (paths : list networkingV1.HTTPIngressPath.t)
    (rs2 : list networkingV1.IngressRule.t) : networkingV1.Ingress.t :=
  networkingV1.Ingress.mk name namespace
    (networkingV1.IngressSpec.mk defaultBackend
       (rs1 ++ networkingV1.IngressRule.mk host
                 (Some (networkingV1.HTTPIngressRuleValue.mk paths)) :: rs2)).


(** An object [name]/[namespace] one of whose rules, for [host], has the
    paths [paths]. *)
Definition objectWithPathsV1beta1 (name namespace : string)
    (defaultBackend : option networkingV1beta1.IngressBackend.t)
    (rs1 : list networkingV1beta1.IngressRule.t) (host : string)
    (paths : list networkingV1beta1.HTTPIngressPath.t)
    (rs2 : list networkingV1beta1.IngressRule.t) : networkingV1beta1.Ingress.t :=
  networkingV1beta1.Ingress.mk name namespace
    (networkingV1beta1.IngressSpec.mk defaultBackend
       (rs1 ++ networkingV1beta1.IngressRule.mk host
                 (Some (networkingV1beta1.HTTPIngressRuleValue.mk paths)) :: rs2)).


(** *** The same object in the two schema versions, field for field

    A backend that refers to a resource instead of a service has no
    [Service] in networking/v1 and an empty service name in
    networking/v1beta1. *)

Definition sameBackend (b1 : networkingV1.IngressBackend.t)
    (b2 : networkingV1beta1.IngressBackend.t) : Prop :=
  match networkingV1.IngressBackend.Service b1 with
  | Some backendService =>
      networkingV1.IngressServiceBackend.Name backendService
      = networkingV1beta1.IngressBackend.ServiceName b2
  | None => networkingV1beta1.IngressBackend.ServiceName b2 = EmptyString
  end.

Definition samePath (p1 : networkingV1.HTTPIngressPath.t)
    (p2 : networkingV1beta1.HTTPIngressPath.t) : Prop :=
  networkingV1.HTTPIngressPath.Path p1 = networkingV1beta1.HTTPIngressPath.Path p2
  /\ networkingV1.HTTPIngressPath.PathType p1
     = networkingV1beta1.HTTPIngressPath.PathType p2
  /\ sameBackend (networkingV1.HTTPIngressPath.Backend p1)
       (networkingV1beta1.HTTPIngressPath.Backend p2).

Definition sameRule (r1 : networkingV1.IngressRule.t)
    (r2 : networkingV1beta1.IngressRule.t) : Prop :=
  networkingV1.IngressRule.Host r1 = networkingV1beta1.IngressRule.Host r2
  /\ match networkingV1.IngressRule.HTTP r1, networkingV1beta1.IngressRule.HTTP r2 with
     | Some http1, Some http2 =>
         Forall2 samePath (networkingV1.HTTPIngressRuleValue.Paths http1)
           (networkingV1beta1.HTTPIngressRuleValue.Paths http2)
     | None, None => True
     | _, _ => False
     end.

Definition sameDefaultBackend (b1 : option networkingV1.IngressBackend.t)
    (b2 : option networkingV1beta1.IngressBackend.t) : Prop :=
  match b1, b2 with
  | Some b1, Some b2 => sameBackend b1 b2
  | None, None => True
  | _, _ => False
  end.

Definition sameIngress (i1 : networkingV1.Ingress.t)
    (i2 : networkingV1beta1.Ingress.t) : Prop :=
  networkingV1.Ingress.Name i1 = networkingV1beta1.Ingress.Name i2
  /\ networkingV1.Ingress.Namespace i1 = networkingV1beta1.Ingress.Namespace i2
  /\ sameDefaultBackend
       (networkingV1.IngressSpec.DefaultBackend (networkingV1.Ingress.Spec i1))
       (networkingV1beta1.IngressSpec.Backend (networkingV1beta1.Ingress.Spec i2))
  /\ Forall2 sameRule
       (networkingV1.IngressSpec.Rules (networkingV1.Ingress.Spec i1))
       (networkingV1beta1.IngressSpec.Rules (networkingV1beta1.Ingress.Spec i2)).

(** The backend naming the service, in each version. *)
Definition backendOfV1 (svc : MeshService.t) : networkingV1.IngressBackend.t :=
  networkingV1.IngressBackend.mk
    (Some (networkingV1.IngressServiceBackend.mk (MeshService.Name svc))).

Definition backendOfV1beta1 (svc : MeshService.t) : networkingV1beta1.IngressBackend.t :=
  networkingV1beta1.IngressBackend.mk (MeshService.Name svc).

(** The catalog [mc] with another port-to-protocol resolver. *)
Definition withResolver (mc : MeshCatalog.t)
    (resolver : MeshService.t -> list (N * string) * option error) : MeshCatalog.t :=
  MeshCatalog.mk (MeshCatalog.GetIngressNetworkingV1 mc)
    (MeshCatalog.GetIngressNetworkingV1beta1 mc)
    (MeshCatalog.EnableIngressBackendPolicy mc)
    (MeshCatalog.UseHTTPSIngress mc)
    resolver.

(** What a schema version contributes to the fan-out: nothing when its
    extractor returned an error. *)
Definition contribution (policies : list InboundTrafficPolicy.t) (err : option error)
  : list InboundTrafficPolicy.t :=
  match err with
  | Some _ => []
  | None => policies
  end.


(** A path that gets a rule: its backend is the service, and its path type
    is unset or one of the three known tags. *)
Definition eligibleV1 (svc : MeshService.t)
    (ingressPath : networkingV1.HTTPIngressPath.t) : bool :=
  namesServiceV1 svc (networkingV1.HTTPIngressPath.Backend ingressPath)
  && match networkingV1.HTTPIngressPath.PathType ingressPath with
     | None => true
     | Some pt =>
         (pt =? "Exact") || (pt =? "Prefix") || (pt =? "ImplementationSpecific")
     end.

(** An object that names the service, as its default backend or as the
    backend of one of its paths. *)
Definition targetsV1 (svc : MeshService.t) (ingress : networkingV1.Ingress.t) : bool :=
  match networkingV1.IngressSpec.DefaultBackend (networkingV1.Ingress.Spec ingress) with
  | Some backend => namesServiceV1 svc backend
  | None => false
  end
  || existsb
       (fun rule =>
          existsb
            (fun ingressPath =>
               namesServiceV1 svc (networkingV1.HTTPIngressPath.Backend ingressPath))
            (pathsOfV1 rule))
       (networkingV1.IngressSpec.Rules (networkingV1.Ingress.Spec ingress)).


(** A path that gets a rule: its backend is the service, and its path type
    is unset or one of the three known tags. *)
Definition eligibleV1beta1 (svc : MeshService.t)
    (ingressPath : networkingV1beta1.HTTPIngressPath.t) : bool :=
  namesServiceV1beta1 svc (networkingV1beta1.HTTPIngressPath.Backend ingressPath)
  && match networkingV1beta1.HTTPIngressPath.PathType ingressPath with
     | None => true
     | Some pt =>
         (pt =? "Exact") || (pt =? "Prefix") || (pt =? "ImplementationSpecific")
     end.

(** An object that names the service, as its default backend or as the
    backend of one of its paths. *)
Definition targetsV1beta1 (svc : MeshService.t) (ingress : networkingV1beta1.Ingress.t) : bool :=
  match networkingV1beta1.IngressSpec.Backend (networkingV1beta1.Ingress.Spec ingress) with
  | Some backend => namesServiceV1beta1 svc backend
  | None => false
  end
  || existsb
       (fun rule =>
          existsb
            (fun ingressPath =>
               namesServiceV1beta1 svc
                 (networkingV1beta1.HTTPIngressPath.Backend ingressPath))
            (pathsOfV1beta1 rule))
       (networkingV1beta1.IngressSpec.Rules (networkingV1beta1.Ingress.Spec ingress)).


(** The shape of the rules the extractors add: the caller identity is the
    wildcard identity, the only weighted cluster is [c], and the route
    match is the wildcard route match or has the wildcard method alone. *)
Definition ingressRule (c : WeightedCluster.t) (r : Rule.t) : Prop :=
  Rule.AllowedServiceIdentity r = WildcardServiceIdentity
  /\ RouteWeightedClusters.WeightedClusters (Rule.Route r) = [c]
  /\ (RouteWeightedClusters.HTTPRouteMatch (Rule.Route r) = WildCardRouteMatch
      \/ HTTPRouteMatch.Methods (RouteWeightedClusters.HTTPRouteMatch (Rule.Route r))
         = [WildcardHTTPMethod]).

(** The policy [p] is filed under one hostname and named after one of the
    objects and that hostname; the hostname is the wildcard token or the
    non-empty host of a rule of that object. *)
Definition filedUnderView (os : list View.object) (p : InboundTrafficPolicy.t) : Prop :=
  exists o h,
    In o os
    /\ InboundTrafficPolicy.Hostnames p = [h]
    /\ InboundTrafficPolicy.Name p
       = getIngressTrafficPolicyName (View.name o) (View.namespace o) h
    /\ (h = WildcardHTTPMethod
        \/ (h <> EmptyString /\ exists r, In r (View.rules o) /\ View.host r = h)).

Definition filedUnderV1 (ingresses : list networkingV1.Ingress.t)
    (p : InboundTrafficPolicy.t) : Prop :=
  exists ingress h,
    In ingress ingresses
    /\ InboundTrafficPolicy.Hostnames p = [h]
    /\ InboundTrafficPolicy.Name p
       = getIngressTrafficPolicyName (networkingV1.Ingress.Name ingress)
           (networkingV1.Ingress.Namespace ingress) h
    /\ (h = WildcardHTTPMethod
        \/ (h <> EmptyString
            /\ exists rule,
                In rule (networkingV1.IngressSpec.Rules (networkingV1.Ingress.Spec ingress))
                /\ networkingV1.IngressRule.Host rule = h)).


Definition filedUnderV1beta1 (ingresses : list networkingV1beta1.Ingress.t)
    (p : InboundTrafficPolicy.t) : Prop :=
  exists ingress h,
    In ingress ingresses
    /\ InboundTrafficPolicy.Hostnames p = [h]
    /\ InboundTrafficPolicy.Name p
       = getIngressTrafficPolicyName (networkingV1beta1.Ingress.Name ingress)
           (networkingV1beta1.Ingress.Namespace ingress) h
    /\ (h = WildcardHTTPMethod
        \/ (h <> EmptyString
            /\ exists rule,
                In rule (networkingV1beta1.IngressSpec.Rules (networkingV1beta1.Ingress.Spec ingress))
                /\ networkingV1beta1.IngressRule.Host rule = h)).


(** The character [c] occurs in the string [s]. *)
Definition occurs (c : ascii) (s : string) : Prop := In c (list_ascii_of_string s).


(** An object whose only rule, for [host], has the paths [paths]. *)
Definition objectWithRuleV1 (name namespace : string)
    (defaultBackend : option networkingV1.IngressBackend.t) (host : string)
    (paths : list networkingV1.HTTPIngressPath.t) : networkingV1.Ingress.t :=
  objectWithPathsV1 name namespace defaultBackend [] host paths [].


(** An object whose only rule, for [host], has the paths [paths]. *)
Definition objectWithRuleV1beta1 (name namespace : string)
    (defaultBackend : option networkingV1beta1.IngressBackend.t) (host : string)
    (paths : list networkingV1beta1.HTTPIngressPath.t) : networkingV1beta1.Ingress.t :=
  objectWithPathsV1beta1 name namespace defaultBackend [] host paths [].

(** The V1 extractor can follow every pointer of the objects that the
    ingress monitor returns; with an error of the monitor it follows none. *)
Definition fetchReadableV1 (mc : MeshCatalog.t) (svc : MeshService.t) : bool :=
  match snd (MeshCatalog.GetIngressNetworkingV1 mc svc) with
  | Some _ => true
  | None => forallb readableV1 (fst (MeshCatalog.GetIngressNetworkingV1 mc svc))
  end.

(** The V1beta1 extractor can follow every pointer of the objects that the
    ingress monitor returns; with an error of the monitor it follows none. *)
Definition fetchReadableV1beta1 (mc : MeshCatalog.t) (svc : MeshService.t) : bool :=
  match snd (MeshCatalog.GetIngressNetworkingV1beta1 mc svc) with
  | Some _ => true
  | None => forallb readableV1beta1 (fst (MeshCatalog.GetIngressNetworkingV1beta1 mc svc))
  end.

(** Every backend of a networking/v1 object refers to a service. *)
Definition backendsAreServicesV1 (ingress : networkingV1.Ingress.t) : bool :=
  match networkingV1.IngressSpec.DefaultBackend (networkingV1.Ingress.Spec ingress) with
  | Some backend => hasServiceV1 backend
  | None => true
  end
  && forallb (fun rule => pathsReadableV1 (pathsOfV1 rule))
       (networkingV1.IngressSpec.Rules (networkingV1.Ingress.Spec ingress)).

(** A backend that refers to a resource instead of a service, in each
    version, and an object whose only rule has a host and no http section. *)
Definition resourceBackendV1 : networkingV1.IngressBackend.t :=
  networkingV1.IngressBackend.mk None.

Definition resourceBackendV1beta1 : networkingV1beta1.IngressBackend.t :=
  networkingV1beta1.IngressBackend.mk EmptyString.

Definition hostOnlyObjectV1 (name namespace host : string) : networkingV1.Ingress.t :=
  networkingV1.Ingress.mk name namespace
    (networkingV1.IngressSpec.mk None [networkingV1.IngressRule.mk host None]).

Definition hostOnlyObjectV1beta1 (name namespace host : string)
  : networkingV1beta1.Ingress.t :=
  networkingV1beta1.Ingress.mk name namespace
    (networkingV1beta1.IngressSpec.mk None [networkingV1beta1.IngressRule.mk host None]).

(** ** Facts about the string functions *)

Lemma IndexByte_slash (c : ascii) :
  strings.IndexByte "/" c = true <-> c = "/"%char.
Proof.
  unfold strings.IndexByte. simpl. rewrite orb_false_r. apply Ascii.eqb_eq.
Qed.

Lemma TrimRight_cons (c : ascii) (s cutset : string) :
  strings.TrimRight (String c s) cutset =
  match strings.TrimRight s cutset with
  | EmptyString => if strings.IndexByte cutset c then EmptyString
                   else String c EmptyString
  | t => String c t
  end.
Proof. reflexivity. Qed.

Lemma TrimRight_snoc (s cutset : string) (c : ascii) :
  strings.IndexByte cutset c = true ->
  strings.TrimRight (s ++ String c EmptyString) cutset = strings.TrimRight s cutset.
Proof.
  intros Hc. induction s as [|a s IH].
  - simpl. rewrite Hc. reflexivity.
  - change ((String a s ++ String c "")%string) with (String a (s ++ String c "")).
    rewrite !TrimRight_cons, IH. reflexivity.
Qed.

Lemma TrimRight_slashes (s : string) :
  exists n, s = (strings.TrimRight s "/" ++ slashes n)%string.
Proof.
  induction s as [|a s [n IH]].
  - exists O. reflexivity.
  - rewrite TrimRight_cons. destruct (strings.TrimRight s "/") as [|x t] eqn:E.
    + destruct (strings.IndexByte "/" a) eqn:Ha.
      * apply IndexByte_slash in Ha. subst a. exists (S n). simpl in *.
        f_equal. exact IH.
      * exists n. simpl in *. f_equal. exact IH.
    + exists n. simpl in *. f_equal. exact IH.
Qed.

Lemma append_snoc_nonempty (u : string) (c : ascii) :
  (u ++ String c "")%string <> EmptyString.
Proof. destruct u; discriminate. Qed.

Lemma TrimRight_last (s cutset u : string) (c : ascii) :
  strings.TrimRight s cutset = (u ++ String c "")%string ->
  strings.IndexByte cutset c = false.
Proof.
  revert u. induction s as [|a s IH]; intros u H.
  - simpl in H. symmetry in H. now apply append_snoc_nonempty in H.
  - rewrite TrimRight_cons in H.
    destruct (strings.TrimRight s cutset) as [|x t] eqn:E.
    + destruct (strings.IndexByte cutset a) eqn:Ha.
      * symmetry in H. now apply append_snoc_nonempty in H.
      * destruct u as [|y u]; simpl in H.
        -- injection H as ->. exact Ha.
        -- injection H as _ H. symmetry in H. now apply append_snoc_nonempty in H.
    + destruct u as [|y u]; simpl in H.
      * discriminate.
      * injection H as _ H. apply (IH u). exact H.
Qed.

Lemma TrimRight_stripped (p : string) :
  trailingSlashesStripped p (strings.TrimRight p "/").
Proof.
  split.
  - apply TrimRight_slashes.
  - intros u H. apply TrimRight_last in H. simpl in H. discriminate.
Qed.

Lemma slashes_snoc (n : nat) : slashes (S n) = (slashes n ++ "/")%string.
Proof. induction n as [|n IH]; [reflexivity|]. simpl in *. now rewrite <- IH. Qed.

Lemma slashes_prefix (t s : string) (n : nat) :
  (t ++ s)%string = slashes n -> exists k, t = slashes k.
Proof.
  revert n. induction t as [|a t IH]; intros n H.
  - now exists O.
  - destruct n as [|n]; simpl in H; [discriminate|].
    injection H as -> H. destruct (IH n H) as [k ->]. now exists (S k).
Qed.

Lemma slashes_prefix_empty (t s : string) (n : nat) :
  (t ++ s)%string = slashes n -> (forall u, t <> (u ++ "/")%string) ->
  t = EmptyString.
Proof.
  intros H Ht. destruct (slashes_prefix t s n H) as [[|k] ->]; [reflexivity|].
  exfalso. apply (Ht (slashes k)). apply slashes_snoc.
Qed.

(** The stripped path is determined by the path. *)
Lemma trailingSlashesStripped_unique (p t t' : string) :
  trailingSlashesStripped p t -> trailingSlashesStripped p t' -> t = t'.
Proof.
  intros [[n ->] Ht] [[n' H] Ht']. revert t' H Ht'.
  induction t as [|a t IH]; intros t' H Ht'.
  - symmetry. apply (slashes_prefix_empty t' (slashes n') n); [now symmetry|exact Ht'].
  - destruct t' as [|a' t'].
    + apply (slashes_prefix_empty (String a t) (slashes n) n'); [exact H|exact Ht].
    + simpl in H. injection H as -> H. f_equal. apply IH; trivial.
      * intros u E. apply (Ht (String a' u)). simpl. now rewrite E.
      * intros u E. apply (Ht' (String a' u)). simpl. now rewrite E.
Qed.

Lemma append_slash_root (p : string) :
  (p ++ "/")%string = "/" -> p = EmptyString.
Proof.
  destruct p as [|a p]; [reflexivity|].
  simpl. intros H. injection H as _ H. now apply append_snoc_nonempty in H.
Qed.

Lemma ContainsAny_spec (s chars : string) :
  strings.ContainsAny s chars = true <->
  exists c, In c (list_ascii_of_string s) /\ In c (list_ascii_of_string chars).
Proof.
  unfold strings.ContainsAny, strings.IndexByte. rewrite existsb_exists.
  split; intros [c [Hs Hc]]; exists c; split; trivial.
  - apply existsb_exists in Hc. destruct Hc as [d [Hd E]].
    apply Ascii.eqb_eq in E. now subst.
  - apply existsb_exists. exists c. split; trivial. apply Ascii.eqb_refl.
Qed.

Lemma ContainsAny_regexChars (p : string) :
  strings.ContainsAny p commonRegexChars = true <-> containsRegexChar p.
Proof. apply ContainsAny_spec. Qed.

(** ** The path-type switch, case by case *)

Ltac switch_cases :=
  unfold httpRouteMatchNetworkingV1, httpRouteMatchNetworkingV1beta1; cbn.

Lemma switchV1_Exact p b :
  httpRouteMatchNetworkingV1
    (networkingV1.HTTPIngressPath.mk p (Some networkingV1.PathTypeExact) b)
  = Ret (Route (HTTPRouteMatch.mk p PathMatchExact [WildcardHTTPMethod])).
Proof. reflexivity. Qed.

Lemma switchV1beta1_Exact p b :
  httpRouteMatchNetworkingV1beta1
    (networkingV1beta1.HTTPIngressPath.mk p (Some networkingV1beta1.PathTypeExact) b)
  = Ret (Route (HTTPRouteMatch.mk p PathMatchExact [WildcardHTTPMethod])).
Proof. reflexivity. Qed.

Lemma switchV1_Prefix p b :
  httpRouteMatchNetworkingV1
    (networkingV1.HTTPIngressPath.mk p (Some networkingV1.PathTypePrefix) b)
  = Ret (Route
           (if p =? "/" then HTTPRouteMatch.mk p PathMatchPrefix [WildcardHTTPMethod]
            else HTTPRouteMatch.mk
                   (strings.TrimRight p "/" ++ prefixMatchPathElementsRegex)
                   PathMatchRegex [WildcardHTTPMethod])).
Proof. switch_cases. destruct (p =? "/"); reflexivity. Qed.

Lemma switchV1beta1_Prefix p b :
  httpRouteMatchNetworkingV1beta1
    (networkingV1beta1.HTTPIngressPath.mk p (Some networkingV1beta1.PathTypePrefix) b)
  = Ret (Route
           (if p =? "/" then HTTPRouteMatch.mk p PathMatchPrefix [WildcardHTTPMethod]
            else HTTPRouteMatch.mk
                   (strings.TrimRight p "/" ++ prefixMatchPathElementsRegex)
                   PathMatchRegex [WildcardHTTPMethod])).
Proof. switch_cases. destruct (p =? "/"); reflexivity. Qed.

Lemma switchV1_ImplementationSpecific p b :
  httpRouteMatchNetworkingV1
    (networkingV1.HTTPIngressPath.mk p
       (Some networkingV1.PathTypeImplementationSpecific) b)
  = Ret (Route (implementationSpecificMatch p)).
Proof.
  switch_cases. unfold implementationSpecificMatch, strings.ContainsAny.
  destruct (existsb _ _); reflexivity.
Qed.

Lemma switchV1beta1_ImplementationSpecific p b :
  httpRouteMatchNetworkingV1beta1
    (networkingV1beta1.HTTPIngressPath.mk p
       (Some networkingV1beta1.PathTypeImplementationSpecific) b)
  = Ret (Route (implementationSpecificMatch p)).
Proof.
  switch_cases. unfold implementationSpecificMatch, strings.ContainsAny.
  destruct (existsb _ _); reflexivity.
Qed.

Lemma switchV1_unset p b :
  httpRouteMatchNetworkingV1 (networkingV1.HTTPIngressPath.mk p None b)
  = Ret (Route (implementationSpecificMatch p)).
Proof.
  switch_cases. unfold implementationSpecificMatch, strings.ContainsAny.
  destruct (existsb _ _); reflexivity.
Qed.

Lemma switchV1beta1_unset p b :
  httpRouteMatchNetworkingV1beta1 (networkingV1beta1.HTTPIngressPath.mk p None b)
  = Ret (Route (implementationSpecificMatch p)).
Proof.
  switch_cases. unfold implementationSpecificMatch, strings.ContainsAny.
  destruct (existsb _ _); reflexivity.
Qed.

Lemma knownPathType_eqb pt :
  ~ knownPathType pt ->
  (pt =? "Exact") = false /\ (pt =? "Prefix") = false
  /\ (pt =? "ImplementationSpecific") = false.
Proof.
  unfold knownPathType. intros H.
  repeat split; apply String.eqb_neq; intros E; apply H; auto.
Qed.

Lemma switchV1_unknown p pt b :
  ~ knownPathType pt ->
  httpRouteMatchNetworkingV1 (networkingV1.HTTPIngressPath.mk p (Some pt) b)
  = Ret (InvalidPathType pt).
Proof.
  intros H. apply knownPathType_eqb in H. destruct H as [E1 [E2 E3]].
  unfold httpRouteMatchNetworkingV1, networkingV1.PathTypeExact,
    networkingV1.PathTypePrefix, networkingV1.PathTypeImplementationSpecific.
  cbn [networkingV1.HTTPIngressPath.PathType networkingV1.HTTPIngressPath.Path].
  rewrite E1, E2, E3. reflexivity.
Qed.

Lemma switchV1beta1_unknown p pt b :
  ~ knownPathType pt ->
  httpRouteMatchNetworkingV1beta1
    (networkingV1beta1.HTTPIngressPath.mk p (Some pt) b)
  = Ret (InvalidPathType pt).
Proof.
  intros H. apply knownPathType_eqb in H. destruct H as [E1 [E2 E3]].
  unfold httpRouteMatchNetworkingV1beta1, networkingV1beta1.PathTypeExact,
    networkingV1beta1.PathTypePrefix,
    networkingV1beta1.PathTypeImplementationSpecific.
  cbn [networkingV1beta1.HTTPIngressPath.PathType
       networkingV1beta1.HTTPIngressPath.Path].
  rewrite E1, E2, E3. reflexivity.
Qed.

Lemma knownPathType_dec pt : {knownPathType pt} + {~ knownPathType pt}.
Proof.
  unfold knownPathType.
  destruct (string_dec pt "Exact"); [left; auto|].
  destruct (string_dec pt "Prefix"); [left; auto|].
  destruct (string_dec pt "ImplementationSpecific"); [left; auto|].
  right. intros [H|[H|H]]; contradiction.
Qed.

(** The switch returns for every path: it builds a route match, or reaches
    its [default] branch with the path type it read through a non-nil
    pointer, a tag outside the known ones. *)
Lemma switchV1_returns ingressPath :
  (exists m, httpRouteMatchNetworkingV1 ingressPath = Ret (Route m))
  \/ (exists pt, networkingV1.HTTPIngressPath.PathType ingressPath = Some pt
                 /\ ~ knownPathType pt
                 /\ httpRouteMatchNetworkingV1 ingressPath = Ret (InvalidPathType pt)).
Proof.
  destruct ingressPath as [p [pt|] b].
  - destruct (knownPathType_dec pt) as [[-> | [-> | ->]] | H].
    + left. eexists. apply switchV1_Exact.
    + left. eexists. apply switchV1_Prefix.
    + left. eexists. apply switchV1_ImplementationSpecific.
    + right. exists pt. repeat split; trivial. now apply switchV1_unknown.
  - left. eexists. apply switchV1_unset.
Qed.

Lemma switchV1beta1_returns ingressPath :
  (exists m, httpRouteMatchNetworkingV1beta1 ingressPath = Ret (Route m))
  \/ (exists pt, networkingV1beta1.HTTPIngressPath.PathType ingressPath = Some pt
                 /\ ~ knownPathType pt
                 /\ httpRouteMatchNetworkingV1beta1 ingressPath
                    = Ret (InvalidPathType pt)).
Proof.
  destruct ingressPath as [p [pt|] b].
  - destruct (knownPathType_dec pt) as [[-> | [-> | ->]] | H].
    + left. eexists. apply switchV1beta1_Exact.
    + left. eexists. apply switchV1beta1_Prefix.
    + left. eexists. apply switchV1beta1_ImplementationSpecific.
    + right. exists pt. repeat split; trivial. now apply switchV1beta1_unknown.
  - left. eexists. apply switchV1beta1_unset.
Qed.

(** ** The path loop as a function of the paths *)

Lemma appendRules_nil pol : appendRules pol [] = pol.
Proof. destruct pol. unfold appendRules. simpl. now rewrite app_nil_r. Qed.

Lemma appendRules_AddRule pol route allowed rules :
  appendRules (AddRule pol route allowed) rules
  = appendRules pol (Rule.mk route allowed :: rules).
Proof. unfold appendRules, AddRule. simpl. now rewrite <- app_assoc. Qed.


(** The networking/v1 path loop reads the [Service] of the backend of
    every path: it returns when every path has one, and panics otherwise. *)
Lemma pathsNetworkingV1_outcome svc c pol paths :
  pathsNetworkingV1 svc c pol paths
  = if pathsReadableV1 paths
    then Ret (appendRules pol (map (ruleFor c) (routeMatchesNetworkingV1 svc paths)))
    else Abort (NilPointerDereference ServicePointer).
Proof.
  revert pol. induction paths as [|ip paths IH]; intros pol.
  - simpl. now rewrite appendRules_nil.
  - cbn [pathsNetworkingV1 pathsReadableV1 routeMatchesNetworkingV1 flat_map forallb].
    fold (routeMatchesNetworkingV1 svc paths). fold (pathsReadableV1 paths).
    unfold namesServiceV1, hasServiceV1.
    destruct (networkingV1.IngressBackend.Service _) as [backendService|];
      [|reflexivity].
    cbn [deref bind andb].
    destruct (_ =? MeshService.Name svc); cbn [negb].
    + destruct (switchV1_returns ip) as [[m E]|[pt [_ [_ E]]]]; rewrite E;
        cbn [bind app]; rewrite IH.
      * destruct (pathsReadableV1 paths); [|reflexivity].
        now rewrite appendRules_AddRule.
      * reflexivity.
    + apply IH.
Qed.

Lemma pathsNetworkingV1_eq svc c pol paths :
  pathsReadableV1 paths = true ->
  pathsNetworkingV1 svc c pol paths
  = Ret (appendRules pol (map (ruleFor c) (routeMatchesNetworkingV1 svc paths))).
Proof. intros H. now rewrite pathsNetworkingV1_outcome, H. Qed.

Lemma pathsNetworkingV1beta1_eq svc c pol paths :
  pathsNetworkingV1beta1 svc c pol paths
  = Ret (appendRules pol
           (map (ruleFor c) (routeMatchesNetworkingV1beta1 svc paths))).
Proof.
  revert pol. induction paths as [|ip paths IH]; intros pol.
  - simpl. now rewrite appendRules_nil.
  - cbn [pathsNetworkingV1beta1 routeMatchesNetworkingV1beta1 flat_map].
    fold (routeMatchesNetworkingV1beta1 svc paths). unfold namesServiceV1beta1.
    destruct (_ =? MeshService.Name svc); cbn [negb].
    + destruct (switchV1beta1_returns ip) as [[m E]|[pt [_ [_ E]]]]; rewrite E;
        cbn [bind app]; rewrite IH.
      * now rewrite appendRules_AddRule.
      * reflexivity.
    + apply IH.
Qed.

Lemma pathsReadableV1_app ps1 ps2 :
  pathsReadableV1 (ps1 ++ ps2) = pathsReadableV1 ps1 && pathsReadableV1 ps2.
Proof. apply forallb_app. Qed.

(** ** Facts about the merger *)

Lemma MergeInboundPolicies_nil strategy candidate :
  MergeInboundPolicies strategy [] candidate = Ret [candidate].
Proof. reflexivity. Qed.

Lemma MergeInboundPolicies_partial strategy existing candidate p :
  In p existing ->
  hostnamesPartiallyOverlap (InboundTrafficPolicy.Hostnames p)
    (InboundTrafficPolicy.Hostnames candidate) = true ->
  MergeInboundPolicies strategy existing candidate = Abort AmbiguousHostnameOverlap.
Proof.
  intros Hin Hp. unfold MergeInboundPolicies.
  assert (E : existsb
                (fun q => hostnamesPartiallyOverlap (InboundTrafficPolicy.Hostnames q)
                            (InboundTrafficPolicy.Hostnames candidate)) existing = true).
  { apply existsb_exists. exists p. auto. }
  cbv zeta. rewrite E. reflexivity.
Qed.

Lemma MergeInboundPolicies_Abort strategy existing candidate c :
  MergeInboundPolicies strategy existing candidate = Abort c ->
  c = AmbiguousHostnameOverlap.
Proof.
  unfold MergeInboundPolicies. cbv zeta.
  destruct (existsb _ existing); [intros H; now injection H|].
  destruct (existsb _ existing); discriminate.
Qed.

Lemma hostnamesPartiallyOverlap_single h d :
  hostnamesPartiallyOverlap [h] [d] = false.
Proof.
  unfold hostnamesPartiallyOverlap, hostnamesMatch, hostnamesDisjoint, hasHostname.
  simpl. rewrite (String.eqb_sym d h). destruct (h =? d); reflexivity.
Qed.

Lemma appendRules_singleHostname p rules :
  singleHostname p -> singleHostname (appendRules p rules).
Proof. intros [h H]. exists h. exact H. Qed.

Lemma MergeInboundPolicies_single strategy existing candidate :
  Forall singleHostname existing -> singleHostname candidate ->
  exists merged, MergeInboundPolicies strategy existing candidate = Ret merged
                 /\ Forall singleHostname merged.
Proof.
  intros Hex [d Hd]. unfold MergeInboundPolicies. cbv zeta.
  assert (E : existsb
                (fun q => hostnamesPartiallyOverlap (InboundTrafficPolicy.Hostnames q)
                            (InboundTrafficPolicy.Hostnames candidate)) existing = false).
  { rewrite Hd. clear - Hex. induction Hex as [|q l [h Hq] _ IH]; [reflexivity|].
    simpl. rewrite Hq, hostnamesPartiallyOverlap_single. exact IH. }
  rewrite E. clear E. destruct (existsb _ existing); eexists; split; try reflexivity.
  - induction Hex as [|q l Hq _ IH]; simpl; constructor; trivial.
    destruct (hostnamesMatch _ _); trivial.
  - apply Forall_app. split; trivial. constructor; [exists d; exact Hd|constructor].
Qed.



(** ** The loops over the reading of the objects *)

Lemma bind_bind {A B C : Type} (m : outcome A) (f : A -> outcome B)
    (g : B -> outcome C) :
  bind (bind m f) g = bind m (fun a => bind (f a) g).
Proof. destruct m; reflexivity. Qed.

Lemma mergeRulesView_app c name ns acc rs1 rs2 :
  mergeRulesView c name ns acc (rs1 ++ rs2)
  = (acc1 <- mergeRulesView c name ns acc rs1 ;;
     mergeRulesView c name ns acc1 rs2).
Proof.
  revert acc. induction rs1 as [|r rs1 IH]; intros acc; [reflexivity|].
  cbn [app mergeRulesView]. rewrite bind_bind.
  destruct (mergeRuleView c name ns acc r); cbn [bind]; [apply IH|reflexivity].
Qed.

Lemma mergeObjectsView_app c acc os1 os2 :
  mergeObjectsView c acc (os1 ++ os2)
  = (acc1 <- mergeObjectsView c acc os1 ;; mergeObjectsView c acc1 os2).
Proof.
  revert acc. induction os1 as [|o os1 IH]; intros acc; [reflexivity|].
  cbn [app mergeObjectsView]. rewrite bind_bind.
  destruct (mergeObjectView c acc o); cbn [bind]; [apply IH|reflexivity].
Qed.


Lemma mergeRuleView_single c name ns acc r :
  Forall singleHostname acc ->
  exists acc', mergeRuleView c name ns acc r = Ret acc'
               /\ Forall singleHostname acc'.
Proof.
  intros H. unfold mergeRuleView. cbv zeta. destruct (Nat.ltb _ _).
  - apply MergeInboundPolicies_single; trivial. now eexists.
  - now exists acc.
Qed.

Lemma mergeRulesView_single c name ns acc rs :
  Forall singleHostname acc ->
  exists acc', mergeRulesView c name ns acc rs = Ret acc'
               /\ Forall singleHostname acc'.
Proof.
  revert acc. induction rs as [|r rs IH]; intros acc H.
  - now exists acc.
  - cbn [mergeRulesView].
    destruct (mergeRuleView_single c name ns acc r H) as [acc1 [E H1]].
    rewrite E. cbn [bind]. now apply IH.
Qed.

Lemma mergeObjectView_single c acc o :
  Forall singleHostname acc ->
  exists acc', mergeObjectView c acc o = Ret acc' /\ Forall singleHostname acc'.
Proof.
  intros H. unfold mergeObjectView.
  assert (W : singleHostname (wildcardIngressPolicy (View.name o) (View.namespace o) c))
    by now eexists.
  destruct (MergeInboundPolicies_single DisallowPartialHostnamesMatch acc _ H W)
    as [acc1 [E H1]].
  destruct (View.defaultBackendIsService o).
  - rewrite E. cbn [bind]. now apply mergeRulesView_single.
  - cbn [bind]. now apply mergeRulesView_single.
Qed.

Lemma mergeObjectsView_single c acc os :
  Forall singleHostname acc ->
  exists acc', mergeObjectsView c acc os = Ret acc' /\ Forall singleHostname acc'.
Proof.
  revert acc. induction os as [|o os IH]; intros acc H.
  - now exists acc.
  - cbn [mergeObjectsView].
    destruct (mergeObjectView_single c acc o H) as [acc1 [E H1]].
    rewrite E. cbn [bind]. now apply IH.
Qed.

Lemma mergeRuleView_Abort c name ns acc r cond :
  mergeRuleView c name ns acc r = Abort cond -> cond = AmbiguousHostnameOverlap.
Proof.
  unfold mergeRuleView. cbv zeta. destruct (Nat.ltb _ _); [|discriminate].
  apply MergeInboundPolicies_Abort.
Qed.

Lemma mergeRulesView_Abort c name ns acc rs cond :
  mergeRulesView c name ns acc rs = Abort cond -> cond = AmbiguousHostnameOverlap.
Proof.
  revert acc. induction rs as [|r rs IH]; intros acc; [discriminate|].
  cbn [mergeRulesView].
  destruct (mergeRuleView c name ns acc r) as [acc1|c1] eqn:E; cbn [bind];
    [apply IH|].
  intros H. injection H as <-. now apply mergeRuleView_Abort in E.
Qed.

Lemma mergeObjectView_Abort c acc o cond :
  mergeObjectView c acc o = Abort cond -> cond = AmbiguousHostnameOverlap.
Proof.
  unfold mergeObjectView. destruct (View.defaultBackendIsService o).
  - destruct (MergeInboundPolicies _ _ _) as [acc1|c1] eqn:E; cbn [bind].
    + apply mergeRulesView_Abort.
    + intros H. injection H as <-. now apply MergeInboundPolicies_Abort in E.
  - cbn [bind]. apply mergeRulesView_Abort.
Qed.

Lemma mergeObjectsView_Abort c acc os cond :
  mergeObjectsView c acc os = Abort cond -> cond = AmbiguousHostnameOverlap.
Proof.
  revert acc. induction os as [|o os IH]; intros acc; [discriminate|].
  cbn [mergeObjectsView].
  destruct (mergeObjectView c acc o) as [acc1|c1] eqn:E; cbn [bind]; [apply IH|].
  intros H. injection H as <-. now apply mergeObjectView_Abort in E.
Qed.

(** Rules without a route match, and objects with only such rules and
    without the service as default backend, leave the result as it is. *)
Lemma mergeRulesView_inert c name ns acc rs :
  Forall (fun r => View.matches r = []) rs ->
  mergeRulesView c name ns acc rs = Ret acc.
Proof.
  induction 1 as [|r rs Hr _ IH]; [reflexivity|].
  cbn [mergeRulesView]. unfold mergeRuleView, hostPolicy.
  cbn [InboundTrafficPolicy.Rules]. rewrite Hr. cbn. exact IH.
Qed.

Lemma mergeObjectView_inert c acc o :
  View.defaultBackendIsService o = false ->
  Forall (fun r => View.matches r = []) (View.rules o) ->
  mergeObjectView c acc o = Ret acc.
Proof.
  intros H1 H2. unfold mergeObjectView. rewrite H1. cbn [bind].
  now apply mergeRulesView_inert.
Qed.

(** ** The rule step

    The step follows [rule.HTTP], and in networking/v1 the [Service] of the
    backend of every path of the rule; when all of them are there it is
    the step over the reading of the rule, and otherwise it panics. *)

Lemma ruleNetworkingV1_eq svc c ingress acc rule :
  ruleReadableV1 rule = true ->
  ruleNetworkingV1 svc c ingress acc rule
  = mergeRuleView c (networkingV1.Ingress.Name ingress)
      (networkingV1.Ingress.Namespace ingress) acc (ruleViewNetworkingV1 svc rule).
Proof.
  destruct rule as [host [http|]]; unfold ruleReadableV1, ruleNetworkingV1;
    cbn [networkingV1.IngressRule.HTTP]; [|discriminate].
  intros H. cbn [deref bind]. rewrite pathsNetworkingV1_eq by exact H. reflexivity.
Qed.

Lemma ruleNetworkingV1_unreadable svc c ingress acc rule :
  ruleReadableV1 rule = false ->
  ruleNetworkingV1 svc c ingress acc rule
  = Abort (NilPointerDereference
             match networkingV1.IngressRule.HTTP rule with
             | Some _ => ServicePointer
             | None => HTTPPointer
             end).
Proof.
  destruct rule as [host [http|]]; unfold ruleReadableV1, ruleNetworkingV1;
    cbn [networkingV1.IngressRule.HTTP]; [|reflexivity].
  intros H. cbn [deref bind]. now rewrite pathsNetworkingV1_outcome, H.
Qed.

Lemma ruleNetworkingV1beta1_eq svc c ingress acc rule :
  ruleReadableV1beta1 rule = true ->
  ruleNetworkingV1beta1 svc c ingress acc rule
  = mergeRuleView c (networkingV1beta1.Ingress.Name ingress)
      (networkingV1beta1.Ingress.Namespace ingress) acc
      (ruleViewNetworkingV1beta1 svc rule).
Proof.
  destruct rule as [host [http|]]; unfold ruleReadableV1beta1, ruleNetworkingV1beta1;
    cbn [networkingV1beta1.IngressRule.HTTP]; [|discriminate].
  intros _. cbn [deref bind]. rewrite pathsNetworkingV1beta1_eq. reflexivity.
Qed.

Lemma ruleNetworkingV1beta1_unreadable svc c ingress acc rule :
  ruleReadableV1beta1 rule = false ->
  ruleNetworkingV1beta1 svc c ingress acc rule
  = Abort (NilPointerDereference HTTPPointer).
Proof.
  destruct rule as [host [http|]]; unfold ruleReadableV1beta1, ruleNetworkingV1beta1;
    cbn [networkingV1beta1.IngressRule.HTTP]; [discriminate|reflexivity].
Qed.

(** ** The rule loop (V1) *)

Lemma ruleNetworkingV1_nil svc c ingress acc rule :
  ruleReadableV1 rule = false ->
  exists which,
    ruleNetworkingV1 svc c ingress acc rule = Abort (NilPointerDereference which)
    /\ which <> PathTypePointer.
Proof.
  intros H. rewrite (ruleNetworkingV1_unreadable svc c ingress acc rule H).
  eexists. split; [reflexivity|].
  try destruct (networkingV1.IngressRule.HTTP rule); discriminate.
Qed.

Lemma rulesNetworkingV1_view svc c ingress acc rules :
  forallb ruleReadableV1 rules = true ->
  rulesNetworkingV1 svc c ingress acc rules
  = mergeRulesView c (networkingV1.Ingress.Name ingress)
      (networkingV1.Ingress.Namespace ingress) acc
      (map (ruleViewNetworkingV1 svc) rules).
Proof.
  revert acc. induction rules as [|rule rules IH]; intros acc H; [reflexivity|].
  cbn [forallb] in H. apply andb_true_iff in H. destruct H as [H1 H2].
  cbn [rulesNetworkingV1 map mergeRulesView].
  rewrite (ruleNetworkingV1_eq svc c ingress acc rule H1).
  destruct (mergeRuleView _ _ _ _ _); cbn [bind]; [now apply IH|reflexivity].
Qed.

Lemma rulesNetworkingV1_unreadable svc c ingress acc rules :
  Forall singleHostname acc ->
  forallb ruleReadableV1 rules = false ->
  exists which,
    rulesNetworkingV1 svc c ingress acc rules = Abort (NilPointerDereference which)
    /\ which <> PathTypePointer.
Proof.
  revert acc. induction rules as [|rule rules IH]; intros acc S H; [discriminate|].
  cbn [forallb] in H. cbn [rulesNetworkingV1].
  destruct (ruleReadableV1 rule) eqn:R.
  - rewrite (ruleNetworkingV1_eq svc c ingress acc rule R).
    destruct (mergeRuleView_single c (networkingV1.Ingress.Name ingress)
                (networkingV1.Ingress.Namespace ingress) acc
                (ruleViewNetworkingV1 svc rule) S) as [acc1 [E S1]].
    rewrite E. cbn [bind]. now apply IH.
  - destruct (ruleNetworkingV1_nil svc c ingress acc rule R) as [which [E W]].
    rewrite E. now exists which.
Qed.

Lemma rulesNetworkingV1_Abort svc c ingress acc rules cond :
  rulesNetworkingV1 svc c ingress acc rules = Abort cond ->
  cond <> NilPointerDereference PathTypePointer.
Proof.
  revert acc. induction rules as [|rule rules IH]; intros acc; [discriminate|].
  cbn [rulesNetworkingV1].
  destruct (ruleNetworkingV1 svc c ingress acc rule) as [acc1|c1] eqn:E;
    cbn [bind]; [apply IH|].
  intros H. injection H as <-.
  destruct (ruleReadableV1 rule) eqn:R.
  - rewrite (ruleNetworkingV1_eq svc c ingress acc rule R) in E.
    apply mergeRuleView_Abort in E. now subst c1.
  - destruct (ruleNetworkingV1_nil svc c ingress acc rule R) as [which [E' W]].
    rewrite E' in E. injection E as <-. congruence.
Qed.


(** ** The rule loop (V1beta1) *)

Lemma ruleNetworkingV1beta1_nil svc c ingress acc rule :
  ruleReadableV1beta1 rule = false ->
  exists which,
    ruleNetworkingV1beta1 svc c ingress acc rule = Abort (NilPointerDereference which)
    /\ which <> PathTypePointer.
Proof.
  intros H. rewrite (ruleNetworkingV1beta1_unreadable svc c ingress acc rule H).
  eexists. split; [reflexivity|].
  try destruct (networkingV1beta1.IngressRule.HTTP rule); discriminate.
Qed.

Lemma rulesNetworkingV1beta1_view svc c ingress acc rules :
  forallb ruleReadableV1beta1 rules = true ->
  rulesNetworkingV1beta1 svc c ingress acc rules
  = mergeRulesView c (networkingV1beta1.Ingress.Name ingress)
      (networkingV1beta1.Ingress.Namespace ingress) acc
      (map (ruleViewNetworkingV1beta1 svc) rules).
Proof.
  revert acc. induction rules as [|rule rules IH]; intros acc H; [reflexivity|].
  cbn [forallb] in H. apply andb_true_iff in H. destruct H as [H1 H2].
  cbn [rulesNetworkingV1beta1 map mergeRulesView].
  rewrite (ruleNetworkingV1beta1_eq svc c ingress acc rule H1).
  destruct (mergeRuleView _ _ _ _ _); cbn [bind]; [now apply IH|reflexivity].
Qed.

Lemma rulesNetworkingV1beta1_unreadable svc c ingress acc rules :
  Forall singleHostname acc ->
  forallb ruleReadableV1beta1 rules = false ->
  exists which,
    rulesNetworkingV1beta1 svc c ingress acc rules = Abort (NilPointerDereference which)
    /\ which <> PathTypePointer.
Proof.
  revert acc. induction rules as [|rule rules IH]; intros acc S H; [discriminate|].
  cbn [forallb] in H. cbn [rulesNetworkingV1beta1].
  destruct (ruleReadableV1beta1 rule) eqn:R.
  - rewrite (ruleNetworkingV1beta1_eq svc c ingress acc rule R).
    destruct (mergeRuleView_single c (networkingV1beta1.Ingress.Name ingress)
                (networkingV1beta1.Ingress.Namespace ingress) acc
                (ruleViewNetworkingV1beta1 svc rule) S) as [acc1 [E S1]].
    rewrite E. cbn [bind]. now apply IH.
  - destruct (ruleNetworkingV1beta1_nil svc c ingress acc rule R) as [which [E W]].
    rewrite E. now exists which.
Qed.

Lemma rulesNetworkingV1beta1_Abort svc c ingress acc rules cond :
  rulesNetworkingV1beta1 svc c ingress acc rules = Abort cond ->
  cond <> NilPointerDereference PathTypePointer.
Proof.
  revert acc. induction rules as [|rule rules IH]; intros acc; [discriminate|].
  cbn [rulesNetworkingV1beta1].
  destruct (ruleNetworkingV1beta1 svc c ingress acc rule) as [acc1|c1] eqn:E;
    cbn [bind]; [apply IH|].
  intros H. injection H as <-.
  destruct (ruleReadableV1beta1 rule) eqn:R.
  - rewrite (ruleNetworkingV1beta1_eq svc c ingress acc rule R) in E.
    apply mergeRuleView_Abort in E. now subst c1.
  - destruct (ruleNetworkingV1beta1_nil svc c ingress acc rule R) as [which [E' W]].
    rewrite E' in E. injection E as <-. congruence.
Qed.


(** ** The object step

    The step follows, in networking/v1, the [Service] of the default
    backend, and then what the rule loop follows. *)

Lemma ingressNetworkingV1_view svc c acc ingress :
  readableV1 ingress = true ->
  ingressNetworkingV1 svc c acc ingress
  = mergeObjectView c acc (viewNetworkingV1 svc ingress).
Proof.
  unfold readableV1, ingressNetworkingV1, mergeObjectView, viewNetworkingV1.
  cbn [View.name View.namespace View.defaultBackendIsService View.rules].
  intros H. apply andb_true_iff in H. destruct H as [H1 H2].
  destruct (networkingV1.IngressSpec.DefaultBackend _) as [backend|].
  - unfold hasServiceV1 in H1. unfold namesServiceV1.
    destruct (networkingV1.IngressBackend.Service backend) as [backendService|];
      [|discriminate].
    cbn [deref bind]. destruct (_ =? MeshService.Name svc).
    + destruct (MergeInboundPolicies _ _ _); cbn [bind];
        [now apply rulesNetworkingV1_view|reflexivity].
    + cbn [bind]. now apply rulesNetworkingV1_view.
  - cbn [bind]. now apply rulesNetworkingV1_view.
Qed.

Lemma ingressNetworkingV1_unreadable svc c acc ingress :
  Forall singleHostname acc ->
  readableV1 ingress = false ->
  exists which,
    ingressNetworkingV1 svc c acc ingress = Abort (NilPointerDereference which)
    /\ which <> PathTypePointer.
Proof.
  unfold readableV1, ingressNetworkingV1. intros S H.
  assert (W : singleHostname
                (wildcardIngressPolicy (networkingV1.Ingress.Name ingress)
                   (networkingV1.Ingress.Namespace ingress) c))
    by now eexists.
  destruct (MergeInboundPolicies_single DisallowPartialHostnamesMatch acc _ S W)
    as [acc1 [E S1]].
  destruct (networkingV1.IngressSpec.DefaultBackend _) as [backend|].
  - unfold hasServiceV1 in H.
    destruct (networkingV1.IngressBackend.Service backend) as [backendService|];
      cbn [deref bind].
    + cbn [andb] in H. destruct (_ =? MeshService.Name svc).
      * rewrite E. cbn [bind]. now apply rulesNetworkingV1_unreadable.
      * cbn [bind]. now apply rulesNetworkingV1_unreadable.
    + exists ServicePointer. split; [reflexivity|discriminate].
  - cbn [andb bind] in *. now apply rulesNetworkingV1_unreadable.
Qed.

Lemma ingressNetworkingV1_Abort svc c acc ingress cond :
  ingressNetworkingV1 svc c acc ingress = Abort cond ->
  cond <> NilPointerDereference PathTypePointer.
Proof.
  unfold ingressNetworkingV1.
  destruct (networkingV1.IngressSpec.DefaultBackend _) as [backend|].
  - destruct (networkingV1.IngressBackend.Service backend) as [backendService|];
      cbn [deref bind].
    + destruct (_ =? MeshService.Name svc).
      * destruct (MergeInboundPolicies _ _ _) eqn:E; cbn [bind].
        -- apply rulesNetworkingV1_Abort.
        -- intros H. injection H as <-. apply MergeInboundPolicies_Abort in E.
           now subst.
      * cbn [bind]. apply rulesNetworkingV1_Abort.
    + intros H. injection H as <-. discriminate.
  - cbn [bind]. apply rulesNetworkingV1_Abort.
Qed.

Lemma ingressNetworkingV1beta1_view svc c acc ingress :
  readableV1beta1 ingress = true ->
  ingressNetworkingV1beta1 svc c acc ingress
  = mergeObjectView c acc (viewNetworkingV1beta1 svc ingress).
Proof.
  unfold readableV1beta1, ingressNetworkingV1beta1, mergeObjectView,
    viewNetworkingV1beta1.
  cbn [View.name View.namespace View.defaultBackendIsService View.rules].
  intros H.
  destruct (networkingV1beta1.IngressSpec.Backend _) as [backend|].
  - unfold namesServiceV1beta1. destruct (_ =? MeshService.Name svc).
    + destruct (MergeInboundPolicies _ _ _); cbn [bind];
        [now apply rulesNetworkingV1beta1_view|reflexivity].
    + cbn [bind]. now apply rulesNetworkingV1beta1_view.
  - cbn [bind]. now apply rulesNetworkingV1beta1_view.
Qed.

Lemma ingressNetworkingV1beta1_unreadable svc c acc ingress :
  Forall singleHostname acc ->
  readableV1beta1 ingress = false ->
  exists which,
    ingressNetworkingV1beta1 svc c acc ingress = Abort (NilPointerDereference which)
    /\ which <> PathTypePointer.
Proof.
  unfold readableV1beta1, ingressNetworkingV1beta1. intros S H.
  assert (W : singleHostname
                (wildcardIngressPolicy (networkingV1beta1.Ingress.Name ingress)
                   (networkingV1beta1.Ingress.Namespace ingress) c))
    by now eexists.
  destruct (MergeInboundPolicies_single DisallowPartialHostnamesMatch acc _ S W)
    as [acc1 [E S1]].
  destruct (networkingV1beta1.IngressSpec.Backend _) as [backend|].
  - destruct (_ =? MeshService.Name svc).
    + rewrite E. cbn [bind]. now apply rulesNetworkingV1beta1_unreadable.
    + cbn [bind]. now apply rulesNetworkingV1beta1_unreadable.
  - cbn [bind]. now apply rulesNetworkingV1beta1_unreadable.
Qed.

Lemma ingressNetworkingV1beta1_Abort svc c acc ingress cond :
  ingressNetworkingV1beta1 svc c acc ingress = Abort cond ->
  cond <> NilPointerDereference PathTypePointer.
Proof.
  unfold ingressNetworkingV1beta1.
  destruct (networkingV1beta1.IngressSpec.Backend _) as [backend|].
  - destruct (_ =? MeshService.Name svc).
    + destruct (MergeInboundPolicies _ _ _) eqn:E; cbn [bind].
      * apply rulesNetworkingV1beta1_Abort.
      * intros H. injection H as <-. apply MergeInboundPolicies_Abort in E.
        now subst.
    + cbn [bind]. apply rulesNetworkingV1beta1_Abort.
  - cbn [bind]. apply rulesNetworkingV1beta1_Abort.
Qed.

Lemma ingressNetworkingV1_default svc name ns c acc rules :
  ingressNetworkingV1 svc c acc
    (networkingV1.Ingress.mk name ns
       (networkingV1.IngressSpec.mk (Some (backendOfV1 svc)) rules))
  = (acc1 <- MergeInboundPolicies DisallowPartialHostnamesMatch acc
               (wildcardIngressPolicy name ns c) ;;
     rulesNetworkingV1 svc c
       (networkingV1.Ingress.mk name ns
          (networkingV1.IngressSpec.mk (Some (backendOfV1 svc)) rules))
       acc1 rules).
Proof.
  unfold ingressNetworkingV1, backendOfV1. cbn. now rewrite String.eqb_refl.
Qed.

Lemma ingressNetworkingV1beta1_default svc name ns c acc rules :
  ingressNetworkingV1beta1 svc c acc
    (networkingV1beta1.Ingress.mk name ns
       (networkingV1beta1.IngressSpec.mk (Some (backendOfV1beta1 svc)) rules))
  = (acc1 <- MergeInboundPolicies DisallowPartialHostnamesMatch acc
               (wildcardIngressPolicy name ns c) ;;
     rulesNetworkingV1beta1 svc c
       (networkingV1beta1.Ingress.mk name ns
          (networkingV1beta1.IngressSpec.mk (Some (backendOfV1beta1 svc)) rules))
       acc1 rules).
Proof.
  unfold ingressNetworkingV1beta1, backendOfV1beta1. cbn. now rewrite String.eqb_refl.
Qed.

(** ** The object loop and the extractor (V1) *)

Lemma ingressNetworkingV1_no_default svc c acc ingress :
  networkingV1.IngressSpec.DefaultBackend (networkingV1.Ingress.Spec ingress) = None ->
  ingressNetworkingV1 svc c acc ingress
  = rulesNetworkingV1 svc c ingress acc
      (networkingV1.IngressSpec.Rules (networkingV1.Ingress.Spec ingress)).
Proof. intros H. unfold ingressNetworkingV1. now rewrite H. Qed.

Lemma ingressesNetworkingV1_view svc c acc ingresses :
  forallb readableV1 ingresses = true ->
  ingressesNetworkingV1 svc c acc ingresses
  = mergeObjectsView c acc (map (viewNetworkingV1 svc) ingresses).
Proof.
  revert acc. induction ingresses as [|ingress ingresses IH]; intros acc H;
    [reflexivity|].
  cbn [forallb] in H. apply andb_true_iff in H. destruct H as [H1 H2].
  cbn [ingressesNetworkingV1 map mergeObjectsView].
  rewrite (ingressNetworkingV1_view svc c acc ingress H1).
  destruct (mergeObjectView _ _ _); cbn [bind]; [now apply IH|reflexivity].
Qed.

Lemma ingressesNetworkingV1_unreadable svc c acc ingresses :
  Forall singleHostname acc ->
  forallb readableV1 ingresses = false ->
  exists which,
    ingressesNetworkingV1 svc c acc ingresses
    = Abort (NilPointerDereference which)
    /\ which <> PathTypePointer.
Proof.
  revert acc. induction ingresses as [|ingress ingresses IH]; intros acc S H;
    [discriminate|].
  cbn [forallb] in H. cbn [ingressesNetworkingV1].
  destruct (readableV1 ingress) eqn:R.
  - rewrite (ingressNetworkingV1_view svc c acc ingress R).
    destruct (mergeObjectView_single c acc (viewNetworkingV1 svc ingress) S)
      as [acc1 [E S1]].
    rewrite E. cbn [bind]. now apply IH.
  - destruct (ingressNetworkingV1_unreadable svc c acc ingress S R) as [which [E W]].
    rewrite E. now exists which.
Qed.

Lemma ingressesNetworkingV1_Abort svc c acc ingresses cond :
  ingressesNetworkingV1 svc c acc ingresses = Abort cond ->
  cond <> NilPointerDereference PathTypePointer.
Proof.
  revert acc. induction ingresses as [|ingress ingresses IH]; intros acc;
    [discriminate|].
  cbn [ingressesNetworkingV1].
  destruct (ingressNetworkingV1 svc c acc ingress) as [acc1|c1] eqn:E;
    cbn [bind]; [apply IH|].
  intros H. injection H as <-. now apply ingressNetworkingV1_Abort in E.
Qed.


Lemma getIngressPoliciesNetworkingV1_loop mc svc ingress ingresses :
  MeshCatalog.GetIngressNetworkingV1 mc svc = (ingress :: ingresses, None) ->
  getIngressPoliciesNetworkingV1 mc svc
  = (policies <- ingressesNetworkingV1 svc (getDefaultWeightedClusterForService svc)
                   [] (ingress :: ingresses) ;;
     Ret (policies, None)).
Proof. intros H. unfold getIngressPoliciesNetworkingV1. now rewrite H. Qed.

(** With an error of the ingress monitor, and with no object, the
    extractor returns at once. *)
Lemma getIngressPoliciesNetworkingV1_error mc svc :
  snd (MeshCatalog.GetIngressNetworkingV1 mc svc) <> None ->
  getIngressPoliciesNetworkingV1 mc svc
  = Ret ([], snd (MeshCatalog.GetIngressNetworkingV1 mc svc)).
Proof.
  unfold getIngressPoliciesNetworkingV1.
  destruct (MeshCatalog.GetIngressNetworkingV1 mc svc) as [ingresses [err|]];
    cbn [fst snd]; [reflexivity|congruence].
Qed.

Lemma getIngressPoliciesNetworkingV1_empty mc svc :
  fst (MeshCatalog.GetIngressNetworkingV1 mc svc) = [] ->
  getIngressPoliciesNetworkingV1 mc svc
  = Ret ([], snd (MeshCatalog.GetIngressNetworkingV1 mc svc)).
Proof.
  unfold getIngressPoliciesNetworkingV1.
  destruct (MeshCatalog.GetIngressNetworkingV1 mc svc) as [ingresses [err|]];
    cbn [fst snd]; [reflexivity|]. now intros ->.
Qed.

(** The extractor returns when it can follow every pointer of the objects:
    the error is that of the ingress monitor, and the policies are those
    of the loops over the reading of the objects. *)
Lemma getIngressPoliciesNetworkingV1_returns mc svc :
  fetchReadableV1 mc svc = true ->
  exists policies,
    getIngressPoliciesNetworkingV1 mc svc
    = Ret (policies, snd (MeshCatalog.GetIngressNetworkingV1 mc svc))
    /\ (snd (MeshCatalog.GetIngressNetworkingV1 mc svc) <> None -> policies = [])
    /\ (fst (MeshCatalog.GetIngressNetworkingV1 mc svc) = [] -> policies = [])
    /\ (snd (MeshCatalog.GetIngressNetworkingV1 mc svc) = None ->
        mergeObjectsView (getDefaultWeightedClusterForService svc) []
          (map (viewNetworkingV1 svc)
             (fst (MeshCatalog.GetIngressNetworkingV1 mc svc)))
        = Ret policies).
Proof.
  unfold fetchReadableV1, getIngressPoliciesNetworkingV1.
  destruct (MeshCatalog.GetIngressNetworkingV1 mc svc) as [ingresses [err|]];
    cbn [fst snd]; intros R.
  - exists []. repeat split; trivial; discriminate.
  - destruct ingresses as [|ingress ingresses]; cbn [List.length Nat.eqb].
    + exists []. auto.
    + rewrite (ingressesNetworkingV1_view svc _ [] _ R).
      destruct (mergeObjectsView_single (getDefaultWeightedClusterForService svc) []
                  (map (viewNetworkingV1 svc) (ingress :: ingresses))
                  (Forall_nil _)) as [acc [E _]].
      rewrite E. cbn [bind]. exists acc. repeat split; intros; congruence.
Qed.

(** Otherwise it panics on a [nil] pointer, which is not a path type. *)
Lemma getIngressPoliciesNetworkingV1_panics mc svc :
  fetchReadableV1 mc svc = false ->
  exists which,
    getIngressPoliciesNetworkingV1 mc svc = Abort (NilPointerDereference which)
    /\ which <> PathTypePointer.
Proof.
  unfold fetchReadableV1, getIngressPoliciesNetworkingV1.
  destruct (MeshCatalog.GetIngressNetworkingV1 mc svc) as [ingresses [err|]];
    cbn [fst snd]; intros R; [discriminate|].
  destruct ingresses as [|ingress ingresses]; [discriminate|].
  cbn [List.length Nat.eqb].
  destruct (ingressesNetworkingV1_unreadable svc
              (getDefaultWeightedClusterForService svc) [] (ingress :: ingresses)
              (Forall_nil _) R) as [which [E W]].
  rewrite E. now exists which.
Qed.

Lemma getIngressPoliciesNetworkingV1_Ret mc svc policies err :
  getIngressPoliciesNetworkingV1 mc svc = Ret (policies, err) ->
  fetchReadableV1 mc svc = true
  /\ err = snd (MeshCatalog.GetIngressNetworkingV1 mc svc).
Proof.
  intros H. destruct (fetchReadableV1 mc svc) eqn:R.
  - destruct (getIngressPoliciesNetworkingV1_returns mc svc R) as [l [E _]].
    rewrite E in H. injection H as _ <-. now split.
  - destruct (getIngressPoliciesNetworkingV1_panics mc svc R) as [which [E _]].
    rewrite E in H. discriminate.
Qed.

Lemma getIngressPoliciesNetworkingV1_Abort mc svc cond :
  getIngressPoliciesNetworkingV1 mc svc = Abort cond ->
  cond <> NilPointerDereference PathTypePointer.
Proof.
  intros H. destruct (fetchReadableV1 mc svc) eqn:R.
  - destruct (getIngressPoliciesNetworkingV1_returns mc svc R) as [l [E _]].
    rewrite E in H. discriminate.
  - destruct (getIngressPoliciesNetworkingV1_panics mc svc R) as [which [E W]].
    rewrite E in H. injection H as <-. congruence.
Qed.

(** ** The object loop and the extractor (V1beta1) *)

Lemma ingressNetworkingV1beta1_no_default svc c acc ingress :
  networkingV1beta1.IngressSpec.Backend (networkingV1beta1.Ingress.Spec ingress) = None ->
  ingressNetworkingV1beta1 svc c acc ingress
  = rulesNetworkingV1beta1 svc c ingress acc
      (networkingV1beta1.IngressSpec.Rules (networkingV1beta1.Ingress.Spec ingress)).
Proof. intros H. unfold ingressNetworkingV1beta1. now rewrite H. Qed.

Lemma ingressesNetworkingV1beta1_view svc c acc ingresses :
  forallb readableV1beta1 ingresses = true ->
  ingressesNetworkingV1beta1 svc c acc ingresses
  = mergeObjectsView c acc (map (viewNetworkingV1beta1 svc) ingresses).
Proof.
  revert acc. induction ingresses as [|ingress ingresses IH]; intros acc H;
    [reflexivity|].
  cbn [forallb] in H. apply andb_true_iff in H. destruct H as [H1 H2].
  cbn [ingressesNetworkingV1beta1 map mergeObjectsView].
  rewrite (ingressNetworkingV1beta1_view svc c acc ingress H1).
  destruct (mergeObjectView _ _ _); cbn [bind]; [now apply IH|reflexivity].
Qed.

Lemma ingressesNetworkingV1beta1_unreadable svc c acc ingresses :
  Forall singleHostname acc ->
  forallb readableV1beta1 ingresses = false ->
  exists which,
    ingressesNetworkingV1beta1 svc c acc ingresses
    = Abort (NilPointerDereference which)
    /\ which <> PathTypePointer.
Proof.
  revert acc. induction ingresses as [|ingress ingresses IH]; intros acc S H;
    [discriminate|].
  cbn [forallb] in H. cbn [ingressesNetworkingV1beta1].
  destruct (readableV1beta1 ingress) eqn:R.
  - rewrite (ingressNetworkingV1beta1_view svc c acc ingress R).
    destruct (mergeObjectView_single c acc (viewNetworkingV1beta1 svc ingress) S)
      as [acc1 [E S1]].
    rewrite E. cbn [bind]. now apply IH.
  - destruct (ingressNetworkingV1beta1_unreadable svc c acc ingress S R) as [which [E W]].
    rewrite E. now exists which.
Qed.

Lemma ingressesNetworkingV1beta1_Abort svc c acc ingresses cond :
  ingressesNetworkingV1beta1 svc c acc ingresses = Abort cond ->
  cond <> NilPointerDereference PathTypePointer.
Proof.
  revert acc. induction ingresses as [|ingress ingresses IH]; intros acc;
    [discriminate|].
  cbn [ingressesNetworkingV1beta1].
  destruct (ingressNetworkingV1beta1 svc c acc ingress) as [acc1|c1] eqn:E;
    cbn [bind]; [apply IH|].
  intros H. injection H as <-. now apply ingressNetworkingV1beta1_Abort in E.
Qed.


Lemma getIngressPoliciesNetworkingV1beta1_loop mc svc ingress ingresses :
  MeshCatalog.GetIngressNetworkingV1beta1 mc svc = (ingress :: ingresses, None) ->
  getIngressPoliciesNetworkingV1beta1 mc svc
  = (policies <- ingressesNetworkingV1beta1 svc (getDefaultWeightedClusterForService svc)
                   [] (ingress :: ingresses) ;;
     Ret (policies, None)).
Proof. intros H. unfold getIngressPoliciesNetworkingV1beta1. now rewrite H. Qed.

(** With an error of the ingress monitor, and with no object, the
    extractor returns at once. *)
Lemma getIngressPoliciesNetworkingV1beta1_error mc svc :
  snd (MeshCatalog.GetIngressNetworkingV1beta1 mc svc) <> None ->
  getIngressPoliciesNetworkingV1beta1 mc svc
  = Ret ([], snd (MeshCatalog.GetIngressNetworkingV1beta1 mc svc)).
Proof.
  unfold getIngressPoliciesNetworkingV1beta1.
  destruct (MeshCatalog.GetIngressNetworkingV1beta1 mc svc) as [ingresses [err|]];
    cbn [fst snd]; [reflexivity|congruence].
Qed.

Lemma getIngressPoliciesNetworkingV1beta1_empty mc svc :
  fst (MeshCatalog.GetIngressNetworkingV1beta1 mc svc) = [] ->
  getIngressPoliciesNetworkingV1beta1 mc svc
  = Ret ([], snd (MeshCatalog.GetIngressNetworkingV1beta1 mc svc)).
Proof.
  unfold getIngressPoliciesNetworkingV1beta1.
  destruct (MeshCatalog.GetIngressNetworkingV1beta1 mc svc) as [ingresses [err|]];
    cbn [fst snd]; [reflexivity|]. now intros ->.
Qed.

(** The extractor returns when it can follow every pointer of the objects:
    the error is that of the ingress monitor, and the policies are those
    of the loops over the reading of the objects. *)
Lemma getIngressPoliciesNetworkingV1beta1_returns mc svc :
  fetchReadableV1beta1 mc svc = true ->
  exists policies,
    getIngressPoliciesNetworkingV1beta1 mc svc
    = Ret (policies, snd (MeshCatalog.GetIngressNetworkingV1beta1 mc svc))
    /\ (snd (MeshCatalog.GetIngressNetworkingV1beta1 mc svc) <> None -> policies = [])
    /\ (fst (MeshCatalog.GetIngressNetworkingV1beta1 mc svc) = [] -> policies = [])
    /\ (snd (MeshCatalog.GetIngressNetworkingV1beta1 mc svc) = None ->
        mergeObjectsView (getDefaultWeightedClusterForService svc) []
          (map (viewNetworkingV1beta1 svc)
             (fst (MeshCatalog.GetIngressNetworkingV1beta1 mc svc)))
        = Ret policies).
Proof.
  unfold fetchReadableV1beta1, getIngressPoliciesNetworkingV1beta1.
  destruct (MeshCatalog.GetIngressNetworkingV1beta1 mc svc) as [ingresses [err|]];
    cbn [fst snd]; intros R.
  - exists []. repeat split; trivial; discriminate.
  - destruct ingresses as [|ingress ingresses]; cbn [List.length Nat.eqb].
    + exists []. auto.
    + rewrite (ingressesNetworkingV1beta1_view svc _ [] _ R).
      destruct (mergeObjectsView_single (getDefaultWeightedClusterForService svc) []
                  (map (viewNetworkingV1beta1 svc) (ingress :: ingresses))
                  (Forall_nil _)) as [acc [E _]].
      rewrite E. cbn [bind]. exists acc. repeat split; intros; congruence.
Qed.

(** Otherwise it panics on a [nil] pointer, which is not a path type. *)
Lemma getIngressPoliciesNetworkingV1beta1_panics mc svc :
  fetchReadableV1beta1 mc svc = false ->
  exists which,
    getIngressPoliciesNetworkingV1beta1 mc svc = Abort (NilPointerDereference which)
    /\ which <> PathTypePointer.
Proof.
  unfold fetchReadableV1beta1, getIngressPoliciesNetworkingV1beta1.
  destruct (MeshCatalog.GetIngressNetworkingV1beta1 mc svc) as [ingresses [err|]];
    cbn [fst snd]; intros R; [discriminate|].
  destruct ingresses as [|ingress ingresses]; [discriminate|].
  cbn [List.length Nat.eqb].
  destruct (ingressesNetworkingV1beta1_unreadable svc
              (getDefaultWeightedClusterForService svc) [] (ingress :: ingresses)
              (Forall_nil _) R) as [which [E W]].
  rewrite E. now exists which.
Qed.

Lemma getIngressPoliciesNetworkingV1beta1_Ret mc svc policies err :
  getIngressPoliciesNetworkingV1beta1 mc svc = Ret (policies, err) ->
  fetchReadableV1beta1 mc svc = true
  /\ err = snd (MeshCatalog.GetIngressNetworkingV1beta1 mc svc).
Proof.
  intros H. destruct (fetchReadableV1beta1 mc svc) eqn:R.
  - destruct (getIngressPoliciesNetworkingV1beta1_returns mc svc R) as [l [E _]].
    rewrite E in H. injection H as _ <-. now split.
  - destruct (getIngressPoliciesNetworkingV1beta1_panics mc svc R) as [which [E _]].
    rewrite E in H. discriminate.
Qed.

Lemma getIngressPoliciesNetworkingV1beta1_Abort mc svc cond :
  getIngressPoliciesNetworkingV1beta1 mc svc = Abort cond ->
  cond <> NilPointerDereference PathTypePointer.
Proof.
  intros H. destruct (fetchReadableV1beta1 mc svc) eqn:R.
  - destruct (getIngressPoliciesNetworkingV1beta1_returns mc svc R) as [l [E _]].
    rewrite E in H. discriminate.
  - destruct (getIngressPoliciesNetworkingV1beta1_panics mc svc R) as [which [E W]].
    rewrite E in H. injection H as <-. congruence.
Qed.

(** ** The route matches of the paths of a rule *)

Lemma knownPathType_eqb_true pt :
  knownPathType pt ->
  (pt =? "Exact") || (pt =? "Prefix") || (pt =? "ImplementationSpecific") = true.
Proof. intros [-> | [-> | ->]]; reflexivity. Qed.

Lemma knownPathType_eqb_false pt :
  ~ knownPathType pt ->
  (pt =? "Exact") || (pt =? "Prefix") || (pt =? "ImplementationSpecific") = false.
Proof.
  intros H. apply knownPathType_eqb in H. destruct H as [-> [-> ->]]. reflexivity.
Qed.




(** One route match for each eligible path, in the order of the paths:
    the one that the switch builds for the path. *)
Lemma routeMatchesNetworkingV1_eligible svc paths :
  Forall2 (fun ingressPath m => httpRouteMatchNetworkingV1 ingressPath = Ret (Route m))
    (filter (eligibleV1 svc) paths) (routeMatchesNetworkingV1 svc paths).
Proof.
  induction paths as [|ip paths IH]; [constructor|].
  cbn [routeMatchesNetworkingV1 flat_map filter].
  fold (routeMatchesNetworkingV1 svc paths). unfold eligibleV1 at 1.
  destruct (namesServiceV1 svc _); cbn [andb app]; [|exact IH].
  destruct ip as [p [pt|] b]; cbn [networkingV1.HTTPIngressPath.PathType].
  - pose proof (switchV1_returns (networkingV1.HTTPIngressPath.mk p (Some pt) b)) as R.
    destruct (httpRouteMatchNetworkingV1 _) as [[m|q]|cnd] eqn:E.
    + destruct (knownPathType_dec pt) as [K|K].
      * rewrite (knownPathType_eqb_true pt K). cbn [app]. now constructor.
      * pose proof (eq_trans (eq_sym E) (switchV1_unknown p pt b K)) as U.
        discriminate U.
    + destruct R as [[m R]|[pt' [E1 [K' _]]]]; [discriminate R|].
      cbn in E1. injection E1 as <-.
      rewrite (knownPathType_eqb_false pt K'). exact IH.
    + destruct R as [[m R]|[pt' [_ [_ R]]]]; discriminate R.
  - rewrite switchV1_unset. cbn [app]. constructor; [apply switchV1_unset|exact IH].
Qed.

Lemma routeMatchesNetworkingV1_length svc paths :
  List.length (routeMatchesNetworkingV1 svc paths)
  = List.length (filter (eligibleV1 svc) paths).
Proof.
  symmetry. exact (Forall2_length (routeMatchesNetworkingV1_eligible svc paths)).
Qed.

Lemma routeMatchesNetworkingV1_In svc paths m :
  In m (routeMatchesNetworkingV1 svc paths) ->
  exists ingressPath,
    In ingressPath paths
    /\ namesServiceV1 svc (networkingV1.HTTPIngressPath.Backend ingressPath) = true
    /\ httpRouteMatchNetworkingV1 ingressPath = Ret (Route m).
Proof.
  unfold routeMatchesNetworkingV1. rewrite in_flat_map.
  intros [ip [Hin Hm]]. exists ip. split; [exact Hin|].
  destruct (namesServiceV1 svc _); [|contradiction].
  split; [reflexivity|].
  destruct (httpRouteMatchNetworkingV1 ip) as [[m'|pt]|cond]; try contradiction.
  destruct Hm as [->|[]]. reflexivity.
Qed.

Lemma routeMatchesNetworkingV1_untargeted svc paths :
  existsb
    (fun ingressPath =>
       namesServiceV1 svc (networkingV1.HTTPIngressPath.Backend ingressPath))
    paths = false ->
  routeMatchesNetworkingV1 svc paths = [].
Proof.
  induction paths as [|ip paths IH]; [reflexivity|].
  cbn [existsb routeMatchesNetworkingV1 flat_map]. intros H.
  apply orb_false_iff in H. destruct H as [H1 H2]. rewrite H1.
  cbn [app]. apply IH. exact H2.
Qed.

(** The reading of an object that does not name the service has no
    default backend and no route match. *)
Lemma viewNetworkingV1_untargeted svc ingress :
  targetsV1 svc ingress = false ->
  View.defaultBackendIsService (viewNetworkingV1 svc ingress) = false
  /\ Forall (fun r => View.matches r = []) (View.rules (viewNetworkingV1 svc ingress)).
Proof.
  unfold targetsV1, viewNetworkingV1. intros H.
  apply orb_false_iff in H. destruct H as [H1 H2].
  cbn [View.defaultBackendIsService View.rules]. split; [exact H1|].
  apply Forall_forall. intros r Hr. apply in_map_iff in Hr.
  destruct Hr as [rule [<- Hin]]. cbn [ruleViewNetworkingV1 View.matches].
  apply routeMatchesNetworkingV1_untargeted.
  destruct (existsb _ (pathsOfV1 rule)) eqn:E; [|reflexivity].
  rewrite <- H2. symmetry. apply existsb_exists. now exists rule.
Qed.



(** One route match for each eligible path, in the order of the paths:
    the one that the switch builds for the path. *)
Lemma routeMatchesNetworkingV1beta1_eligible svc paths :
  Forall2 (fun ingressPath m => httpRouteMatchNetworkingV1beta1 ingressPath = Ret (Route m))
    (filter (eligibleV1beta1 svc) paths) (routeMatchesNetworkingV1beta1 svc paths).
Proof.
  induction paths as [|ip paths IH]; [constructor|].
  cbn [routeMatchesNetworkingV1beta1 flat_map filter].
  fold (routeMatchesNetworkingV1beta1 svc paths). unfold eligibleV1beta1 at 1.
  destruct (namesServiceV1beta1 svc _); cbn [andb app]; [|exact IH].
  destruct ip as [p [pt|] b]; cbn [networkingV1beta1.HTTPIngressPath.PathType].
  - pose proof (switchV1beta1_returns (networkingV1beta1.HTTPIngressPath.mk p (Some pt) b)) as R.
    destruct (httpRouteMatchNetworkingV1beta1 _) as [[m|q]|cnd] eqn:E.
    + destruct (knownPathType_dec pt) as [K|K].
      * rewrite (knownPathType_eqb_true pt K). cbn [app]. now constructor.
      * pose proof (eq_trans (eq_sym E) (switchV1beta1_unknown p pt b K)) as U.
        discriminate U.
    + destruct R as [[m R]|[pt' [E1 [K' _]]]]; [discriminate R|].
      cbn in E1. injection E1 as <-.
      rewrite (knownPathType_eqb_false pt K'). exact IH.
    + destruct R as [[m R]|[pt' [_ [_ R]]]]; discriminate R.
  - rewrite switchV1beta1_unset. cbn [app]. constructor; [apply switchV1beta1_unset|exact IH].
Qed.

Lemma routeMatchesNetworkingV1beta1_length svc paths :
  List.length (routeMatchesNetworkingV1beta1 svc paths)
  = List.length (filter (eligibleV1beta1 svc) paths).
Proof.
  symmetry. exact (Forall2_length (routeMatchesNetworkingV1beta1_eligible svc paths)).
Qed.

Lemma routeMatchesNetworkingV1beta1_In svc paths m :
  In m (routeMatchesNetworkingV1beta1 svc paths) ->
  exists ingressPath,
    In ingressPath paths
    /\ namesServiceV1beta1 svc (networkingV1beta1.HTTPIngressPath.Backend ingressPath) = true
    /\ httpRouteMatchNetworkingV1beta1 ingressPath = Ret (Route m).
Proof.
  unfold routeMatchesNetworkingV1beta1. rewrite in_flat_map.
  intros [ip [Hin Hm]]. exists ip. split; [exact Hin|].
  destruct (namesServiceV1beta1 svc _); [|contradiction].
  split; [reflexivity|].
  destruct (httpRouteMatchNetworkingV1beta1 ip) as [[m'|pt]|cond]; try contradiction.
  destruct Hm as [->|[]]. reflexivity.
Qed.

Lemma routeMatchesNetworkingV1beta1_untargeted svc paths :
  existsb
    (fun ingressPath =>
       namesServiceV1beta1 svc (networkingV1beta1.HTTPIngressPath.Backend ingressPath))
    paths = false ->
  routeMatchesNetworkingV1beta1 svc paths = [].
Proof.
  induction paths as [|ip paths IH]; [reflexivity|].
  cbn [existsb routeMatchesNetworkingV1beta1 flat_map]. intros H.
  apply orb_false_iff in H. destruct H as [H1 H2]. rewrite H1.
  cbn [app]. apply IH. exact H2.
Qed.

(** The reading of an object that does not name the service has no
    default backend and no route match. *)
Lemma viewNetworkingV1beta1_untargeted svc ingress :
  targetsV1beta1 svc ingress = false ->
  View.defaultBackendIsService (viewNetworkingV1beta1 svc ingress) = false
  /\ Forall (fun r => View.matches r = []) (View.rules (viewNetworkingV1beta1 svc ingress)).
Proof.
  unfold targetsV1beta1, viewNetworkingV1beta1. intros H.
  apply orb_false_iff in H. destruct H as [H1 H2].
  cbn [View.defaultBackendIsService View.rules]. split; [exact H1|].
  apply Forall_forall. intros r Hr. apply in_map_iff in Hr.
  destruct Hr as [rule [<- Hin]]. cbn [ruleViewNetworkingV1beta1 View.matches].
  apply routeMatchesNetworkingV1beta1_untargeted.
  destruct (existsb _ (pathsOfV1beta1 rule)) eqn:E; [|reflexivity].
  rewrite <- H2. symmetry. apply existsb_exists. now exists rule.
Qed.

(** ** The two schema versions side by side *)

Lemma switch_same p1 p2 :
  samePath p1 p2 ->
  httpRouteMatchNetworkingV1 p1 = httpRouteMatchNetworkingV1beta1 p2.
Proof.
  destruct p1 as [p pt b1], p2 as [p' pt' b2]. unfold samePath. simpl.
  intros [-> [-> _]]. reflexivity.
Qed.

Lemma namesService_same svc b1 b2 :
  sameBackend b1 b2 -> hasServiceV1 b1 = true ->
  namesServiceV1 svc b1 = namesServiceV1beta1 svc b2.
Proof.
  unfold sameBackend, hasServiceV1, namesServiceV1, namesServiceV1beta1.
  destruct (networkingV1.IngressBackend.Service b1); [|discriminate].
  now intros ->.
Qed.

Lemma routeMatches_same svc ps1 ps2 :
  Forall2 samePath ps1 ps2 ->
  pathsReadableV1 ps1 = true ->
  routeMatchesNetworkingV1 svc ps1 = routeMatchesNetworkingV1beta1 svc ps2.
Proof.
  induction 1 as [|p1 p2 ps1 ps2 Hp _ IH]; [reflexivity|].
  cbn [pathsReadableV1 forallb]. fold (pathsReadableV1 ps1). intros R.
  apply andb_true_iff in R. destruct R as [R1 R2].
  cbn [routeMatchesNetworkingV1 routeMatchesNetworkingV1beta1 flat_map].
  fold (routeMatchesNetworkingV1 svc ps1).
  fold (routeMatchesNetworkingV1beta1 svc ps2).
  rewrite (IH R2), (switch_same p1 p2 Hp).
  destruct Hp as [_ [_ Hb]]. now rewrite (namesService_same svc _ _ Hb R1).
Qed.

(** On the same rule, of objects with the same name and namespace, the
    rule steps have the same outcome when the backends of the paths refer
    to services: the same result, or the same panic on [rule.HTTP]. *)
Lemma rule_same svc c i1 i2 acc r1 r2 :
  networkingV1.Ingress.Name i1 = networkingV1beta1.Ingress.Name i2 ->
  networkingV1.Ingress.Namespace i1 = networkingV1beta1.Ingress.Namespace i2 ->
  sameRule r1 r2 ->
  pathsReadableV1 (pathsOfV1 r1) = true ->
  ruleNetworkingV1 svc c i1 acc r1 = ruleNetworkingV1beta1 svc c i2 acc r2.
Proof.
  intros Hn Hns [Hh Hp] R.
  destruct r1 as [h1 [http1|]], r2 as [h2 [http2|]];
    cbn [networkingV1.IngressRule.HTTP networkingV1beta1.IngressRule.HTTP
         networkingV1.IngressRule.Host networkingV1beta1.IngressRule.Host
         pathsOfV1] in *; try contradiction.
  - rewrite ruleNetworkingV1_eq by exact R.
    rewrite ruleNetworkingV1beta1_eq by reflexivity.
    unfold ruleViewNetworkingV1, ruleViewNetworkingV1beta1.
    cbn [pathsOfV1 pathsOfV1beta1 networkingV1.IngressRule.HTTP
         networkingV1beta1.IngressRule.HTTP networkingV1.IngressRule.Host
         networkingV1beta1.IngressRule.Host].
    now rewrite Hn, Hns, Hh, (routeMatches_same svc _ _ Hp R).
  - reflexivity.
Qed.

Lemma rules_same svc c i1 i2 acc rs1 rs2 :
  networkingV1.Ingress.Name i1 = networkingV1beta1.Ingress.Name i2 ->
  networkingV1.Ingress.Namespace i1 = networkingV1beta1.Ingress.Namespace i2 ->
  Forall2 sameRule rs1 rs2 ->
  forallb (fun rule => pathsReadableV1 (pathsOfV1 rule)) rs1 = true ->
  rulesNetworkingV1 svc c i1 acc rs1 = rulesNetworkingV1beta1 svc c i2 acc rs2.
Proof.
  intros Hn Hns H. revert acc.
  induction H as [|r1 r2 rs1 rs2 Hr _ IH]; intros acc R; [reflexivity|].
  cbn [forallb] in R. apply andb_true_iff in R. destruct R as [R1 R2].
  cbn [rulesNetworkingV1 rulesNetworkingV1beta1].
  rewrite (rule_same svc c i1 i2 acc r1 r2 Hn Hns Hr R1).
  destruct (ruleNetworkingV1beta1 svc c i2 acc r2); cbn [bind];
    [now apply IH|reflexivity].
Qed.

Lemma ingress_same svc c acc i1 i2 :
  sameIngress i1 i2 ->
  backendsAreServicesV1 i1 = true ->
  ingressNetworkingV1 svc c acc i1 = ingressNetworkingV1beta1 svc c acc i2.
Proof.
  intros [Hn [Hns [Hb Hr]]] R. unfold backendsAreServicesV1 in R.
  apply andb_true_iff in R. destruct R as [R1 R2].
  unfold ingressNetworkingV1, ingressNetworkingV1beta1.
  destruct (networkingV1.IngressSpec.DefaultBackend _) as [b1|],
    (networkingV1beta1.IngressSpec.Backend _) as [b2|]; simpl in Hb;
    try contradiction.
  - unfold sameBackend in Hb. unfold hasServiceV1 in R1.
    destruct (networkingV1.IngressBackend.Service b1) as [backendService|];
      [|discriminate].
    cbn [deref bind]. rewrite Hb, Hn, Hns.
    destruct (networkingV1beta1.IngressBackend.ServiceName b2 =? MeshService.Name svc).
    + destruct (MergeInboundPolicies _ _ _); cbn [bind];
        [now apply rules_same|reflexivity].
    + cbn [bind]. now apply rules_same.
  - cbn [bind]. now apply rules_same.
Qed.

Lemma ingresses_same svc c acc l1 l2 :
  Forall2 sameIngress l1 l2 ->
  forallb backendsAreServicesV1 l1 = true ->
  ingressesNetworkingV1 svc c acc l1 = ingressesNetworkingV1beta1 svc c acc l2.
Proof.
  intros H. revert acc.
  induction H as [|i1 i2 l1 l2 Hi _ IH]; intros acc R; [reflexivity|].
  cbn [forallb] in R. apply andb_true_iff in R. destruct R as [R1 R2].
  cbn [ingressesNetworkingV1 ingressesNetworkingV1beta1].
  rewrite (ingress_same svc c acc i1 i2 Hi R1).
  destruct (ingressNetworkingV1beta1 svc c acc i2); cbn [bind];
    [now apply IH|reflexivity].
Qed.

Lemma getIngressPolicies_same_objects mc svc l1 l2 err :
  MeshCatalog.GetIngressNetworkingV1 mc svc = (l1, err) ->
  MeshCatalog.GetIngressNetworkingV1beta1 mc svc = (l2, err) ->
  Forall2 sameIngress l1 l2 ->
  forallb backendsAreServicesV1 l1 = true ->
  getIngressPoliciesNetworkingV1 mc svc = getIngressPoliciesNetworkingV1beta1 mc svc.
Proof.
  intros H1 H2 H R. unfold getIngressPoliciesNetworkingV1,
    getIngressPoliciesNetworkingV1beta1. rewrite H1, H2.
  destruct err as [e|]; [reflexivity|].
  rewrite (Forall2_length H).
  now rewrite (ingresses_same svc _ [] l1 l2 H R).
Qed.

(** ** The fan-out and the assembly *)

Lemma getIngressPoliciesFromK8s_Ret_Ret mc svc v1Policies err1 v1beta1Policies err2 :
  getIngressPoliciesNetworkingV1 mc svc = Ret (v1Policies, err1) ->
  getIngressPoliciesNetworkingV1beta1 mc svc = Ret (v1beta1Policies, err2) ->
  getIngressPoliciesFromK8s mc svc
  = Ret (contribution v1Policies err1 ++ contribution v1beta1Policies err2, None).
Proof.
  intros E1 E2. unfold getIngressPoliciesFromK8s. rewrite E1, E2. cbn [bind].
  unfold contribution. destruct err1, err2; cbn [app]; rewrite ?app_nil_r; reflexivity.
Qed.

Lemma getIngressPoliciesFromK8s_returns mc svc :
  fetchReadableV1 mc svc = true ->
  fetchReadableV1beta1 mc svc = true ->
  exists v1Policies v1beta1Policies,
    getIngressPoliciesNetworkingV1 mc svc
    = Ret (v1Policies, snd (MeshCatalog.GetIngressNetworkingV1 mc svc))
    /\ getIngressPoliciesNetworkingV1beta1 mc svc
       = Ret (v1beta1Policies, snd (MeshCatalog.GetIngressNetworkingV1beta1 mc svc))
    /\ getIngressPoliciesFromK8s mc svc
       = Ret (contribution v1Policies (snd (MeshCatalog.GetIngressNetworkingV1 mc svc))
              ++ contribution v1beta1Policies
                   (snd (MeshCatalog.GetIngressNetworkingV1beta1 mc svc)),
              None).
Proof.
  intros R1 R2.
  destruct (getIngressPoliciesNetworkingV1_returns mc svc R1) as [l1 [E1 _]].
  destruct (getIngressPoliciesNetworkingV1beta1_returns mc svc R2) as [l2 [E2 _]].
  exists l1, l2. repeat split; trivial.
  now apply getIngressPoliciesFromK8s_Ret_Ret.
Qed.

Lemma getIngressPoliciesFromK8s_panics mc svc :
  fetchReadableV1 mc svc && fetchReadableV1beta1 mc svc = false ->
  exists which,
    getIngressPoliciesFromK8s mc svc = Abort (NilPointerDereference which)
    /\ which <> PathTypePointer.
Proof.
  intros H. unfold getIngressPoliciesFromK8s.
  destruct (fetchReadableV1 mc svc) eqn:R1.
  - destruct (getIngressPoliciesNetworkingV1_returns mc svc R1) as [l1 [E1 _]].
    rewrite E1. cbn [bind].
    destruct (getIngressPoliciesNetworkingV1beta1_panics mc svc H) as [which [E2 W]].
    rewrite E2. now exists which.
  - destruct (getIngressPoliciesNetworkingV1_panics mc svc R1) as [which [E1 W]].
    rewrite E1. now exists which.
Qed.

Lemma getIngressPoliciesFromK8s_Ret mc svc policies err :
  getIngressPoliciesFromK8s mc svc = Ret (policies, err) ->
  fetchReadableV1 mc svc = true /\ fetchReadableV1beta1 mc svc = true /\ err = None.
Proof.
  intros H.
  destruct (fetchReadableV1 mc svc && fetchReadableV1beta1 mc svc) eqn:R.
  - apply andb_true_iff in R. destruct R as [R1 R2]. rewrite R1, R2.
    destruct (getIngressPoliciesFromK8s_returns mc svc R1 R2) as [l1 [l2 [_ [_ E]]]].
    rewrite E in H. injection H as _ <-. auto.
  - destruct (getIngressPoliciesFromK8s_panics mc svc R) as [which [E _]].
    rewrite E in H. discriminate.
Qed.

Lemma getIngressPoliciesFromK8s_withResolver mc resolver svc :
  getIngressPoliciesFromK8s (withResolver mc resolver) svc
  = getIngressPoliciesFromK8s mc svc.
Proof. reflexivity. Qed.

Lemma getIngressTrafficPolicyFromK8s_empty mc svc :
  getIngressPoliciesFromK8s mc svc = Ret ([], None) ->
  getIngressTrafficPolicyFromK8s mc svc = Ret (None, None).
Proof. intros H. unfold getIngressTrafficPolicyFromK8s. now rewrite H. Qed.

Lemma getIngressPoliciesFromK8s_no_objects mc svc :
  fst (MeshCatalog.GetIngressNetworkingV1 mc svc) = [] ->
  fst (MeshCatalog.GetIngressNetworkingV1beta1 mc svc) = [] ->
  getIngressPoliciesFromK8s mc svc = Ret ([], None).
Proof.
  intros H1 H2.
  rewrite (getIngressPoliciesFromK8s_Ret_Ret mc svc _ _ _ _
             (getIngressPoliciesNetworkingV1_empty mc svc H1)
             (getIngressPoliciesNetworkingV1beta1_empty mc svc H2)).
  unfold contribution.
  destruct (snd (MeshCatalog.GetIngressNetworkingV1 mc svc)),
    (snd (MeshCatalog.GetIngressNetworkingV1beta1 mc svc)); reflexivity.
Qed.

Lemma getIngressPoliciesFromK8s_errors mc svc :
  snd (MeshCatalog.GetIngressNetworkingV1 mc svc) <> None ->
  snd (MeshCatalog.GetIngressNetworkingV1beta1 mc svc) <> None ->
  getIngressPoliciesFromK8s mc svc = Ret ([], None).
Proof.
  intros H1 H2.
  rewrite (getIngressPoliciesFromK8s_Ret_Ret mc svc _ _ _ _
             (getIngressPoliciesNetworkingV1_error mc svc H1)
             (getIngressPoliciesNetworkingV1beta1_error mc svc H2)).
  unfold contribution.
  destruct (snd (MeshCatalog.GetIngressNetworkingV1 mc svc)),
    (snd (MeshCatalog.GetIngressNetworkingV1beta1 mc svc));
    [reflexivity|contradiction|contradiction|contradiction].
Qed.

Lemma string_append_assoc (s1 s2 s3 : string) :
  ((s1 ++ s2) ++ s3)%string = (s1 ++ s2 ++ s3)%string.
Proof. induction s1 as [|a s1 IH]; simpl; [reflexivity|now rewrite IH]. Qed.

Lemma buildTrafficMatches_flat_map svc enableHTTPSIngress trafficMatches entries :
  buildTrafficMatches svc enableHTTPSIngress trafficMatches entries
  = trafficMatches
    ++ flat_map (fun entry =>
                   trafficMatchesForPort svc enableHTTPSIngress (fst entry) (snd entry))
         entries.
Proof.
  revert trafficMatches. induction entries as [|[port appProtocol] entries IH];
    intros trafficMatches.
  - simpl. now rewrite app_nil_r.
  - cbn [buildTrafficMatches flat_map fst snd]. rewrite IH. now rewrite <- app_assoc.
Qed.

(** ** Skipping one path *)















(** ** The path match translation *)

(** C1, as amended.  For a path [p] of type [Prefix], in both extractors:
    the root path (a single slash) gives the pattern [p] itself with kind
    Prefix; any other path gives [p] with all its trailing slashes
    stripped, followed by [prefixMatchPathElementsRegex], with kind Regex;
    and for every path [p] other than the root path and the empty string,
    [p] followed by a slash is translated exactly as [p]. *)
Theorem prefix_path_translation (p : string)
    (b1 : networkingV1.IngressBackend.t) (b2 : networkingV1beta1.IngressBackend.t) :
  (p = "/" ->
   prefixPathV1 p b1
   = Ret (Route (HTTPRouteMatch.mk "/" PathMatchPrefix [WildcardHTTPMethod]))
   /\ prefixPathV1beta1 p b2
      = Ret (Route (HTTPRouteMatch.mk "/" PathMatchPrefix [WildcardHTTPMethod])))
  /\ (p <> "/" ->
      exists t,
        trailingSlashesStripped p t
        /\ prefixPathV1 p b1
           = Ret (Route (HTTPRouteMatch.mk (t ++ prefixMatchPathElementsRegex) PathMatchRegex
                           [WildcardHTTPMethod]))
        /\ prefixPathV1beta1 p b2
           = Ret (Route (HTTPRouteMatch.mk (t ++ prefixMatchPathElementsRegex) PathMatchRegex
                           [WildcardHTTPMethod])))
  /\ (p <> "/" -> p <> "" ->
      prefixPathV1 (p ++ "/") b1 = prefixPathV1 p b1
      /\ prefixPathV1beta1 (p ++ "/") b2 = prefixPathV1beta1 p b2).
Proof.
  unfold prefixPathV1, prefixPathV1beta1. repeat split.
  - subst p. reflexivity.
  - subst p. reflexivity.
  - intros Hp. exists (strings.TrimRight p "/").
    rewrite switchV1_Prefix, switchV1beta1_Prefix.
    apply String.eqb_neq in Hp. rewrite Hp.
    split; [apply TrimRight_stripped|split; reflexivity].
  - rewrite !switchV1_Prefix. apply String.eqb_neq in H. rewrite H.
    assert (E : ((p ++ "/")%string =? "/") = false).
    { apply String.eqb_neq. intros E. now apply append_slash_root in E. }
    rewrite E, TrimRight_snoc; reflexivity.
  - rewrite !switchV1beta1_Prefix. apply String.eqb_neq in H. rewrite H.
    assert (E : ((p ++ "/")%string =? "/") = false).
    { apply String.eqb_neq. intros E. now apply append_slash_root in E. }
    rewrite E, TrimRight_snoc; reflexivity.
Qed.

(** C4.  For a path [p] whose path type is [ImplementationSpecific] or is
    unset, both extractors build the route match with the pattern [p]
    itself, of kind Regex exactly when [p] contains a character of
    [^ $ * + [ ] % |], and of kind Prefix otherwise. *)
Theorem implementation_specific_translation (p : string)
    (b1 : networkingV1.IngressBackend.t) (b2 : networkingV1beta1.IngressBackend.t) :
  exists kind,
    httpRouteMatchNetworkingV1
      (networkingV1.HTTPIngressPath.mk p
         (Some networkingV1.PathTypeImplementationSpecific) b1)
    = Ret (Route (HTTPRouteMatch.mk p kind [WildcardHTTPMethod]))
    /\ httpRouteMatchNetworkingV1 (networkingV1.HTTPIngressPath.mk p None b1)
       = Ret (Route (HTTPRouteMatch.mk p kind [WildcardHTTPMethod]))
    /\ httpRouteMatchNetworkingV1beta1
         (networkingV1beta1.HTTPIngressPath.mk p
            (Some networkingV1beta1.PathTypeImplementationSpecific) b2)
       = Ret (Route (HTTPRouteMatch.mk p kind [WildcardHTTPMethod]))
    /\ httpRouteMatchNetworkingV1beta1
         (networkingV1beta1.HTTPIngressPath.mk p None b2)
       = Ret (Route (HTTPRouteMatch.mk p kind [WildcardHTTPMethod]))
    /\ (kind = PathMatchRegex <-> containsRegexChar p)
    /\ (kind = PathMatchPrefix <-> ~ containsRegexChar p).
Proof.
  exists (if strings.ContainsAny p commonRegexChars
          then PathMatchRegex else PathMatchPrefix).
  rewrite switchV1_ImplementationSpecific, switchV1_unset,
    switchV1beta1_ImplementationSpecific, switchV1beta1_unset.
  repeat (split; [reflexivity|]).
  rewrite <- ContainsAny_regexChars.
  destruct (strings.ContainsAny p commonRegexChars); split; split;
    congruence.
Qed.

(** C10.  A path whose path type is unset is switched on as
    [ImplementationSpecific] and gets its route match, in both extractors;
    the switch reaches its default branch only with a path type read
    through a non-nil pointer, a tag outside the known ones; so neither
    the switch, nor the loops over any objects, nor the extractors ever
    dereference a nil path type.  On objects all of whose other pointers
    can be followed, the loops dereference no nil pointer at all. *)
Theorem unset_path_type_never_dereferenced :
  (forall p b,
      httpRouteMatchNetworkingV1 (networkingV1.HTTPIngressPath.mk p None b)
      = httpRouteMatchNetworkingV1
          (networkingV1.HTTPIngressPath.mk p
             (Some networkingV1.PathTypeImplementationSpecific) b)
      /\ exists m,
          httpRouteMatchNetworkingV1 (networkingV1.HTTPIngressPath.mk p None b)
          = Ret (Route m))
  /\ (forall p b,
         httpRouteMatchNetworkingV1beta1 (networkingV1beta1.HTTPIngressPath.mk p None b)
         = httpRouteMatchNetworkingV1beta1
             (networkingV1beta1.HTTPIngressPath.mk p
                (Some networkingV1beta1.PathTypeImplementationSpecific) b)
         /\ exists m,
             httpRouteMatchNetworkingV1beta1
               (networkingV1beta1.HTTPIngressPath.mk p None b)
             = Ret (Route m))
  /\ (forall ingressPath,
         (exists m, httpRouteMatchNetworkingV1 ingressPath = Ret (Route m))
         \/ (exists pt,
                networkingV1.HTTPIngressPath.PathType ingressPath = Some pt
                /\ ~ knownPathType pt
                /\ httpRouteMatchNetworkingV1 ingressPath = Ret (InvalidPathType pt)))
  /\ (forall ingressPath,
         (exists m, httpRouteMatchNetworkingV1beta1 ingressPath = Ret (Route m))
         \/ (exists pt,
                networkingV1beta1.HTTPIngressPath.PathType ingressPath = Some pt
                /\ ~ knownPathType pt
                /\ httpRouteMatchNetworkingV1beta1 ingressPath
                   = Ret (InvalidPathType pt)))
  /\ (forall svc c acc ingresses,
         ingressesNetworkingV1 svc c acc ingresses
         <> Abort (NilPointerDereference PathTypePointer))
  /\ (forall svc c acc ingresses,
         ingressesNetworkingV1beta1 svc c acc ingresses
         <> Abort (NilPointerDereference PathTypePointer))
  /\ (forall mc svc,
         getIngressPoliciesNetworkingV1 mc svc
         <> Abort (NilPointerDereference PathTypePointer)
         /\ getIngressPoliciesNetworkingV1beta1 mc svc
            <> Abort (NilPointerDereference PathTypePointer))
  /\ (forall svc c acc ingresses which,
         forallb readableV1 ingresses = true ->
         ingressesNetworkingV1 svc c acc ingresses
         <> Abort (NilPointerDereference which))
  /\ (forall svc c acc ingresses which,
         forallb readableV1beta1 ingresses = true ->
         ingressesNetworkingV1beta1 svc c acc ingresses
         <> Abort (NilPointerDereference which))
  /\ (forall mc svc,
         fetchReadableV1 mc svc = true ->
         exists policies err, getIngressPoliciesNetworkingV1 mc svc = Ret (policies, err))
  /\ (forall mc svc,
         fetchReadableV1beta1 mc svc = true ->
         exists policies err,
           getIngressPoliciesNetworkingV1beta1 mc svc = Ret (policies, err)).
Proof.
  repeat apply conj.
  - intros p b. rewrite switchV1_unset, switchV1_ImplementationSpecific.
    split; [reflexivity|now eexists].
  - intros p b. rewrite switchV1beta1_unset, switchV1beta1_ImplementationSpecific.
    split; [reflexivity|now eexists].
  - apply switchV1_returns.
  - apply switchV1beta1_returns.
  - intros svc c acc ingresses H.
    now apply ingressesNetworkingV1_Abort in H.
  - intros svc c acc ingresses H.
    now apply ingressesNetworkingV1beta1_Abort in H.
  - intros mc svc. split; intros H.
    + now apply getIngressPoliciesNetworkingV1_Abort in H.
    + now apply getIngressPoliciesNetworkingV1beta1_Abort in H.
  - intros svc c acc ingresses which R H.
    rewrite (ingressesNetworkingV1_view svc c acc ingresses R) in H.
    apply mergeObjectsView_Abort in H. discriminate.
  - intros svc c acc ingresses which R H.
    rewrite (ingressesNetworkingV1beta1_view svc c acc ingresses R) in H.
    apply mergeObjectsView_Abort in H. discriminate.
  - intros mc svc R.
    destruct (getIngressPoliciesNetworkingV1_returns mc svc R) as [l [E _]].
    now exists l, (snd (MeshCatalog.GetIngressNetworkingV1 mc svc)).
  - intros mc svc R.
    destruct (getIngressPoliciesNetworkingV1beta1_returns mc svc R) as [l [E _]].
    now exists l, (snd (MeshCatalog.GetIngressNetworkingV1beta1 mc svc)).
Qed.


(** ** The extraction *)

(** C8.  The policy synthesized for a default backend has the wildcard
    token as its only hostname and exactly one rule, from the wildcard
    route match to the single default weighted cluster of the service,
    with the wildcard caller identity; for every object whose default
    backend names the service, each extractor merges that policy into the
    result before it goes through the rules; and an object with such a
    default backend and no rule yields exactly that one policy. *)
Theorem default_backend_wildcard_policy (svc : MeshService.t) (name ns : string) :
  wildcardIngressPolicy name ns (getDefaultWeightedClusterForService svc)
  = InboundTrafficPolicy.mk
      (getIngressTrafficPolicyName name ns WildcardHTTPMethod)
      [WildcardHTTPMethod]
      [Rule.mk
         (RouteWeightedClusters.mk WildCardRouteMatch
            [getDefaultWeightedClusterForService svc])
         WildcardServiceIdentity]
  /\ (forall c acc rules,
         ingressNetworkingV1 svc c acc
           (networkingV1.Ingress.mk name ns
              (networkingV1.IngressSpec.mk (Some (backendOfV1 svc)) rules))
         = (acc1 <- MergeInboundPolicies DisallowPartialHostnamesMatch acc
                      (wildcardIngressPolicy name ns c) ;;
            rulesNetworkingV1 svc c
              (networkingV1.Ingress.mk name ns
                 (networkingV1.IngressSpec.mk (Some (backendOfV1 svc)) rules))
              acc1 rules))
  /\ (forall c acc rules,
         ingressNetworkingV1beta1 svc c acc
           (networkingV1beta1.Ingress.mk name ns
              (networkingV1beta1.IngressSpec.mk (Some (backendOfV1beta1 svc)) rules))
         = (acc1 <- MergeInboundPolicies DisallowPartialHostnamesMatch acc
                      (wildcardIngressPolicy name ns c) ;;
            rulesNetworkingV1beta1 svc c
              (networkingV1beta1.Ingress.mk name ns
                 (networkingV1beta1.IngressSpec.mk (Some (backendOfV1beta1 svc)) rules))
              acc1 rules))
  /\ (forall mc,
         MeshCatalog.GetIngressNetworkingV1 mc svc
         = ([networkingV1.Ingress.mk name ns
               (networkingV1.IngressSpec.mk (Some (backendOfV1 svc)) [])], None) ->
         getIngressPoliciesNetworkingV1 mc svc
         = Ret ([wildcardIngressPolicy name ns
                   (getDefaultWeightedClusterForService svc)], None))
  /\ (forall mc,
         MeshCatalog.GetIngressNetworkingV1beta1 mc svc
         = ([networkingV1beta1.Ingress.mk name ns
               (networkingV1beta1.IngressSpec.mk (Some (backendOfV1beta1 svc)) [])],
            None) ->
         getIngressPoliciesNetworkingV1beta1 mc svc
         = Ret ([wildcardIngressPolicy name ns
                   (getDefaultWeightedClusterForService svc)], None)).
Proof.
  repeat apply conj.
  - reflexivity.
  - intros. apply ingressNetworkingV1_default.
  - intros. apply ingressNetworkingV1beta1_default.
  - intros mc H. unfold getIngressPoliciesNetworkingV1. rewrite H.
    cbn [List.length Nat.eqb ingressesNetworkingV1].
    now rewrite ingressNetworkingV1_default, MergeInboundPolicies_nil.
  - intros mc H. unfold getIngressPoliciesNetworkingV1beta1. rewrite H.
    cbn [List.length Nat.eqb ingressesNetworkingV1beta1].
    now rewrite ingressNetworkingV1beta1_default, MergeInboundPolicies_nil.
Qed.


(** C9.  The two extractors do not behave alike on every object.  A
    backend that refers to a resource instead of a service has no
    [Service] in networking/v1 and an empty service name in
    networking/v1beta1.  On the two representations of an object without
    default backend whose only rule has such a backend in its first path,
    the networking/v1 extractor follows the [nil] [Service] and panics,
    where the networking/v1beta1 extractor compares the empty name with
    that of the service, goes on with the other paths and returns: no
    policy when the paths give no route match, and otherwise the policy of
    the rule.  Likewise, on an object with such a default backend, the
    networking/v1 object step panics where the networking/v1beta1 step
    goes on to the rules when the name of the service is not empty. *)
Theorem extractors_differ_on_backend_without_service
    (mc : MeshCatalog.t) (svc : MeshService.t) (name ns host p : string)
    (pt : option string) (paths1 : list networkingV1.HTTPIngressPath.t)
    (paths2 : list networkingV1beta1.HTTPIngressPath.t) :
  MeshCatalog.GetIngressNetworkingV1 mc svc
  = ([objectWithRuleV1 name ns None host
        (networkingV1.HTTPIngressPath.mk p pt resourceBackendV1 :: paths1)],
     None) ->
  MeshCatalog.GetIngressNetworkingV1beta1 mc svc
  = ([objectWithRuleV1beta1 name ns None host
        (networkingV1beta1.HTTPIngressPath.mk p pt resourceBackendV1beta1 :: paths2)],
     None) ->
  Forall2 samePath paths1 paths2 ->
  Forall2 sameIngress (fst (MeshCatalog.GetIngressNetworkingV1 mc svc))
    (fst (MeshCatalog.GetIngressNetworkingV1beta1 mc svc))
  /\ getIngressPoliciesNetworkingV1 mc svc
     = Abort (NilPointerDereference ServicePointer)
  /\ getIngressPoliciesNetworkingV1beta1 mc svc
     = Ret (match
              routeMatchesNetworkingV1beta1 svc
                (networkingV1beta1.HTTPIngressPath.mk p pt resourceBackendV1beta1
                 :: paths2)
            with
            | [] => []
            | m :: ms =>
                [hostPolicy name ns host (getDefaultWeightedClusterForService svc)
                   (m :: ms)]
            end,
            None)
  /\ (forall c acc rules,
         ingressNetworkingV1 svc c acc
           (networkingV1.Ingress.mk name ns
              (networkingV1.IngressSpec.mk (Some resourceBackendV1) rules))
         = Abort (NilPointerDereference ServicePointer))
  /\ (forall c acc rules,
         MeshService.Name svc <> EmptyString ->
         ingressNetworkingV1beta1 svc c acc
           (networkingV1beta1.Ingress.mk name ns
              (networkingV1beta1.IngressSpec.mk (Some resourceBackendV1beta1) rules))
         = rulesNetworkingV1beta1 svc c
             (networkingV1beta1.Ingress.mk name ns
                (networkingV1beta1.IngressSpec.mk (Some resourceBackendV1beta1) rules))
             acc rules).
Proof.
  intros H1 H2 Hp. repeat apply conj.
  - rewrite H1, H2. cbn [fst]. repeat constructor. exact Hp.
  - unfold getIngressPoliciesNetworkingV1. rewrite H1. reflexivity.
  - unfold getIngressPoliciesNetworkingV1beta1. rewrite H2.
    cbn [List.length Nat.eqb ingressesNetworkingV1beta1].
    unfold objectWithRuleV1beta1, objectWithPathsV1beta1. cbn [app].
    rewrite ingressNetworkingV1beta1_no_default by reflexivity.
    cbn [networkingV1beta1.Ingress.Spec networkingV1beta1.IngressSpec.Rules
         rulesNetworkingV1beta1].
    rewrite ruleNetworkingV1beta1_eq by reflexivity.
    unfold mergeRuleView, ruleViewNetworkingV1beta1, pathsOfV1beta1.
    cbn [View.host View.matches networkingV1beta1.IngressRule.Host
         networkingV1beta1.IngressRule.HTTP networkingV1beta1.HTTPIngressRuleValue.Paths
         networkingV1beta1.Ingress.Name networkingV1beta1.Ingress.Namespace].
    destruct (routeMatchesNetworkingV1beta1 svc _) as [|m ms]; reflexivity.
  - reflexivity.
  - intros c acc rules N.
    assert (E : (EmptyString =? MeshService.Name svc) = false).
    { apply String.eqb_neq. congruence. }
    unfold ingressNetworkingV1beta1.
    cbn [networkingV1beta1.Ingress.Spec networkingV1beta1.IngressSpec.Backend
         networkingV1beta1.IngressBackend.ServiceName resourceBackendV1beta1].
    rewrite E. reflexivity.
Qed.

(** ** The assembly *)

(** C3.  Whenever the two extractors return, the error of each is that
    of the ingress monitor and the fan-out returns the contributions of
    the two versions with a nil error, the contribution of a version whose
    extractor returned an error being empty.  Both extractors return when
    they can follow every pointer of the objects they are given; with an
    error of the ingress monitor an extractor returns at once, and when
    both fetches fail the fan-out returns the empty list and a nil error.
    An error of the port-to-protocol resolver, which is consulted when the
    route policies are not empty, makes the assembly return no policy and
    that error, wrapped. *)
Theorem fetch_errors_swallowed_resolver_error_fatal
    (mc : MeshCatalog.t) (svc : MeshService.t) :
  (forall v1Policies err1 v1beta1Policies err2,
      getIngressPoliciesNetworkingV1 mc svc = Ret (v1Policies, err1) ->
      getIngressPoliciesNetworkingV1beta1 mc svc = Ret (v1beta1Policies, err2) ->
      err1 = snd (MeshCatalog.GetIngressNetworkingV1 mc svc)
      /\ err2 = snd (MeshCatalog.GetIngressNetworkingV1beta1 mc svc)
      /\ getIngressPoliciesFromK8s mc svc
         = Ret (contribution v1Policies err1 ++ contribution v1beta1Policies err2,
                None))
  /\ (fetchReadableV1 mc svc = true ->
      fetchReadableV1beta1 mc svc = true ->
      exists v1Policies v1beta1Policies,
        getIngressPoliciesNetworkingV1 mc svc
        = Ret (v1Policies, snd (MeshCatalog.GetIngressNetworkingV1 mc svc))
        /\ getIngressPoliciesNetworkingV1beta1 mc svc
           = Ret (v1beta1Policies, snd (MeshCatalog.GetIngressNetworkingV1beta1 mc svc))
        /\ getIngressPoliciesFromK8s mc svc
           = Ret (contribution v1Policies
                    (snd (MeshCatalog.GetIngressNetworkingV1 mc svc))
                  ++ contribution v1beta1Policies
                       (snd (MeshCatalog.GetIngressNetworkingV1beta1 mc svc)),
                  None))
  /\ (snd (MeshCatalog.GetIngressNetworkingV1 mc svc) <> None ->
      getIngressPoliciesNetworkingV1 mc svc
      = Ret ([], snd (MeshCatalog.GetIngressNetworkingV1 mc svc)))
  /\ (snd (MeshCatalog.GetIngressNetworkingV1beta1 mc svc) <> None ->
      getIngressPoliciesNetworkingV1beta1 mc svc
      = Ret ([], snd (MeshCatalog.GetIngressNetworkingV1beta1 mc svc)))
  /\ (forall policies err, contribution policies (Some err) = [])
  /\ (snd (MeshCatalog.GetIngressNetworkingV1 mc svc) <> None ->
      snd (MeshCatalog.GetIngressNetworkingV1beta1 mc svc) <> None ->
      getIngressPoliciesFromK8s mc svc = Ret ([], None))
  /\ (forall policy policies ports err,
         getIngressPoliciesFromK8s mc svc = Ret (policy :: policies, None) ->
         MeshCatalog.GetTargetPortToProtocolMappingForService mc svc
         = (ports, Some err) ->
         getIngressTrafficPolicyFromK8s mc svc
         = Ret (None,
                Some (Wrapf err
                        ("Error retrieving port to protocol mapping for service "
                         ++ MeshServiceString svc)))).
Proof.
  repeat apply conj.
  - intros l1 e1 l2 e2 E1 E2. split; [|split].
    + now apply getIngressPoliciesNetworkingV1_Ret in E1.
    + now apply getIngressPoliciesNetworkingV1beta1_Ret in E2.
    + now apply getIngressPoliciesFromK8s_Ret_Ret.
  - apply getIngressPoliciesFromK8s_returns.
  - apply getIngressPoliciesNetworkingV1_error.
  - apply getIngressPoliciesNetworkingV1beta1_error.
  - reflexivity.
  - apply getIngressPoliciesFromK8s_errors.
  - intros policy policies ports err H R.
    unfold getIngressTrafficPolicyFromK8s. rewrite H. cbn [bind]. now rewrite R.
Qed.

(** C5.  The traffic matches of one entry of the port-to-protocol map: none
    for a protocol other than HTTP; with HTTPS ingress disabled, one match
    named [ingress_<svc>_<port>_http], with protocol HTTP and no server
    name; with HTTPS ingress enabled, two matches with protocol HTTPS and
    client-certificate validation skipped, [ingress_<svc>_<port>_https]
    with no server name and [ingress_<svc>_<port>_https_with_sni] with the
    server name of the service as its only server name.  The traffic
    matches of the assembly are those of the entries, in the order of the
    entries. *)
Theorem traffic_matches_per_port (svc : MeshService.t) (enableHTTPSIngress : bool)
    (port : N) (appProtocol : string) :
  (appProtocol <> "http" ->
   trafficMatchesForPort svc enableHTTPSIngress port appProtocol = [])
  /\ (appProtocol = "http" -> enableHTTPSIngress = false ->
      trafficMatchesForPort svc enableHTTPSIngress port appProtocol
      = [IngressTrafficMatch.mk
           ("ingress_" ++ MeshServiceString svc ++ "_" ++ formatUint port ++ "_http")
           port "http" [] false])
  /\ (appProtocol = "http" -> enableHTTPSIngress = true ->
      trafficMatchesForPort svc enableHTTPSIngress port appProtocol
      = [IngressTrafficMatch.mk
           ("ingress_" ++ MeshServiceString svc ++ "_" ++ formatUint port ++ "_https")
           port "https" [] true;
         IngressTrafficMatch.mk
           ("ingress_" ++ MeshServiceString svc ++ "_" ++ formatUint port
            ++ "_https_with_sni")
           port "https" [ServerName svc] true])
  /\ (forall entries,
         buildTrafficMatches svc enableHTTPSIngress [] entries
         = flat_map (fun entry =>
                       trafficMatchesForPort svc enableHTTPSIngress
                         (fst entry) (snd entry))
             entries)
  /\ (forall mc policy policies entries,
         getIngressPoliciesFromK8s mc svc = Ret (policy :: policies, None) ->
         MeshCatalog.GetTargetPortToProtocolMappingForService mc svc = (entries, None) ->
         getIngressTrafficPolicyFromK8s mc svc
         = Ret (Some (IngressTrafficPolicy.mk
                        (flat_map (fun entry =>
                                     trafficMatchesForPort svc
                                       (MeshCatalog.UseHTTPSIngress mc)
                                       (fst entry) (snd entry))
                           entries)
                        (policy :: policies)),
                None)).
Proof.
  repeat apply conj.
  - intros H. unfold trafficMatchesForPort, constants.ProtocolHTTP.
    apply String.eqb_neq in H. now rewrite H.
  - intros -> ->. reflexivity.
  - intros -> ->.
    unfold trafficMatchesForPort, trafficMatchName, IngressTrafficMatch.setName,
      IngressTrafficMatch.setProtocol, IngressTrafficMatch.setServerNames,
      IngressTrafficMatch.setSkipClientCertValidation, constants.ProtocolHTTPS.
    cbn. repeat (rewrite string_append_assoc; cbn). reflexivity.
  - intros entries. now rewrite buildTrafficMatches_flat_map.
  - intros mc policy policies entries H R.
    unfold getIngressTrafficPolicyFromK8s. rewrite H. cbn [bind]. rewrite R.
    now rewrite buildTrafficMatches_flat_map.
Qed.

(** C6.  When the route policies produced by the fan-out are empty, the
    assembly returns no policy and no error, whatever the port-to-protocol
    resolver would answer; this is the case in particular when the ingress
    monitor has no object for the service in either schema version. *)
Theorem no_route_policies_no_ingress_policy (mc : MeshCatalog.t) (svc : MeshService.t)
    (resolver : MeshService.t -> list (N * string) * option error) :
  (getIngressPoliciesFromK8s mc svc = Ret ([], None) ->
   getIngressTrafficPolicyFromK8s (withResolver mc resolver) svc = Ret (None, None))
  /\ (fst (MeshCatalog.GetIngressNetworkingV1 mc svc) = [] ->
      fst (MeshCatalog.GetIngressNetworkingV1beta1 mc svc) = [] ->
      getIngressPoliciesFromK8s mc svc = Ret ([], None)
      /\ getIngressTrafficPolicyFromK8s (withResolver mc resolver) svc
         = Ret (None, None)).
Proof.
  split.
  - intros H. apply getIngressTrafficPolicyFromK8s_empty.
    now rewrite getIngressPoliciesFromK8s_withResolver.
  - intros H1 H2.
    pose proof (getIngressPoliciesFromK8s_no_objects mc svc H1 H2) as H.
    split; trivial. apply getIngressTrafficPolicyFromK8s_empty.
    now rewrite getIngressPoliciesFromK8s_withResolver.
Qed.

(** ** Further properties of the path-type switch *)

Lemma string_append_empty_r (p : string) : (p ++ EmptyString)%string = p.
Proof. induction p as [|a p IH]; simpl; [reflexivity|now rewrite IH]. Qed.

Lemma TrimRight_slashes_app (p : string) (n : nat) :
  strings.TrimRight (p ++ slashes n) "/" = strings.TrimRight p "/".
Proof.
  induction n as [|n IH].
  - cbn [slashes]. now rewrite string_append_empty_r.
  - rewrite slashes_snoc, <- string_append_assoc, TrimRight_snoc; [exact IH|reflexivity].
Qed.

Lemma append_slashes_root (p : string) (n : nat) :
  (p ++ slashes n)%string = "/" -> p = EmptyString \/ p = "/".
Proof.
  destruct p as [|a p]; [now left|]. simpl. intros H. injection H as -> H. right.
  destruct p; [reflexivity|discriminate].
Qed.


Lemma switchV1_shape ingressPath m :
  httpRouteMatchNetworkingV1 ingressPath = Ret (Route m) ->
  HTTPRouteMatch.Methods m = [WildcardHTTPMethod]
  /\ (HTTPRouteMatch.PathMatchType m = PathMatchExact
      <-> networkingV1.HTTPIngressPath.PathType ingressPath = Some "Exact")
  /\ (HTTPRouteMatch.PathMatchType m = PathMatchPrefix ->
      HTTPRouteMatch.Path m = networkingV1.HTTPIngressPath.Path ingressPath)
  /\ (HTTPRouteMatch.Path m <> networkingV1.HTTPIngressPath.Path ingressPath ->
      networkingV1.HTTPIngressPath.PathType ingressPath = Some "Prefix"
      /\ networkingV1.HTTPIngressPath.Path ingressPath <> "/"
      /\ HTTPRouteMatch.PathMatchType m = PathMatchRegex
      /\ HTTPRouteMatch.Path m
         = (strings.TrimRight (networkingV1.HTTPIngressPath.Path ingressPath) "/"
            ++ prefixMatchPathElementsRegex)%string).
Proof.
  destruct ingressPath as [p [pt|] b];
    cbn [networkingV1.HTTPIngressPath.PathType networkingV1.HTTPIngressPath.Path].
  - destruct (knownPathType_dec pt) as [[-> | [-> | ->]] | H].
    + rewrite switchV1_Exact. intros E. injection E as <-. cbn.
      repeat split; try congruence.
    + rewrite switchV1_Prefix. destruct (p =? "/") eqn:Ep; intros E; injection E as <-;
        cbn; repeat split; try congruence; try discriminate.
      now apply String.eqb_neq.
    + rewrite switchV1_ImplementationSpecific. intros E. injection E as <-.
      unfold implementationSpecificMatch. cbn.
      repeat split; try congruence; try discriminate;
        destruct (strings.ContainsAny p commonRegexChars); discriminate.
    + intros E. pose proof (eq_trans (eq_sym E) (switchV1_unknown p pt b H)) as U.
      discriminate U.
  - rewrite switchV1_unset. intros E. injection E as <-.
    unfold implementationSpecificMatch. cbn.
    repeat split; try congruence; try discriminate;
      destruct (strings.ContainsAny p commonRegexChars); discriminate.
Qed.

Lemma switchV1beta1_shape ingressPath m :
  httpRouteMatchNetworkingV1beta1 ingressPath = Ret (Route m) ->
  HTTPRouteMatch.Methods m = [WildcardHTTPMethod]
  /\ (HTTPRouteMatch.PathMatchType m = PathMatchExact
      <-> networkingV1beta1.HTTPIngressPath.PathType ingressPath = Some "Exact")
  /\ (HTTPRouteMatch.PathMatchType m = PathMatchPrefix ->
      HTTPRouteMatch.Path m = networkingV1beta1.HTTPIngressPath.Path ingressPath)
  /\ (HTTPRouteMatch.Path m <> networkingV1beta1.HTTPIngressPath.Path ingressPath ->
      networkingV1beta1.HTTPIngressPath.PathType ingressPath = Some "Prefix"
      /\ networkingV1beta1.HTTPIngressPath.Path ingressPath <> "/"
      /\ HTTPRouteMatch.PathMatchType m = PathMatchRegex
      /\ HTTPRouteMatch.Path m
         = (strings.TrimRight (networkingV1beta1.HTTPIngressPath.Path ingressPath) "/"
            ++ prefixMatchPathElementsRegex)%string).
Proof.
  destruct ingressPath as [p [pt|] b];
    cbn [networkingV1beta1.HTTPIngressPath.PathType networkingV1beta1.HTTPIngressPath.Path].
  - destruct (knownPathType_dec pt) as [[-> | [-> | ->]] | H].
    + rewrite switchV1beta1_Exact. intros E. injection E as <-. cbn.
      repeat split; try congruence.
    + rewrite switchV1beta1_Prefix. destruct (p =? "/") eqn:Ep; intros E; injection E as <-;
        cbn; repeat split; try congruence; try discriminate.
      now apply String.eqb_neq.
    + rewrite switchV1beta1_ImplementationSpecific. intros E. injection E as <-.
      unfold implementationSpecificMatch. cbn.
      repeat split; try congruence; try discriminate;
        destruct (strings.ContainsAny p commonRegexChars); discriminate.
    + intros E. pose proof (eq_trans (eq_sym E) (switchV1beta1_unknown p pt b H)) as U.
      discriminate U.
  - rewrite switchV1beta1_unset. intros E. injection E as <-.
    unfold implementationSpecificMatch. cbn.
    repeat split; try congruence; try discriminate;
      destruct (strings.ContainsAny p commonRegexChars); discriminate.
Qed.

(** X1.  What the switch builds, read off the route match: its methods are
    the wildcard method alone; its kind is Exact exactly for the path type
    [Exact]; with kind Prefix the pattern is the declared path; and the
    pattern differs from the declared path only for a path of type [Prefix]
    other than the root path, where it is the path without its trailing
    slashes followed by [prefixMatchPathElementsRegex], with kind Regex. *)
Theorem route_match_shape_of_path :
  (forall ingressPath m,
      httpRouteMatchNetworkingV1 ingressPath = Ret (Route m) ->
      HTTPRouteMatch.Methods m = [WildcardHTTPMethod]
      /\ (HTTPRouteMatch.PathMatchType m = PathMatchExact
          <-> networkingV1.HTTPIngressPath.PathType ingressPath = Some "Exact")
      /\ (HTTPRouteMatch.PathMatchType m = PathMatchPrefix ->
          HTTPRouteMatch.Path m = networkingV1.HTTPIngressPath.Path ingressPath)
      /\ (HTTPRouteMatch.Path m <> networkingV1.HTTPIngressPath.Path ingressPath ->
          networkingV1.HTTPIngressPath.PathType ingressPath = Some "Prefix"
          /\ networkingV1.HTTPIngressPath.Path ingressPath <> "/"
          /\ HTTPRouteMatch.PathMatchType m = PathMatchRegex
          /\ HTTPRouteMatch.Path m
             = (strings.TrimRight (networkingV1.HTTPIngressPath.Path ingressPath) "/"
                ++ prefixMatchPathElementsRegex)%string))
  /\ (forall ingressPath m,
         httpRouteMatchNetworkingV1beta1 ingressPath = Ret (Route m) ->
         HTTPRouteMatch.Methods m = [WildcardHTTPMethod]
         /\ (HTTPRouteMatch.PathMatchType m = PathMatchExact
             <-> networkingV1beta1.HTTPIngressPath.PathType ingressPath = Some "Exact")
         /\ (HTTPRouteMatch.PathMatchType m = PathMatchPrefix ->
             HTTPRouteMatch.Path m = networkingV1beta1.HTTPIngressPath.Path ingressPath)
         /\ (HTTPRouteMatch.Path m
             <> networkingV1beta1.HTTPIngressPath.Path ingressPath ->
             networkingV1beta1.HTTPIngressPath.PathType ingressPath = Some "Prefix"
             /\ networkingV1beta1.HTTPIngressPath.Path ingressPath <> "/"
             /\ HTTPRouteMatch.PathMatchType m = PathMatchRegex
             /\ HTTPRouteMatch.Path m
                = (strings.TrimRight
                     (networkingV1beta1.HTTPIngressPath.Path ingressPath) "/"
                   ++ prefixMatchPathElementsRegex)%string)).
Proof. split; [apply switchV1_shape|apply switchV1beta1_shape]. Qed.

(** X2.  A path of type [Prefix] other than the empty path and the root
    path is translated in the same way with any number of slashes appended
    to it. *)
Theorem prefix_path_any_trailing_slashes (p : string) (n : nat)
    (b1 : networkingV1.IngressBackend.t) (b2 : networkingV1beta1.IngressBackend.t) :
  p <> EmptyString -> p <> "/" ->
  prefixPathV1 (p ++ slashes n) b1 = prefixPathV1 p b1
  /\ prefixPathV1beta1 (p ++ slashes n) b2 = prefixPathV1beta1 p b2.
Proof.
  intros H0 H1. unfold prefixPathV1, prefixPathV1beta1.
  rewrite !switchV1_Prefix, !switchV1beta1_Prefix.
  assert (E : ((p ++ slashes n)%string =? "/") = false).
  { apply String.eqb_neq. intros E. apply append_slashes_root in E.
    destruct E; contradiction. }
  apply String.eqb_neq in H1. rewrite E, H1, TrimRight_slashes_app. split; reflexivity.
Qed.


(** X3.  The path loop of a rule keeps the name and the hostnames of the
    policy it is given and appends to its rules, in the order of the paths,
    one rule for each path whose backend is the service and whose path type
    is unset or known: the rule of the route match that the switch builds
    for that path, which has the wildcard method alone; paths of other
    services and paths of unknown type add nothing.  The networking/v1 loop
    does so when the backend of every path refers to a service, and panics
    on the [nil] [Service] of a backend otherwise. *)
Theorem path_loop_one_rule_per_eligible_path (svc : MeshService.t)
    (c : WeightedCluster.t) (pol : InboundTrafficPolicy.t) :
  (forall paths,
      pathsReadableV1 paths = true ->
      exists ms,
        pathsNetworkingV1 svc c pol paths
        = Ret (InboundTrafficPolicy.mk (InboundTrafficPolicy.Name pol)
                 (InboundTrafficPolicy.Hostnames pol)
                 (InboundTrafficPolicy.Rules pol ++ map (ruleFor c) ms))
        /\ Forall2
             (fun ingressPath m => httpRouteMatchNetworkingV1 ingressPath = Ret (Route m))
             (filter (eligibleV1 svc) paths) ms
        /\ List.length ms = List.length (filter (eligibleV1 svc) paths)
        /\ Forall (fun m => HTTPRouteMatch.Methods m = [WildcardHTTPMethod]) ms)
  /\ (forall paths,
         exists ms,
           pathsNetworkingV1beta1 svc c pol paths
           = Ret (InboundTrafficPolicy.mk (InboundTrafficPolicy.Name pol)
                    (InboundTrafficPolicy.Hostnames pol)
                    (InboundTrafficPolicy.Rules pol ++ map (ruleFor c) ms))
           /\ Forall2
                (fun ingressPath m =>
                   httpRouteMatchNetworkingV1beta1 ingressPath = Ret (Route m))
                (filter (eligibleV1beta1 svc) paths) ms
           /\ List.length ms = List.length (filter (eligibleV1beta1 svc) paths)
           /\ Forall (fun m => HTTPRouteMatch.Methods m = [WildcardHTTPMethod]) ms)
  /\ (forall paths,
         pathsReadableV1 paths = false ->
         pathsNetworkingV1 svc c pol paths
         = Abort (NilPointerDereference ServicePointer)).
Proof.
  split; [|split]; intros paths.
  - intros R. exists (routeMatchesNetworkingV1 svc paths). split; [|split; [|split]].
    + now apply pathsNetworkingV1_eq.
    + apply routeMatchesNetworkingV1_eligible.
    + apply routeMatchesNetworkingV1_length.
    + apply Forall_forall. intros m Hm.
      apply routeMatchesNetworkingV1_In in Hm. destruct Hm as [ip [_ [_ E]]].
      now apply switchV1_shape in E.
  - exists (routeMatchesNetworkingV1beta1 svc paths). split; [|split; [|split]].
    + apply pathsNetworkingV1beta1_eq.
    + apply routeMatchesNetworkingV1beta1_eligible.
    + apply routeMatchesNetworkingV1beta1_length.
    + apply Forall_forall. intros m Hm.
      apply routeMatchesNetworkingV1beta1_In in Hm. destruct Hm as [ip [_ [_ E]]].
      now apply switchV1beta1_shape in E.
  - intros R. now rewrite pathsNetworkingV1_outcome, R.
Qed.

Lemma ingressNetworkingV1_untargeted svc c acc ingress :
  readableV1 ingress = true ->
  targetsV1 svc ingress = false ->
  ingressNetworkingV1 svc c acc ingress = Ret acc.
Proof.
  intros R H. rewrite (ingressNetworkingV1_view svc c acc ingress R).
  destruct (viewNetworkingV1_untargeted svc ingress H) as [H1 H2].
  now apply mergeObjectView_inert.
Qed.

Lemma ingressesNetworkingV1_untargeted svc c acc ingresses :
  forallb readableV1 ingresses = true ->
  forallb (fun ingress => negb (targetsV1 svc ingress)) ingresses = true ->
  ingressesNetworkingV1 svc c acc ingresses = Ret acc.
Proof.
  induction ingresses as [|ingress ingresses IH]; [reflexivity|].
  cbn [forallb ingressesNetworkingV1]. intros R H.
  apply andb_true_iff in R. destruct R as [R1 R2].
  apply andb_true_iff in H. destruct H as [H1 H2].
  apply negb_true_iff in H1.
  rewrite (ingressNetworkingV1_untargeted svc c acc ingress R1 H1). cbn [bind].
  now apply IH.
Qed.

Lemma getIngressPoliciesNetworkingV1_untargeted mc svc :
  fetchReadableV1 mc svc = true ->
  forallb (fun ingress => negb (targetsV1 svc ingress))
    (fst (MeshCatalog.GetIngressNetworkingV1 mc svc)) = true ->
  getIngressPoliciesNetworkingV1 mc svc
  = Ret ([], snd (MeshCatalog.GetIngressNetworkingV1 mc svc)).
Proof.
  unfold fetchReadableV1, getIngressPoliciesNetworkingV1.
  destruct (MeshCatalog.GetIngressNetworkingV1 mc svc) as [ingresses [e|]];
    cbn [fst snd]; [reflexivity|]. intros R H.
  destruct (Nat.eqb _ _); [reflexivity|].
  now rewrite ingressesNetworkingV1_untargeted.
Qed.

Lemma ingressNetworkingV1beta1_untargeted svc c acc ingress :
  readableV1beta1 ingress = true ->
  targetsV1beta1 svc ingress = false ->
  ingressNetworkingV1beta1 svc c acc ingress = Ret acc.
Proof.
  intros R H. rewrite (ingressNetworkingV1beta1_view svc c acc ingress R).
  destruct (viewNetworkingV1beta1_untargeted svc ingress H) as [H1 H2].
  now apply mergeObjectView_inert.
Qed.

Lemma ingressesNetworkingV1beta1_untargeted svc c acc ingresses :
  forallb readableV1beta1 ingresses = true ->
  forallb (fun ingress => negb (targetsV1beta1 svc ingress)) ingresses = true ->
  ingressesNetworkingV1beta1 svc c acc ingresses = Ret acc.
Proof.
  induction ingresses as [|ingress ingresses IH]; [reflexivity|].
  cbn [forallb ingressesNetworkingV1beta1]. intros R H.
  apply andb_true_iff in R. destruct R as [R1 R2].
  apply andb_true_iff in H. destruct H as [H1 H2].
  apply negb_true_iff in H1.
  rewrite (ingressNetworkingV1beta1_untargeted svc c acc ingress R1 H1). cbn [bind].
  now apply IH.
Qed.

Lemma getIngressPoliciesNetworkingV1beta1_untargeted mc svc :
  fetchReadableV1beta1 mc svc = true ->
  forallb (fun ingress => negb (targetsV1beta1 svc ingress))
    (fst (MeshCatalog.GetIngressNetworkingV1beta1 mc svc)) = true ->
  getIngressPoliciesNetworkingV1beta1 mc svc
  = Ret ([], snd (MeshCatalog.GetIngressNetworkingV1beta1 mc svc)).
Proof.
  unfold fetchReadableV1beta1, getIngressPoliciesNetworkingV1beta1.
  destruct (MeshCatalog.GetIngressNetworkingV1beta1 mc svc) as [ingresses [e|]];
    cbn [fst snd]; [reflexivity|]. intros R H.
  destruct (Nat.eqb _ _); [reflexivity|].
  now rewrite ingressesNetworkingV1beta1_untargeted.
Qed.

(** X4.  Objects that do not name the service, neither as their default
    backend nor as the backend of a path, and all of whose pointers can be
    followed (every rule has an http section, and in networking/v1 every
    backend refers to a service), leave the accumulated result as it is;
    when the ingress monitor returns only such objects, in both schema
    versions, the extractors return no policy and the assembly returns no
    policy and no error.  An object that names the service nowhere can
    still make the extractors panic: both panic on a rule without an http
    section, and the networking/v1 extractor panics on a path or a default
    backend whose backend refers to a resource. *)
Theorem untargeted_objects_contribute_nothing (mc : MeshCatalog.t) (svc : MeshService.t) :
  (forall c acc ingresses,
      forallb readableV1 ingresses = true ->
      forallb (fun ingress => negb (targetsV1 svc ingress)) ingresses = true ->
      ingressesNetworkingV1 svc c acc ingresses = Ret acc)
  /\ (forall c acc ingresses,
         forallb readableV1beta1 ingresses = true ->
         forallb (fun ingress => negb (targetsV1beta1 svc ingress)) ingresses = true ->
         ingressesNetworkingV1beta1 svc c acc ingresses = Ret acc)
  /\ (fetchReadableV1 mc svc = true ->
      fetchReadableV1beta1 mc svc = true ->
      forallb (fun ingress => negb (targetsV1 svc ingress))
        (fst (MeshCatalog.GetIngressNetworkingV1 mc svc)) = true ->
      forallb (fun ingress => negb (targetsV1beta1 svc ingress))
        (fst (MeshCatalog.GetIngressNetworkingV1beta1 mc svc)) = true ->
      getIngressPoliciesNetworkingV1 mc svc
      = Ret ([], snd (MeshCatalog.GetIngressNetworkingV1 mc svc))
      /\ getIngressPoliciesNetworkingV1beta1 mc svc
         = Ret ([], snd (MeshCatalog.GetIngressNetworkingV1beta1 mc svc))
      /\ getIngressTrafficPolicyFromK8s mc svc = Ret (None, None))
  /\ (forall c acc name ns host,
         targetsV1 svc (hostOnlyObjectV1 name ns host) = false
         /\ ingressNetworkingV1 svc c acc (hostOnlyObjectV1 name ns host)
            = Abort (NilPointerDereference HTTPPointer))
  /\ (forall c acc name ns host,
         targetsV1beta1 svc (hostOnlyObjectV1beta1 name ns host) = false
         /\ ingressNetworkingV1beta1 svc c acc (hostOnlyObjectV1beta1 name ns host)
            = Abort (NilPointerDereference HTTPPointer))
  /\ (forall c acc name ns host p pt,
         targetsV1 svc
           (objectWithRuleV1 name ns None host
              [networkingV1.HTTPIngressPath.mk p pt resourceBackendV1]) = false
         /\ ingressNetworkingV1 svc c acc
              (objectWithRuleV1 name ns None host
                 [networkingV1.HTTPIngressPath.mk p pt resourceBackendV1])
            = Abort (NilPointerDereference ServicePointer))
  /\ (forall c acc name ns,
         targetsV1 svc
           (networkingV1.Ingress.mk name ns
              (networkingV1.IngressSpec.mk (Some resourceBackendV1) [])) = false
         /\ ingressNetworkingV1 svc c acc
              (networkingV1.Ingress.mk name ns
                 (networkingV1.IngressSpec.mk (Some resourceBackendV1) []))
            = Abort (NilPointerDereference ServicePointer)).
Proof.
  repeat apply conj.
  - intros. now apply ingressesNetworkingV1_untargeted.
  - intros. now apply ingressesNetworkingV1beta1_untargeted.
  - intros R1 R2 H1 H2.
    pose proof (getIngressPoliciesNetworkingV1_untargeted mc svc R1 H1) as E1.
    pose proof (getIngressPoliciesNetworkingV1beta1_untargeted mc svc R2 H2) as E2.
    repeat split; trivial.
    apply getIngressTrafficPolicyFromK8s_empty.
    rewrite (getIngressPoliciesFromK8s_Ret_Ret mc svc _ _ _ _ E1 E2).
    unfold contribution.
    destruct (snd (MeshCatalog.GetIngressNetworkingV1 mc svc)),
      (snd (MeshCatalog.GetIngressNetworkingV1beta1 mc svc)); reflexivity.
  - intros. split; reflexivity.
  - intros. split; reflexivity.
  - intros. split; reflexivity.
  - intros. split; reflexivity.
Qed.

(** ** Invariants of the extraction *)

Section Invariant.

Variable P : InboundTrafficPolicy.t -> Prop.
Variable R0 : Rule.t -> Prop.
Hypothesis P_appendRules :
  forall p rules, P p -> Forall R0 rules -> P (appendRules p rules).

Lemma MergeInboundPolicies_keeps strategy acc candidate acc' :
  Forall P acc -> P candidate -> Forall R0 (InboundTrafficPolicy.Rules candidate) ->
  MergeInboundPolicies strategy acc candidate = Ret acc' ->
  Forall P acc'.
Proof.
  intros Hacc Hc Hr. unfold MergeInboundPolicies. cbv zeta.
  destruct (existsb _ acc); [discriminate|].
  destruct (existsb _ acc); intros E; injection E as <-.
  - induction Hacc as [|p l Hp _ IH]; cbn [map]; constructor; trivial.
    destruct (hostnamesMatch _ _); [now apply P_appendRules|exact Hp].
  - apply Forall_app. split; [exact Hacc|]. constructor; [exact Hc|constructor].
Qed.

Lemma mergeRulesView_keeps c name ns acc rs acc' :
  (forall r, In r rs -> View.matches r <> [] ->
             P (hostPolicy name ns (View.host r) c (View.matches r))
             /\ Forall R0 (map (ruleFor c) (View.matches r))) ->
  Forall P acc ->
  mergeRulesView c name ns acc rs = Ret acc' ->
  Forall P acc'.
Proof.
  revert acc. induction rs as [|r rs IH]; intros acc Hrs Hacc E.
  - injection E as <-. exact Hacc.
  - cbn [mergeRulesView] in E. unfold mergeRuleView in E. cbv zeta in E.
    unfold hostPolicy at 1 in E. cbn [InboundTrafficPolicy.Rules] in E.
    destruct (View.matches r) as [|m ms] eqn:Em.
    + cbn in E. apply (IH acc); trivial. intros r' Hr'. apply Hrs. now right.
    + cbn [map List.length Nat.ltb Nat.leb] in E.
      destruct (MergeInboundPolicies _ acc _) as [acc1|] eqn:M; [|discriminate].
      cbn [bind] in E. apply (IH acc1); trivial.
      * intros r' Hr'. apply Hrs. now right.
      * destruct (Hrs r (or_introl eq_refl)) as [Hp Hr]; [rewrite Em; discriminate|].
        rewrite Em in Hp, Hr.
        apply (MergeInboundPolicies_keeps _ acc _ acc1 Hacc Hp Hr M).
Qed.

Lemma mergeObjectsView_keeps c acc os acc' :
  (forall o, In o os ->
             (View.defaultBackendIsService o = true ->
              P (wildcardIngressPolicy (View.name o) (View.namespace o) c)
              /\ Forall R0
                   (InboundTrafficPolicy.Rules
                      (wildcardIngressPolicy (View.name o) (View.namespace o) c)))
             /\ (forall r, In r (View.rules o) -> View.matches r <> [] ->
                           P (hostPolicy (View.name o) (View.namespace o)
                                (View.host r) c (View.matches r))
                           /\ Forall R0 (map (ruleFor c) (View.matches r)))) ->
  Forall P acc ->
  mergeObjectsView c acc os = Ret acc' ->
  Forall P acc'.
Proof.
  revert acc. induction os as [|o os IH]; intros acc Hos Hacc E.
  - injection E as <-. exact Hacc.
  - cbn [mergeObjectsView] in E. unfold mergeObjectView in E.
    destruct (Hos o (or_introl eq_refl)) as [Hd Hr].
    assert (Hos' : forall o', In o' os -> _) by (intros o' Ho'; apply (Hos o'); now right).
    destruct (View.defaultBackendIsService o).
    + destruct (MergeInboundPolicies _ acc _) as [acc1|] eqn:M; [|discriminate].
      cbn [bind] in E.
      destruct (mergeRulesView c _ _ acc1 _) as [acc2|] eqn:M2; [|discriminate].
      cbn [bind] in E. apply (IH acc2); trivial.
      apply (mergeRulesView_keeps _ _ _ acc1 _ acc2 Hr); trivial.
      destruct (Hd eq_refl) as [Hp Hq].
      apply (MergeInboundPolicies_keeps _ acc _ acc1 Hacc Hp Hq M).
    + cbn [bind] in E.
      destruct (mergeRulesView c _ _ acc _) as [acc2|] eqn:M2; [|discriminate].
      cbn [bind] in E. apply (IH acc2); trivial.
      apply (mergeRulesView_keeps _ _ _ acc _ acc2 Hr); trivial.
Qed.

End Invariant.


Lemma hostnamesMatch_single h d : hostnamesMatch [h] [d] = (h =? d).
Proof.
  unfold hostnamesMatch, hasHostname. simpl. rewrite (String.eqb_sym d h).
  destruct (h =? d); reflexivity.
Qed.

Lemma MergeInboundPolicies_distinct strategy acc candidate acc' :
  Forall singleHostname acc -> singleHostname candidate ->
  NoDup (map InboundTrafficPolicy.Hostnames acc) ->
  MergeInboundPolicies strategy acc candidate = Ret acc' ->
  NoDup (map InboundTrafficPolicy.Hostnames acc').
Proof.
  intros Hs [d Hd] Hn. unfold MergeInboundPolicies. cbv zeta.
  destruct (existsb _ acc); [discriminate|].
  destruct (existsb _ acc) eqn:E; intros M; injection M as <-.
  - rewrite map_map.
    erewrite map_ext; [exact Hn|]. intros p. cbv beta.
    destruct (hostnamesMatch _ _); reflexivity.
  - rewrite map_app. apply NoDup_app; trivial.
    + cbn [map]. constructor; [intros []|constructor].
    + intros hs Hin [<-|[]]. apply in_map_iff in Hin. destruct Hin as [p [Hp Hin]].
      assert (T : existsb
                    (fun q => hostnamesMatch (InboundTrafficPolicy.Hostnames q)
                                (InboundTrafficPolicy.Hostnames candidate)) acc = true).
      { apply existsb_exists. exists p. split; [exact Hin|].
        rewrite Hp, Hd, hostnamesMatch_single. apply String.eqb_refl. }
      rewrite T in E. discriminate.
Qed.

Lemma mergeRulesView_distinct c name ns acc rs :
  Forall singleHostname acc ->
  NoDup (map InboundTrafficPolicy.Hostnames acc) ->
  exists acc', mergeRulesView c name ns acc rs = Ret acc'
               /\ Forall singleHostname acc'
               /\ NoDup (map InboundTrafficPolicy.Hostnames acc').
Proof.
  revert acc. induction rs as [|r rs IH]; intros acc Hs Hn.
  - now exists acc.
  - cbn [mergeRulesView]. unfold mergeRuleView. cbv zeta.
    destruct (Nat.ltb _ _).
    + assert (Hc : singleHostname
                     (hostPolicy name ns (View.host r) c (View.matches r)))
        by now eexists.
      destruct (MergeInboundPolicies_single DisallowPartialHostnamesMatch acc _ Hs Hc)
        as [acc1 [M Hs1]].
      rewrite M. cbn [bind]. apply IH; trivial.
      apply (MergeInboundPolicies_distinct _ acc _ acc1 Hs Hc Hn M).
    + cbn [bind]. now apply IH.
Qed.

Lemma mergeObjectsView_distinct c acc os :
  Forall singleHostname acc ->
  NoDup (map InboundTrafficPolicy.Hostnames acc) ->
  exists acc', mergeObjectsView c acc os = Ret acc'
               /\ Forall singleHostname acc'
               /\ NoDup (map InboundTrafficPolicy.Hostnames acc').
Proof.
  revert acc. induction os as [|o os IH]; intros acc Hs Hn.
  - now exists acc.
  - cbn [mergeObjectsView]. unfold mergeObjectView.
    destruct (View.defaultBackendIsService o).
    + assert (Hc : singleHostname
                     (wildcardIngressPolicy (View.name o) (View.namespace o) c))
        by now eexists.
      destruct (MergeInboundPolicies_single DisallowPartialHostnamesMatch acc _ Hs Hc)
        as [acc1 [M Hs1]].
      rewrite M. cbn [bind].
      pose proof (MergeInboundPolicies_distinct _ acc _ acc1 Hs Hc Hn M) as Hn1.
      destruct (mergeRulesView_distinct c (View.name o) (View.namespace o) acc1
                  (View.rules o) Hs1 Hn1) as [acc2 [M2 [Hs2 Hn2]]].
      rewrite M2. cbn [bind]. now apply IH.
    + cbn [bind].
      destruct (mergeRulesView_distinct c (View.name o) (View.namespace o) acc
                  (View.rules o) Hs Hn) as [acc2 [M2 [Hs2 Hn2]]].
      rewrite M2. cbn [bind]. now apply IH.
Qed.

Lemma filedUnderView_appendRules os p rules :
  filedUnderView os p -> filedUnderView os (appendRules p rules).
Proof. intros [o [h H]]. exists o, h. exact H. Qed.

Lemma filedUnderView_wildcard os o c :
  In o os ->
  filedUnderView os (wildcardIngressPolicy (View.name o) (View.namespace o) c).
Proof. intros H. exists o, WildcardHTTPMethod. repeat split; auto. Qed.

Lemma filedUnderView_hostPolicy os o r c :
  In o os -> In r (View.rules o) ->
  filedUnderView os
    (hostPolicy (View.name o) (View.namespace o) (View.host r) c (View.matches r)).
Proof.
  intros Ho Hr. exists o, (domainOf (View.host r)). repeat split; trivial.
  unfold domainOf. destruct (View.host r =? "") eqn:E; [now left|right].
  apply String.eqb_neq in E. split; [exact E|]. now exists r.
Qed.

Lemma mergeObjectsView_filed c os acc' :
  mergeObjectsView c [] os = Ret acc' -> Forall (filedUnderView os) acc'.
Proof.
  intros M.
  apply (mergeObjectsView_keeps (filedUnderView os) (fun _ => True)
           (fun p rules H _ => filedUnderView_appendRules os p rules H)
           c [] os acc'); trivial.
  intros o Ho. split.
  - intros _. split; [now apply filedUnderView_wildcard|].
    repeat constructor.
  - intros r Hr _. split; [now apply filedUnderView_hostPolicy|].
    apply Forall_forall. trivial.
Qed.

Lemma ingressRule_ruleFor c m :
  HTTPRouteMatch.Methods m = [WildcardHTTPMethod] -> ingressRule c (ruleFor c m).
Proof. intros H. repeat split. now right. Qed.

Lemma mergeObjectsView_rules c os acc' :
  (forall o r m, In o os -> In r (View.rules o) -> In m (View.matches r) ->
                 HTTPRouteMatch.Methods m = [WildcardHTTPMethod]) ->
  mergeObjectsView c [] os = Ret acc' ->
  Forall (fun p => InboundTrafficPolicy.Rules p <> []
                   /\ Forall (ingressRule c) (InboundTrafficPolicy.Rules p)) acc'.
Proof.
  intros Hm M.
  apply (mergeObjectsView_keeps
           (fun p => InboundTrafficPolicy.Rules p <> []
                     /\ Forall (ingressRule c) (InboundTrafficPolicy.Rules p))
           (ingressRule c)) with (c := c) (acc := []) (os := os); trivial.
  - intros p rules [Hne Hp] Hr. cbn [appendRules InboundTrafficPolicy.Rules]. split.
    + intros E. apply app_eq_nil in E. now apply Hne.
    + apply Forall_app. now split.
  - intros o Ho. split.
    + intros _. cbn. repeat split; try discriminate;
        repeat constructor; now left.
    + intros r Hr Hne.
      assert (F : Forall (ingressRule c) (map (ruleFor c) (View.matches r))).
      { apply Forall_forall. intros x Hx. apply in_map_iff in Hx.
        destruct Hx as [m [<- Hx]]. apply ingressRule_ruleFor. now apply (Hm o r m). }
      repeat split; trivial. cbn. intros E. apply map_eq_nil in E. now apply Hne.
Qed.


Lemma filedUnderView_V1 svc ingresses p :
  filedUnderView (map (viewNetworkingV1 svc) ingresses) p ->
  filedUnderV1 ingresses p.
Proof.
  intros [o [h [Ho [Hh [Hn Hr]]]]].
  apply in_map_iff in Ho. destruct Ho as [ingress [<- Hin]].
  exists ingress, h. repeat split; trivial.
  destruct Hr as [Hr|[Hne [r [Hr Hhost]]]]; [now left|right].
  split; [exact Hne|].
  cbn [viewNetworkingV1 View.rules] in Hr. apply in_map_iff in Hr.
  destruct Hr as [rule [<- Hrule]]. now exists rule.
Qed.

Lemma viewNetworkingV1_methods svc ingresses o r m :
  In o (map (viewNetworkingV1 svc) ingresses) -> In r (View.rules o) ->
  In m (View.matches r) ->
  HTTPRouteMatch.Methods m = [WildcardHTTPMethod].
Proof.
  intros Ho Hr Hm. apply in_map_iff in Ho. destruct Ho as [ingress [<- _]].
  cbn [viewNetworkingV1 View.rules] in Hr. apply in_map_iff in Hr.
  destruct Hr as [rule [<- _]]. cbn [ruleViewNetworkingV1 View.matches] in Hm.
  apply routeMatchesNetworkingV1_In in Hm. destruct Hm as [ip [_ [_ E]]].
  now apply switchV1_shape in E.
Qed.

Lemma getIngressPoliciesNetworkingV1_output mc svc :
  fetchReadableV1 mc svc = true ->
  exists policies,
    getIngressPoliciesNetworkingV1 mc svc
    = Ret (policies, snd (MeshCatalog.GetIngressNetworkingV1 mc svc))
    /\ Forall (filedUnderV1 (fst (MeshCatalog.GetIngressNetworkingV1 mc svc))) policies
    /\ Forall (fun p =>
                 InboundTrafficPolicy.Rules p <> []
                 /\ Forall (ingressRule (getDefaultWeightedClusterForService svc))
                      (InboundTrafficPolicy.Rules p)) policies
    /\ Forall singleHostname policies
    /\ NoDup (map InboundTrafficPolicy.Hostnames policies).
Proof.
  unfold fetchReadableV1, getIngressPoliciesNetworkingV1.
  destruct (MeshCatalog.GetIngressNetworkingV1 mc svc) as [ingresses [err|]];
    cbn [fst snd]; intros R.
  - exists []. repeat split; constructor.
  - destruct (Nat.eqb _ _).
    + exists []. repeat split; constructor.
    + rewrite (ingressesNetworkingV1_view svc _ [] ingresses R).
      destruct (mergeObjectsView_distinct (getDefaultWeightedClusterForService svc) []
                  (map (viewNetworkingV1 svc) ingresses) (Forall_nil _) (NoDup_nil _))
        as [acc [M [Hs Hn]]].
      rewrite M. cbn [bind]. exists acc. repeat split; trivial.
      * apply mergeObjectsView_filed in M.
        apply Forall_forall. intros p Hp.
        apply (filedUnderView_V1 svc). revert p Hp. now apply Forall_forall.
      * apply mergeObjectsView_rules in M; trivial.
        intros o r m. apply viewNetworkingV1_methods.
Qed.

(** What holds of the policies of a readable catalog holds of every list
    of policies that the extractor returns. *)
Lemma getIngressPoliciesNetworkingV1_output_Ret mc svc policies err :
  getIngressPoliciesNetworkingV1 mc svc = Ret (policies, err) ->
  Forall (filedUnderV1 (fst (MeshCatalog.GetIngressNetworkingV1 mc svc))) policies
  /\ Forall (fun p =>
               InboundTrafficPolicy.Rules p <> []
               /\ Forall (ingressRule (getDefaultWeightedClusterForService svc))
                    (InboundTrafficPolicy.Rules p)) policies
  /\ Forall singleHostname policies
  /\ NoDup (map InboundTrafficPolicy.Hostnames policies).
Proof.
  intros H. destruct (getIngressPoliciesNetworkingV1_Ret mc svc _ _ H) as [R _].
  destruct (getIngressPoliciesNetworkingV1_output mc svc R) as [ps [E O]].
  rewrite E in H. injection H as <- _. exact O.
Qed.

Lemma filedUnderView_V1beta1 svc ingresses p :
  filedUnderView (map (viewNetworkingV1beta1 svc) ingresses) p ->
  filedUnderV1beta1 ingresses p.
Proof.
  intros [o [h [Ho [Hh [Hn Hr]]]]].
  apply in_map_iff in Ho. destruct Ho as [ingress [<- Hin]].
  exists ingress, h. repeat split; trivial.
  destruct Hr as [Hr|[Hne [r [Hr Hhost]]]]; [now left|right].
  split; [exact Hne|].
  cbn [viewNetworkingV1beta1 View.rules] in Hr. apply in_map_iff in Hr.
  destruct Hr as [rule [<- Hrule]]. now exists rule.
Qed.

Lemma viewNetworkingV1beta1_methods svc ingresses o r m :
  In o (map (viewNetworkingV1beta1 svc) ingresses) -> In r (View.rules o) ->
  In m (View.matches r) ->
  HTTPRouteMatch.Methods m = [WildcardHTTPMethod].
Proof.
  intros Ho Hr Hm. apply in_map_iff in Ho. destruct Ho as [ingress [<- _]].
  cbn [viewNetworkingV1beta1 View.rules] in Hr. apply in_map_iff in Hr.
  destruct Hr as [rule [<- _]]. cbn [ruleViewNetworkingV1beta1 View.matches] in Hm.
  apply routeMatchesNetworkingV1beta1_In in Hm. destruct Hm as [ip [_ [_ E]]].
  now apply switchV1beta1_shape in E.
Qed.

Lemma getIngressPoliciesNetworkingV1beta1_output mc svc :
  fetchReadableV1beta1 mc svc = true ->
  exists policies,
    getIngressPoliciesNetworkingV1beta1 mc svc
    = Ret (policies, snd (MeshCatalog.GetIngressNetworkingV1beta1 mc svc))
    /\ Forall (filedUnderV1beta1 (fst (MeshCatalog.GetIngressNetworkingV1beta1 mc svc))) policies
    /\ Forall (fun p =>
                 InboundTrafficPolicy.Rules p <> []
                 /\ Forall (ingressRule (getDefaultWeightedClusterForService svc))
                      (InboundTrafficPolicy.Rules p)) policies
    /\ Forall singleHostname policies
    /\ NoDup (map InboundTrafficPolicy.Hostnames policies).
Proof.
  unfold fetchReadableV1beta1, getIngressPoliciesNetworkingV1beta1.
  destruct (MeshCatalog.GetIngressNetworkingV1beta1 mc svc) as [ingresses [err|]];
    cbn [fst snd]; intros R.
  - exists []. repeat split; constructor.
  - destruct (Nat.eqb _ _).
    + exists []. repeat split; constructor.
    + rewrite (ingressesNetworkingV1beta1_view svc _ [] ingresses R).
      destruct (mergeObjectsView_distinct (getDefaultWeightedClusterForService svc) []
                  (map (viewNetworkingV1beta1 svc) ingresses) (Forall_nil _) (NoDup_nil _))
        as [acc [M [Hs Hn]]].
      rewrite M. cbn [bind]. exists acc. repeat split; trivial.
      * apply mergeObjectsView_filed in M.
        apply Forall_forall. intros p Hp.
        apply (filedUnderView_V1beta1 svc). revert p Hp. now apply Forall_forall.
      * apply mergeObjectsView_rules in M; trivial.
        intros o r m. apply viewNetworkingV1beta1_methods.
Qed.

(** What holds of the policies of a readable catalog holds of every list
    of policies that the extractor returns. *)
Lemma getIngressPoliciesNetworkingV1beta1_output_Ret mc svc policies err :
  getIngressPoliciesNetworkingV1beta1 mc svc = Ret (policies, err) ->
  Forall (filedUnderV1beta1 (fst (MeshCatalog.GetIngressNetworkingV1beta1 mc svc))) policies
  /\ Forall (fun p =>
               InboundTrafficPolicy.Rules p <> []
               /\ Forall (ingressRule (getDefaultWeightedClusterForService svc))
                    (InboundTrafficPolicy.Rules p)) policies
  /\ Forall singleHostname policies
  /\ NoDup (map InboundTrafficPolicy.Hostnames policies).
Proof.
  intros H. destruct (getIngressPoliciesNetworkingV1beta1_Ret mc svc _ _ H) as [R _].
  destruct (getIngressPoliciesNetworkingV1beta1_output mc svc R) as [ps [E O]].
  rewrite E in H. injection H as <- _. exact O.
Qed.

(** X5.  Every policy an extractor returns is keyed by exactly one
    hostname and named [<object name>.<object namespace>|<hostname>] after
    one of the objects the ingress monitor returned; the hostname is the
    wildcard token or the non-empty host of a rule of that object.  The
    extractor returns such policies, with the error of the ingress monitor,
    whenever it can follow every pointer of the objects. *)
Theorem extracted_policies_named_after_objects (mc : MeshCatalog.t)
    (svc : MeshService.t) :
  (forall policies err,
      getIngressPoliciesNetworkingV1 mc svc = Ret (policies, err) ->
      Forall (filedUnderV1 (fst (MeshCatalog.GetIngressNetworkingV1 mc svc))) policies)
  /\ (forall policies err,
         getIngressPoliciesNetworkingV1beta1 mc svc = Ret (policies, err) ->
         Forall (filedUnderV1beta1 (fst (MeshCatalog.GetIngressNetworkingV1beta1 mc svc)))
           policies)
  /\ (fetchReadableV1 mc svc = true ->
      exists policies,
        getIngressPoliciesNetworkingV1 mc svc
        = Ret (policies, snd (MeshCatalog.GetIngressNetworkingV1 mc svc))
        /\ Forall (filedUnderV1 (fst (MeshCatalog.GetIngressNetworkingV1 mc svc)))
             policies)
  /\ (fetchReadableV1beta1 mc svc = true ->
      exists policies,
        getIngressPoliciesNetworkingV1beta1 mc svc
        = Ret (policies, snd (MeshCatalog.GetIngressNetworkingV1beta1 mc svc))
        /\ Forall
             (filedUnderV1beta1 (fst (MeshCatalog.GetIngressNetworkingV1beta1 mc svc)))
             policies).
Proof.
  repeat apply conj.
  - intros ps e H. now apply getIngressPoliciesNetworkingV1_output_Ret in H.
  - intros ps e H. now apply getIngressPoliciesNetworkingV1beta1_output_Ret in H.
  - intros R.
    destruct (getIngressPoliciesNetworkingV1_output mc svc R) as [ps [E [H _]]].
    now exists ps.
  - intros R.
    destruct (getIngressPoliciesNetworkingV1beta1_output mc svc R) as [ps [E [H _]]].
    now exists ps.
Qed.

(** X6.  Every policy an extractor returns has at least one rule, and each
    of its rules has the wildcard caller identity, the default weighted
    cluster of the service as its only weighted cluster, and a route match
    that is the wildcard route match or has the wildcard method alone.  The
    extractor returns such policies, with the error of the ingress monitor,
    whenever it can follow every pointer of the objects. *)
Theorem extracted_policies_rules (mc : MeshCatalog.t) (svc : MeshService.t) :
  (forall policies err,
      getIngressPoliciesNetworkingV1 mc svc = Ret (policies, err) ->
      Forall (fun p =>
                InboundTrafficPolicy.Rules p <> []
                /\ Forall (ingressRule (getDefaultWeightedClusterForService svc))
                     (InboundTrafficPolicy.Rules p)) policies)
  /\ (forall policies err,
         getIngressPoliciesNetworkingV1beta1 mc svc = Ret (policies, err) ->
         Forall (fun p =>
                   InboundTrafficPolicy.Rules p <> []
                   /\ Forall (ingressRule (getDefaultWeightedClusterForService svc))
                        (InboundTrafficPolicy.Rules p)) policies)
  /\ (fetchReadableV1 mc svc = true ->
      exists policies,
        getIngressPoliciesNetworkingV1 mc svc
        = Ret (policies, snd (MeshCatalog.GetIngressNetworkingV1 mc svc))
        /\ Forall (fun p =>
                     InboundTrafficPolicy.Rules p <> []
                     /\ Forall (ingressRule (getDefaultWeightedClusterForService svc))
                          (InboundTrafficPolicy.Rules p)) policies)
  /\ (fetchReadableV1beta1 mc svc = true ->
      exists policies,
        getIngressPoliciesNetworkingV1beta1 mc svc
        = Ret (policies, snd (MeshCatalog.GetIngressNetworkingV1beta1 mc svc))
        /\ Forall (fun p =>
                     InboundTrafficPolicy.Rules p <> []
                     /\ Forall (ingressRule (getDefaultWeightedClusterForService svc))
                          (InboundTrafficPolicy.Rules p)) policies).
Proof.
  repeat apply conj.
  - intros ps e H. now apply getIngressPoliciesNetworkingV1_output_Ret in H.
  - intros ps e H. now apply getIngressPoliciesNetworkingV1beta1_output_Ret in H.
  - intros R.
    destruct (getIngressPoliciesNetworkingV1_output mc svc R) as [ps [E [_ [H _]]]].
    now exists ps.
  - intros R.
    destruct (getIngressPoliciesNetworkingV1beta1_output mc svc R)
      as [ps [E [_ [H _]]]].
    now exists ps.
Qed.

(** X7.  No two policies returned by one extractor are keyed by the same
    hostname: the policies of one schema version for one hostname are
    merged into one.  The extractor returns such policies, with the error
    of the ingress monitor, whenever it can follow every pointer of the
    objects. *)
Theorem extracted_policies_distinct_hostnames (mc : MeshCatalog.t)
    (svc : MeshService.t) :
  (forall policies err,
      getIngressPoliciesNetworkingV1 mc svc = Ret (policies, err) ->
      Forall singleHostname policies
      /\ NoDup (map InboundTrafficPolicy.Hostnames policies))
  /\ (forall policies err,
         getIngressPoliciesNetworkingV1beta1 mc svc = Ret (policies, err) ->
         Forall singleHostname policies
         /\ NoDup (map InboundTrafficPolicy.Hostnames policies))
  /\ (fetchReadableV1 mc svc = true ->
      exists policies,
        getIngressPoliciesNetworkingV1 mc svc
        = Ret (policies, snd (MeshCatalog.GetIngressNetworkingV1 mc svc))
        /\ Forall singleHostname policies
        /\ NoDup (map InboundTrafficPolicy.Hostnames policies))
  /\ (fetchReadableV1beta1 mc svc = true ->
      exists policies,
        getIngressPoliciesNetworkingV1beta1 mc svc
        = Ret (policies, snd (MeshCatalog.GetIngressNetworkingV1beta1 mc svc))
        /\ Forall singleHostname policies
        /\ NoDup (map InboundTrafficPolicy.Hostnames policies)).
Proof.
  repeat apply conj.
  - intros ps e H. now apply getIngressPoliciesNetworkingV1_output_Ret in H.
  - intros ps e H. now apply getIngressPoliciesNetworkingV1beta1_output_Ret in H.
  - intros R.
    destruct (getIngressPoliciesNetworkingV1_output mc svc R) as [ps [E [_ [_ H]]]].
    now exists ps.
  - intros R.
    destruct (getIngressPoliciesNetworkingV1beta1_output mc svc R)
      as [ps [E [_ [_ H]]]].
    now exists ps.
Qed.

(** ** Further properties of the fan-out and of the assembly *)

Lemma readableV1_backendsAreServices ingress :
  readableV1 ingress = true -> backendsAreServicesV1 ingress = true.
Proof.
  unfold readableV1, backendsAreServicesV1. intros H.
  apply andb_true_iff in H. destruct H as [H1 H2]. rewrite H1. cbn [andb].
  apply forallb_forall. intros rule Hr.
  pose proof (proj1 (forallb_forall _ _) H2 rule Hr) as R.
  unfold ruleReadableV1 in R. unfold pathsOfV1.
  now destruct (networkingV1.IngressRule.HTTP rule).
Qed.

(** X8.  The fan-out appends the policies of the two schema versions
    without merging them: when the ingress monitor returns the same
    objects, field for field, in both versions, and every pointer of the
    objects can be followed (every rule has an http section and every
    backend refers to a service), every policy of the networking/v1
    extractor is in the result twice, so that a non-empty result has two
    policies keyed by the same hostname. *)
Theorem fan_out_appends_without_merging (mc : MeshCatalog.t) (svc : MeshService.t)
    (l1 : list networkingV1.Ingress.t) (l2 : list networkingV1beta1.Ingress.t) :
  MeshCatalog.GetIngressNetworkingV1 mc svc = (l1, None) ->
  MeshCatalog.GetIngressNetworkingV1beta1 mc svc = (l2, None) ->
  Forall2 sameIngress l1 l2 ->
  forallb readableV1 l1 = true ->
  exists policies,
    getIngressPoliciesNetworkingV1 mc svc = Ret (policies, None)
    /\ getIngressPoliciesNetworkingV1beta1 mc svc = Ret (policies, None)
    /\ getIngressPoliciesFromK8s mc svc = Ret (policies ++ policies, None)
    /\ (policies <> [] ->
        ~ NoDup (map InboundTrafficPolicy.Hostnames (policies ++ policies))).
Proof.
  intros H1 H2 H R.
  assert (R1 : fetchReadableV1 mc svc = true).
  { unfold fetchReadableV1. now rewrite H1. }
  destruct (getIngressPoliciesNetworkingV1_returns mc svc R1) as [ps [E1 _]].
  rewrite H1 in E1. cbn [snd] in E1.
  assert (B : forallb backendsAreServicesV1 l1 = true).
  { apply forallb_forall. intros i Hi. apply readableV1_backendsAreServices.
    now apply (proj1 (forallb_forall _ _) R). }
  pose proof (getIngressPolicies_same_objects mc svc l1 l2 None H1 H2 H B) as E2.
  rewrite E1 in E2. symmetry in E2. exists ps. repeat split; trivial.
  - now rewrite (getIngressPoliciesFromK8s_Ret_Ret mc svc _ _ _ _ E1 E2).
  - intros Hne Hn. destruct ps as [|p ps]; [now apply Hne|].
    cbn [app map] in Hn. apply NoDup_cons_iff in Hn. destruct Hn as [Hn _].
    apply Hn. rewrite map_app. apply in_or_app. right. now left.
Qed.

Lemma getIngressTrafficPolicyFromK8s_Ret mc svc policy err :
  getIngressTrafficPolicyFromK8s mc svc = Ret (policy, err) ->
  (policy = None \/ err = None)
  /\ (forall e, err = Some e ->
                exists entries e0,
                  MeshCatalog.GetTargetPortToProtocolMappingForService mc svc
                  = (entries, Some e0)
                  /\ e = Wrapf e0
                           ("Error retrieving port to protocol mapping for service "
                            ++ MeshServiceString svc))
  /\ (forall tp, policy = Some tp ->
                 IngressTrafficPolicy.HTTPRoutePolicies tp <> []
                 /\ getIngressPoliciesFromK8s mc svc
                    = Ret (IngressTrafficPolicy.HTTPRoutePolicies tp, None)
                 /\ exists entries,
                     MeshCatalog.GetTargetPortToProtocolMappingForService mc svc
                     = (entries, None)
                     /\ IngressTrafficPolicy.TrafficMatches tp
                        = buildTrafficMatches svc (MeshCatalog.UseHTTPSIngress mc) []
                            entries).
Proof.
  unfold getIngressTrafficPolicyFromK8s.
  destruct (getIngressPoliciesFromK8s mc svc) as [[ps e]|cond] eqn:E;
    cbn [bind]; [|discriminate].
  destruct (getIngressPoliciesFromK8s_Ret mc svc ps e E) as [_ [_ ->]].
  destruct ps as [|p ps].
  - intros H. injection H as <- <-.
    split; [now left|]. split; intros x Hx; discriminate Hx.
  - destruct (MeshCatalog.GetTargetPortToProtocolMappingForService mc svc)
      as [entries [e0|]]; intros H; injection H as <- <-.
    + split; [now left|]. split.
      * intros e He. injection He as <-. now exists entries, e0.
      * intros x Hx. discriminate Hx.
    + split; [now right|]. split.
      * intros x Hx. discriminate Hx.
      * intros tp Htp. injection Htp as <-. cbn.
        split; [discriminate|]. split; [reflexivity|]. now exists entries.
Qed.

Lemma getIngressTrafficPolicyFromK8s_returns mc svc :
  fetchReadableV1 mc svc = true ->
  fetchReadableV1beta1 mc svc = true ->
  exists policy err, getIngressTrafficPolicyFromK8s mc svc = Ret (policy, err).
Proof.
  intros R1 R2.
  destruct (getIngressPoliciesFromK8s_returns mc svc R1 R2) as [l1 [l2 [_ [_ E]]]].
  unfold getIngressTrafficPolicyFromK8s. rewrite E. cbn [bind].
  destruct (contribution l1 _ ++ contribution l2 _) as [|p ps]; [now eexists _, _|].
  destruct (MeshCatalog.GetTargetPortToProtocolMappingForService mc svc)
    as [entries [e0|]]; now eexists _, _.
Qed.

Lemma getIngressTrafficPolicyFromK8s_panics mc svc :
  fetchReadableV1 mc svc && fetchReadableV1beta1 mc svc = false ->
  exists which,
    getIngressTrafficPolicyFromK8s mc svc = Abort (NilPointerDereference which)
    /\ which <> PathTypePointer.
Proof.
  intros R. destruct (getIngressPoliciesFromK8s_panics mc svc R) as [which [E W]].
  unfold getIngressTrafficPolicyFromK8s. rewrite E. now exists which.
Qed.

(** X9.  With the IngressBackend feature flag on, the entry point returns
    no policy and no error, whatever the ingress objects are.  With the
    flag off, it returns exactly when each extractor can follow every
    pointer of the objects it is given (every rule has an http section and,
    in networking/v1, every backend refers to a service; the objects of a
    version for which the ingress monitor returns an error are not read),
    and otherwise panics on a [nil] pointer, which is never a path type.
    Whenever it returns, it does not return a policy together with an
    error; an error it returns is the wrapped error of the
    port-to-protocol resolver; a policy it returns has the non-empty route
    policies of the fan-out, and the traffic matches built from the entries
    of the resolver. *)
Theorem ingress_traffic_policy_outcomes (mc : MeshCatalog.t) (svc : MeshService.t) :
  (MeshCatalog.EnableIngressBackendPolicy mc = true ->
   GetIngressTrafficPolicy mc svc = Ret (None, None))
  /\ (MeshCatalog.EnableIngressBackendPolicy mc = false ->
      fetchReadableV1 mc svc = true ->
      fetchReadableV1beta1 mc svc = true ->
      exists policy err, GetIngressTrafficPolicy mc svc = Ret (policy, err))
  /\ (MeshCatalog.EnableIngressBackendPolicy mc = false ->
      fetchReadableV1 mc svc && fetchReadableV1beta1 mc svc = false ->
      exists which,
        GetIngressTrafficPolicy mc svc = Abort (NilPointerDereference which)
        /\ which <> PathTypePointer)
  /\ (forall policy err,
         GetIngressTrafficPolicy mc svc = Ret (policy, err) ->
         (policy = None \/ err = None)
         /\ (MeshCatalog.EnableIngressBackendPolicy mc = true ->
             policy = None /\ err = None)
         /\ (forall e, err = Some e ->
                       exists entries e0,
                         MeshCatalog.GetTargetPortToProtocolMappingForService mc svc
                         = (entries, Some e0)
                         /\ e = Wrapf e0
                                  ("Error retrieving port to protocol mapping for service "
                                   ++ MeshServiceString svc))
         /\ (forall tp, policy = Some tp ->
                        IngressTrafficPolicy.HTTPRoutePolicies tp <> []
                        /\ getIngressPoliciesFromK8s mc svc
                           = Ret (IngressTrafficPolicy.HTTPRoutePolicies tp, None)
                        /\ exists entries,
                            MeshCatalog.GetTargetPortToProtocolMappingForService mc svc
                            = (entries, None)
                            /\ IngressTrafficPolicy.TrafficMatches tp
                               = buildTrafficMatches svc
                                   (MeshCatalog.UseHTTPSIngress mc) [] entries)).
Proof.
  unfold GetIngressTrafficPolicy. repeat apply conj.
  - intros ->. reflexivity.
  - intros ->. apply getIngressTrafficPolicyFromK8s_returns.
  - intros ->. apply getIngressTrafficPolicyFromK8s_panics.
  - intros policy err.
    destruct (MeshCatalog.EnableIngressBackendPolicy mc).
    + unfold getIngressTrafficPolicy. intros H. injection H as <- <-.
      split; [now left|]. split; [now split|].
      split; intros x Hx; discriminate Hx.
    + intros H. apply getIngressTrafficPolicyFromK8s_Ret in H.
      destruct H as [H1 [H2 H3]].
      split; [exact H1|]. split; [discriminate|]. split; [exact H2|exact H3].
Qed.

Lemma trafficMatches_no_http svc enableHTTPSIngress entries :
  Forall (fun entry => snd entry <> "http") entries ->
  flat_map (fun entry =>
              trafficMatchesForPort svc enableHTTPSIngress (fst entry) (snd entry))
    entries = [].
Proof.
  induction 1 as [|[port proto] entries H _ IH]; [reflexivity|].
  cbn [flat_map fst snd] in *. rewrite IH.
  unfold trafficMatchesForPort, constants.ProtocolHTTP.
  apply String.eqb_neq in H. now rewrite H.
Qed.

(** X10.  When the route policies are not empty and the resolver gives no
    port whose protocol is HTTP (in particular no port at all), the assembly
    still returns a policy: it has the route policies and no traffic
    match. *)
Theorem no_http_port_no_traffic_match (mc : MeshCatalog.t) (svc : MeshService.t)
    (policy : InboundTrafficPolicy.t) (policies : list InboundTrafficPolicy.t)
    (entries : list (N * string)) :
  getIngressPoliciesFromK8s mc svc = Ret (policy :: policies, None) ->
  MeshCatalog.GetTargetPortToProtocolMappingForService mc svc = (entries, None) ->
  Forall (fun entry => snd entry <> "http") entries ->
  getIngressTrafficPolicyFromK8s mc svc
  = Ret (Some (IngressTrafficPolicy.mk [] (policy :: policies)), None).
Proof.
  intros H R F. unfold getIngressTrafficPolicyFromK8s. rewrite H. cbn [bind]. rewrite R.
  rewrite buildTrafficMatches_flat_map. cbn [app].
  now rewrite trafficMatches_no_http.
Qed.

Lemma trafficMatchesForPort_In svc enableHTTPSIngress port appProtocol m :
  In m (trafficMatchesForPort svc enableHTTPSIngress port appProtocol) ->
  appProtocol = "http"
  /\ IngressTrafficMatch.Port m = port
  /\ IngressTrafficMatch.Protocol m = (if enableHTTPSIngress then "https" else "http")
  /\ IngressTrafficMatch.SkipClientCertValidation m = enableHTTPSIngress
  /\ (IngressTrafficMatch.ServerNames m = []
      \/ (enableHTTPSIngress = true
          /\ IngressTrafficMatch.ServerNames m = [ServerName svc])).
Proof.
  unfold trafficMatchesForPort, constants.ProtocolHTTP.
  destruct (appProtocol =? "http") eqn:E; cbn [negb]; [|intros []].
  apply String.eqb_eq in E. destruct enableHTTPSIngress.
  - intros [<-|[<-|[]]]; cbn; repeat split; auto.
  - intros [<-|[]]; cbn; repeat split; auto.
Qed.

Lemma trafficMatchesForPort_length svc enableHTTPSIngress port appProtocol :
  List.length (trafficMatchesForPort svc enableHTTPSIngress port appProtocol)
  = if appProtocol =? "http" then (if enableHTTPSIngress then 2 else 1)%nat else 0%nat.
Proof.
  unfold trafficMatchesForPort, constants.ProtocolHTTP.
  destruct (appProtocol =? "http"), enableHTTPSIngress; reflexivity.
Qed.

(** X11.  Every traffic match built from the port-to-protocol map is for a
    port that the map gives the protocol HTTP; its protocol is HTTPS and
    client-certificate validation is skipped exactly when HTTPS ingress is
    enabled; its server names are none, or, with HTTPS ingress enabled, the
    server name of the service alone.  There are two matches for each HTTP
    port with HTTPS ingress enabled, one otherwise. *)
Theorem traffic_matches_invariant (svc : MeshService.t) (enableHTTPSIngress : bool)
    (entries : list (N * string)) :
  (forall m,
      In m (buildTrafficMatches svc enableHTTPSIngress [] entries) ->
      In (IngressTrafficMatch.Port m, "http") entries
      /\ IngressTrafficMatch.Protocol m = (if enableHTTPSIngress then "https" else "http")
      /\ IngressTrafficMatch.SkipClientCertValidation m = enableHTTPSIngress
      /\ (IngressTrafficMatch.ServerNames m = []
          \/ (enableHTTPSIngress = true
              /\ IngressTrafficMatch.ServerNames m = [ServerName svc])))
  /\ List.length (buildTrafficMatches svc enableHTTPSIngress [] entries)
     = ((if enableHTTPSIngress then 2 else 1)
        * List.length (filter (fun entry => snd entry =? "http") entries))%nat.
Proof.
  rewrite buildTrafficMatches_flat_map. cbn [app]. split.
  - intros m Hm. apply in_flat_map in Hm. destruct Hm as [[port proto] [Hin Hm]].
    cbn [fst snd] in Hm. apply trafficMatchesForPort_In in Hm.
    destruct Hm as [-> [<- H]]. split; [exact Hin|exact H].
  - induction entries as [|[port proto] entries IH];
      [destruct enableHTTPSIngress; reflexivity|].
    cbn [flat_map filter fst snd]. rewrite length_app, IH, trafficMatchesForPort_length.
    destruct (proto =? "http"); cbn [List.length]; destruct enableHTTPSIngress; lia.
Qed.

(** ** The names *)

Lemma string_append_cancel_l (s a b : string) :
  (s ++ a)%string = (s ++ b)%string -> a = b.
Proof. induction s as [|c s IH]; simpl; intros H; [exact H|]. injection H as H. auto. Qed.

Lemma string_append_neq (s t : string) (c : ascii) : s <> (s ++ String c t)%string.
Proof.
  induction s as [|a s IH]; simpl; [discriminate|]. intros H. injection H as H. auto.
Qed.

Lemma occurs_append (c : ascii) (a b : string) :
  occurs c (a ++ b) <-> occurs c a \/ occurs c b.
Proof.
  unfold occurs. induction a as [|x a IH]; simpl.
  - split; [now right|]. intros [[]|H]. exact H.
  - rewrite IH. tauto.
Qed.

(** Two strings cut at the first occurrence of [c]. *)
Lemma string_split_first (c : ascii) (x x' y y' : string) :
  ~ occurs c x -> ~ occurs c x' ->
  (x ++ String c y)%string = (x' ++ String c y')%string ->
  x = x' /\ y = y'.
Proof.
  unfold occurs. revert x'. induction x as [|a x IH]; intros [|a' x'] Hx Hx' H;
    simpl in *.
  - injection H as ->. now split.
  - injection H as -> _. exfalso. apply Hx'. now left.
  - injection H as -> _. exfalso. apply Hx. now left.
  - injection H as -> H. destruct (IH x') as [-> ->]; auto.
Qed.

(** Two strings cut at the last occurrence of [c]. *)
Lemma string_split_last (c : ascii) (x x' y y' : string) :
  ~ occurs c y -> ~ occurs c y' ->
  (x ++ String c y)%string = (x' ++ String c y')%string ->
  x = x' /\ y = y'.
Proof.
  intros Hy Hy'. revert x'. induction x as [|a x IH]; intros [|a' x'] H; simpl in *.
  - injection H as ->. now split.
  - injection H as -> H. exfalso. apply Hy. rewrite H.
    apply occurs_append. right. now left.
  - injection H as -> H. exfalso. apply Hy'. rewrite <- H.
    apply occurs_append. right. now left.
  - injection H as -> H. destruct (IH x' H) as [-> ->]. now split.
Qed.

(** X12.  The name of a policy determines the object and the hostname it
    was built from: two names are equal only for the same object name,
    namespace and hostname, when the object names and namespaces hold no
    vertical bar and the namespaces no dot. *)
Theorem policy_name_injective (name namespace host name' namespace' host' : string) :
  ~ occurs "|" name -> ~ occurs "|" namespace ->
  ~ occurs "|" name' -> ~ occurs "|" namespace' ->
  ~ occurs "." namespace -> ~ occurs "." namespace' ->
  getIngressTrafficPolicyName name namespace host
  = getIngressTrafficPolicyName name' namespace' host' ->
  name = name' /\ namespace = namespace' /\ host = host'.
Proof.
  intros Hn Hns Hn' Hns' Hd Hd'. unfold getIngressTrafficPolicyName.
  change (name ++ "." ++ namespace ++ "|" ++ host)%string
    with (name ++ String "." (namespace ++ String "|" host))%string.
  change (name' ++ "." ++ namespace' ++ "|" ++ host')%string
    with (name' ++ String "." (namespace' ++ String "|" host'))%string.
  change (String "." (namespace ++ String "|" host))
    with (String "." namespace ++ String "|" host)%string.
  change (String "." (namespace' ++ String "|" host'))
    with (String "." namespace' ++ String "|" host')%string.
  rewrite <- !string_append_assoc. intros H.
  apply string_split_first in H.
  - destruct H as [H ->]. apply string_split_last in H; trivial.
    destruct H as [-> ->]. now repeat split.
  - intros O. apply occurs_append in O. destruct O as [O|[O|O]];
      [now apply Hn|discriminate O|now apply Hns].
  - intros O. apply occurs_append in O. destruct O as [O|[O|O]];
      [now apply Hn'|discriminate O|now apply Hns'].
Qed.

Lemma string_of_uint_no_underscore (d : Decimal.uint) :
  ~ occurs "_" (NilEmpty.string_of_uint d).
Proof.
  unfold occurs. induction d; simpl; try (intros [H|H]; [discriminate H|now auto]).
  intros [].
Qed.

Lemma formatUint_inj (n n' : N) : formatUint n = formatUint n' -> n = n'.
Proof.
  unfold formatUint. intros H. apply DecimalN.Unsigned.to_uint_inj.
  apply (f_equal NilEmpty.uint_of_string) in H. rewrite !NilEmpty.usu in H.
  now injection H.
Qed.

Lemma trafficMatchName_port_inj svc port port' protocol protocol' :
  trafficMatchName svc port protocol = trafficMatchName svc port' protocol' ->
  port = port'.
Proof.
  unfold trafficMatchName. intros H.
  apply string_append_cancel_l in H. apply string_append_cancel_l in H.
  apply string_append_cancel_l in H.
  change ("_" ++ protocol)%string with (String "_" protocol) in H.
  change ("_" ++ protocol')%string with (String "_" protocol') in H.
  apply string_split_first in H; try apply string_of_uint_no_underscore.
  destruct H as [H _]. now apply formatUint_inj.
Qed.

Lemma trafficMatchesForPort_names svc enableHTTPSIngress port appProtocol :
  exists protocol,
    map IngressTrafficMatch.Name
      (trafficMatchesForPort svc enableHTTPSIngress port appProtocol)
    = [] 
    \/ map IngressTrafficMatch.Name
         (trafficMatchesForPort svc enableHTTPSIngress port appProtocol)
       = [trafficMatchName svc port protocol]
    \/ map IngressTrafficMatch.Name
         (trafficMatchesForPort svc enableHTTPSIngress port appProtocol)
       = [trafficMatchName svc port protocol;
          trafficMatchName svc port (protocol ++ "_with_sni")].
Proof.
  unfold trafficMatchesForPort.
  destruct (appProtocol =? constants.ProtocolHTTP); cbn [negb].
  - destruct enableHTTPSIngress.
    + exists constants.ProtocolHTTPS. right. right. cbn [map].
      unfold IngressTrafficMatch.setName, IngressTrafficMatch.setProtocol,
        IngressTrafficMatch.setServerNames,
        IngressTrafficMatch.setSkipClientCertValidation.
      cbn [IngressTrafficMatch.Name]. f_equal. f_equal.
      unfold trafficMatchName. now rewrite !string_append_assoc.
    + exists constants.ProtocolHTTP. right. left. reflexivity.
  - exists EmptyString. now left.
Qed.

Lemma trafficMatches_names_ports svc enableHTTPSIngress entries name :
  In name
    (map IngressTrafficMatch.Name
       (flat_map (fun entry =>
                    trafficMatchesForPort svc enableHTTPSIngress (fst entry) (snd entry))
          entries)) ->
  exists port protocol,
    In port (map fst entries) /\ name = trafficMatchName svc port protocol.
Proof.
  induction entries as [|[port proto] entries IH]; [intros []|].
  cbn [flat_map fst snd map]. rewrite map_app. intros H.
  apply in_app_or in H. destruct H as [H|H].
  - destruct (trafficMatchesForPort_names svc enableHTTPSIngress port proto)
      as [protocol [E|[E|E]]]; rewrite E in H.
    + destruct H.
    + destruct H as [<-|[]]. exists port, protocol. split; [now left|reflexivity].
    + destruct H as [<-|[<-|[]]]; eexists port, _; (split; [now left|reflexivity]).
  - destruct (IH H) as [p [t [Hp E]]]. exists p, t. split; [now right|exact E].
Qed.

(** X13.  Distinct ports give distinct traffic match names: when no port
    occurs twice in the port-to-protocol map, no name occurs twice among the
    traffic matches built from it. *)
Theorem traffic_match_names_distinct (svc : MeshService.t) (enableHTTPSIngress : bool)
    (entries : list (N * string)) :
  NoDup (map fst entries) ->
  NoDup (map IngressTrafficMatch.Name
           (buildTrafficMatches svc enableHTTPSIngress [] entries)).
Proof.
  rewrite buildTrafficMatches_flat_map. cbn [app].
  induction entries as [|[port proto] entries IH]; intros Hn; [constructor|].
  cbn [map fst] in Hn. apply NoDup_cons_iff in Hn. destruct Hn as [Hport Hn].
  cbn [flat_map fst snd]. rewrite map_app. apply NoDup_app.
  - destruct (trafficMatchesForPort_names svc enableHTTPSIngress port proto)
      as [protocol [E|[E|E]]]; rewrite E.
    + constructor.
    + constructor; [intros []|constructor].
    + constructor; [|constructor; [intros []|constructor]].
      intros [H|[]]. unfold trafficMatchName in H.
      rewrite <- !string_append_assoc in H. symmetry in H.
      now apply string_append_neq in H.
  - now apply IH.
  - intros name H1 H2.
    apply trafficMatches_names_ports in H2. destruct H2 as [p [t [Hp ->]]].
    destruct (trafficMatchesForPort_names svc enableHTTPSIngress port proto)
      as [protocol [E|[E|E]]]; rewrite E in H1.
    + destruct H1.
    + destruct H1 as [H1|[]]. apply trafficMatchName_port_inj in H1.
      subst p. contradiction.
    + destruct H1 as [H1|[H1|[]]]; apply trafficMatchName_port_inj in H1;
        subst p; contradiction.
Qed.

(** ** Policies shared by several rules *)

Lemma MergeInboundPolicies_same_host strategy p candidate h :
  InboundTrafficPolicy.Hostnames p = [h] ->
  InboundTrafficPolicy.Hostnames candidate = [h] ->
  MergeInboundPolicies strategy [p] candidate
  = Ret [appendRules p (InboundTrafficPolicy.Rules candidate)].
Proof.
  intros Hp Hc. unfold MergeInboundPolicies. cbv zeta. cbn [existsb map].
  rewrite Hp, Hc, hostnamesPartiallyOverlap_single, hostnamesMatch_single,
    String.eqb_refl.
  reflexivity.
Qed.

Lemma domainOf_empty : domainOf EmptyString = WildcardHTTPMethod.
Proof. reflexivity. Qed.

Lemma domainOf_nonempty host : host <> EmptyString -> domainOf host = host.
Proof. intros H. unfold domainOf. apply String.eqb_neq in H. now rewrite H. Qed.


Lemma getIngressPoliciesNetworkingV1_empty_host mc svc name ns paths :
  pathsReadableV1 paths = true ->
  routeMatchesNetworkingV1 svc paths <> [] ->
  MeshCatalog.GetIngressNetworkingV1 mc svc
  = ([objectWithRuleV1 name ns (Some (backendOfV1 svc)) EmptyString paths], None) ->
  getIngressPoliciesNetworkingV1 mc svc
  = Ret ([InboundTrafficPolicy.mk
            (getIngressTrafficPolicyName name ns WildcardHTTPMethod)
            [WildcardHTTPMethod]
            (ruleFor (getDefaultWeightedClusterForService svc) WildCardRouteMatch
             :: map (ruleFor (getDefaultWeightedClusterForService svc))
                  (routeMatchesNetworkingV1 svc paths))],
         None).
Proof.
  intros R Hne H. unfold getIngressPoliciesNetworkingV1. rewrite H.
  cbn [List.length Nat.eqb ingressesNetworkingV1].
  unfold objectWithRuleV1, objectWithPathsV1. cbn [app].
  rewrite ingressNetworkingV1_default, MergeInboundPolicies_nil. cbn [bind].
  cbn [rulesNetworkingV1]. rewrite ruleNetworkingV1_eq by exact R.
  unfold mergeRuleView, ruleViewNetworkingV1, pathsOfV1.
  cbn [View.host View.matches networkingV1.IngressRule.Host
       networkingV1.IngressRule.HTTP networkingV1.HTTPIngressRuleValue.Paths
       networkingV1.Ingress.Name networkingV1.Ingress.Namespace].
  unfold hostPolicy. rewrite domainOf_empty. cbn [InboundTrafficPolicy.Rules].
  destruct (routeMatchesNetworkingV1 svc paths) as [|m ms]; [now contradict Hne|].
  cbn [map List.length Nat.ltb Nat.leb].
  rewrite (MergeInboundPolicies_same_host _ _ _ WildcardHTTPMethod); reflexivity.
Qed.

Lemma getIngressPoliciesNetworkingV1_two_objects mc svc name1 ns1 paths1
    name2 ns2 paths2 host :
  pathsReadableV1 paths1 = true ->
  pathsReadableV1 paths2 = true ->
  routeMatchesNetworkingV1 svc paths1 <> [] ->
  routeMatchesNetworkingV1 svc paths2 <> [] ->
  MeshCatalog.GetIngressNetworkingV1 mc svc
  = ([objectWithRuleV1 name1 ns1 None host paths1;
      objectWithRuleV1 name2 ns2 None host paths2], None) ->
  getIngressPoliciesNetworkingV1 mc svc
  = Ret ([InboundTrafficPolicy.mk
            (getIngressTrafficPolicyName name1 ns1 (domainOf host))
            [domainOf host]
            (map (ruleFor (getDefaultWeightedClusterForService svc))
               (routeMatchesNetworkingV1 svc paths1
                ++ routeMatchesNetworkingV1 svc paths2))],
         None).
Proof.
  intros R1 R2 Hne1 Hne2 H. unfold getIngressPoliciesNetworkingV1. rewrite H.
  cbn [List.length Nat.eqb ingressesNetworkingV1].
  unfold objectWithRuleV1, objectWithPathsV1. cbn [app].
  rewrite ingressNetworkingV1_no_default by reflexivity.
  cbn [networkingV1.Ingress.Spec networkingV1.IngressSpec.Rules rulesNetworkingV1].
  rewrite ruleNetworkingV1_eq by exact R1.
  unfold mergeRuleView, ruleViewNetworkingV1, pathsOfV1.
  cbn [View.host View.matches networkingV1.IngressRule.Host
       networkingV1.IngressRule.HTTP networkingV1.HTTPIngressRuleValue.Paths
       networkingV1.Ingress.Name networkingV1.Ingress.Namespace].
  unfold hostPolicy. cbn [InboundTrafficPolicy.Rules].
  destruct (routeMatchesNetworkingV1 svc paths1) as [|m1 ms1]; [now contradict Hne1|].
  cbn [map List.length Nat.ltb Nat.leb].
  rewrite MergeInboundPolicies_nil. cbn [bind].
  rewrite ingressNetworkingV1_no_default by reflexivity.
  cbn [networkingV1.Ingress.Spec networkingV1.IngressSpec.Rules rulesNetworkingV1].
  rewrite ruleNetworkingV1_eq by exact R2.
  unfold mergeRuleView, ruleViewNetworkingV1, pathsOfV1.
  cbn [View.host View.matches networkingV1.IngressRule.Host
       networkingV1.IngressRule.HTTP networkingV1.HTTPIngressRuleValue.Paths
       networkingV1.Ingress.Name networkingV1.Ingress.Namespace].
  unfold hostPolicy. cbn [InboundTrafficPolicy.Rules].
  destruct (routeMatchesNetworkingV1 svc paths2) as [|m2 ms2]; [now contradict Hne2|].
  cbn [map List.length Nat.ltb Nat.leb].
  rewrite (MergeInboundPolicies_same_host _ _ _ (domainOf host)); try reflexivity.
  cbn [bind]. unfold appendRules. cbn. now rewrite map_app.
Qed.

Lemma getIngressPoliciesNetworkingV1_second_object mc svc name1 ns1 paths1
    name2 ns2 paths2 host :
  pathsReadableV1 paths1 = true ->
  pathsReadableV1 paths2 = true ->
  routeMatchesNetworkingV1 svc paths1 = [] ->
  routeMatchesNetworkingV1 svc paths2 <> [] ->
  MeshCatalog.GetIngressNetworkingV1 mc svc
  = ([objectWithRuleV1 name1 ns1 None host paths1;
      objectWithRuleV1 name2 ns2 None host paths2], None) ->
  getIngressPoliciesNetworkingV1 mc svc
  = Ret ([InboundTrafficPolicy.mk
            (getIngressTrafficPolicyName name2 ns2 (domainOf host))
            [domainOf host]
            (map (ruleFor (getDefaultWeightedClusterForService svc))
               (routeMatchesNetworkingV1 svc paths2))],
         None).
Proof.
  intros R1 R2 He1 Hne2 H. unfold getIngressPoliciesNetworkingV1. rewrite H.
  cbn [List.length Nat.eqb ingressesNetworkingV1].
  unfold objectWithRuleV1, objectWithPathsV1. cbn [app].
  rewrite ingressNetworkingV1_no_default by reflexivity.
  cbn [networkingV1.Ingress.Spec networkingV1.IngressSpec.Rules rulesNetworkingV1].
  rewrite ruleNetworkingV1_eq by exact R1.
  unfold mergeRuleView, ruleViewNetworkingV1, pathsOfV1.
  cbn [View.host View.matches networkingV1.IngressRule.Host
       networkingV1.IngressRule.HTTP networkingV1.HTTPIngressRuleValue.Paths
       networkingV1.Ingress.Name networkingV1.Ingress.Namespace].
  unfold hostPolicy. cbn [InboundTrafficPolicy.Rules].
  rewrite He1. cbn [map List.length Nat.ltb Nat.leb bind].
  rewrite ingressNetworkingV1_no_default by reflexivity.
  cbn [networkingV1.Ingress.Spec networkingV1.IngressSpec.Rules rulesNetworkingV1].
  rewrite ruleNetworkingV1_eq by exact R2.
  unfold mergeRuleView, ruleViewNetworkingV1, pathsOfV1.
  cbn [View.host View.matches networkingV1.IngressRule.Host
       networkingV1.IngressRule.HTTP networkingV1.HTTPIngressRuleValue.Paths
       networkingV1.Ingress.Name networkingV1.Ingress.Namespace].
  unfold hostPolicy. cbn [InboundTrafficPolicy.Rules].
  destruct (routeMatchesNetworkingV1 svc paths2) as [|m2 ms2]; [now contradict Hne2|].
  cbn [map List.length Nat.ltb Nat.leb].
  now rewrite MergeInboundPolicies_nil.
Qed.

Lemma getIngressPoliciesNetworkingV1beta1_empty_host mc svc name ns paths :
  routeMatchesNetworkingV1beta1 svc paths <> [] ->
  MeshCatalog.GetIngressNetworkingV1beta1 mc svc
  = ([objectWithRuleV1beta1 name ns (Some (backendOfV1beta1 svc)) EmptyString paths], None) ->
  getIngressPoliciesNetworkingV1beta1 mc svc
  = Ret ([InboundTrafficPolicy.mk
            (getIngressTrafficPolicyName name ns WildcardHTTPMethod)
            [WildcardHTTPMethod]
            (ruleFor (getDefaultWeightedClusterForService svc) WildCardRouteMatch
             :: map (ruleFor (getDefaultWeightedClusterForService svc))
                  (routeMatchesNetworkingV1beta1 svc paths))],
         None).
Proof.
  intros  Hne H. unfold getIngressPoliciesNetworkingV1beta1. rewrite H.
  cbn [List.length Nat.eqb ingressesNetworkingV1beta1].
  unfold objectWithRuleV1beta1, objectWithPathsV1beta1. cbn [app].
  rewrite ingressNetworkingV1beta1_default, MergeInboundPolicies_nil. cbn [bind].
  cbn [rulesNetworkingV1beta1]. rewrite ruleNetworkingV1beta1_eq by reflexivity.
  unfold mergeRuleView, ruleViewNetworkingV1beta1, pathsOfV1beta1.
  cbn [View.host View.matches networkingV1beta1.IngressRule.Host
       networkingV1beta1.IngressRule.HTTP networkingV1beta1.HTTPIngressRuleValue.Paths
       networkingV1beta1.Ingress.Name networkingV1beta1.Ingress.Namespace].
  unfold hostPolicy. rewrite domainOf_empty. cbn [InboundTrafficPolicy.Rules].
  destruct (routeMatchesNetworkingV1beta1 svc paths) as [|m ms]; [now contradict Hne|].
  cbn [map List.length Nat.ltb Nat.leb].
  rewrite (MergeInboundPolicies_same_host _ _ _ WildcardHTTPMethod); reflexivity.
Qed.

Lemma getIngressPoliciesNetworkingV1beta1_two_objects mc svc name1 ns1 paths1
    name2 ns2 paths2 host :
  routeMatchesNetworkingV1beta1 svc paths1 <> [] ->
  routeMatchesNetworkingV1beta1 svc paths2 <> [] ->
  MeshCatalog.GetIngressNetworkingV1beta1 mc svc
  = ([objectWithRuleV1beta1 name1 ns1 None host paths1;
      objectWithRuleV1beta1 name2 ns2 None host paths2], None) ->
  getIngressPoliciesNetworkingV1beta1 mc svc
  = Ret ([InboundTrafficPolicy.mk
            (getIngressTrafficPolicyName name1 ns1 (domainOf host))
            [domainOf host]
            (map (ruleFor (getDefaultWeightedClusterForService svc))
               (routeMatchesNetworkingV1beta1 svc paths1
                ++ routeMatchesNetworkingV1beta1 svc paths2))],
         None).
Proof.
  intros  Hne1 Hne2 H. unfold getIngressPoliciesNetworkingV1beta1. rewrite H.
  cbn [List.length Nat.eqb ingressesNetworkingV1beta1].
  unfold objectWithRuleV1beta1, objectWithPathsV1beta1. cbn [app].
  rewrite ingressNetworkingV1beta1_no_default by reflexivity.
  cbn [networkingV1beta1.Ingress.Spec networkingV1beta1.IngressSpec.Rules rulesNetworkingV1beta1].
  rewrite ruleNetworkingV1beta1_eq by reflexivity.
  unfold mergeRuleView, ruleViewNetworkingV1beta1, pathsOfV1beta1.
  cbn [View.host View.matches networkingV1beta1.IngressRule.Host
       networkingV1beta1.IngressRule.HTTP networkingV1beta1.HTTPIngressRuleValue.Paths
       networkingV1beta1.Ingress.Name networkingV1beta1.Ingress.Namespace].
  unfold hostPolicy. cbn [InboundTrafficPolicy.Rules].
  destruct (routeMatchesNetworkingV1beta1 svc paths1) as [|m1 ms1]; [now contradict Hne1|].
  cbn [map List.length Nat.ltb Nat.leb].
  rewrite MergeInboundPolicies_nil. cbn [bind].
  rewrite ingressNetworkingV1beta1_no_default by reflexivity.
  cbn [networkingV1beta1.Ingress.Spec networkingV1beta1.IngressSpec.Rules rulesNetworkingV1beta1].
  rewrite ruleNetworkingV1beta1_eq by reflexivity.
  unfold mergeRuleView, ruleViewNetworkingV1beta1, pathsOfV1beta1.
  cbn [View.host View.matches networkingV1beta1.IngressRule.Host
       networkingV1beta1.IngressRule.HTTP networkingV1beta1.HTTPIngressRuleValue.Paths
       networkingV1beta1.Ingress.Name networkingV1beta1.Ingress.Namespace].
  unfold hostPolicy. cbn [InboundTrafficPolicy.Rules].
  destruct (routeMatchesNetworkingV1beta1 svc paths2) as [|m2 ms2]; [now contradict Hne2|].
  cbn [map List.length Nat.ltb Nat.leb].
  rewrite (MergeInboundPolicies_same_host _ _ _ (domainOf host)); try reflexivity.
  cbn [bind]. unfold appendRules. cbn. now rewrite map_app.
Qed.

Lemma getIngressPoliciesNetworkingV1beta1_second_object mc svc name1 ns1 paths1
    name2 ns2 paths2 host :
  routeMatchesNetworkingV1beta1 svc paths1 = [] ->
  routeMatchesNetworkingV1beta1 svc paths2 <> [] ->
  MeshCatalog.GetIngressNetworkingV1beta1 mc svc
  = ([objectWithRuleV1beta1 name1 ns1 None host paths1;
      objectWithRuleV1beta1 name2 ns2 None host paths2], None) ->
  getIngressPoliciesNetworkingV1beta1 mc svc
  = Ret ([InboundTrafficPolicy.mk
            (getIngressTrafficPolicyName name2 ns2 (domainOf host))
            [domainOf host]
            (map (ruleFor (getDefaultWeightedClusterForService svc))
               (routeMatchesNetworkingV1beta1 svc paths2))],
         None).
Proof.
  intros  He1 Hne2 H. unfold getIngressPoliciesNetworkingV1beta1. rewrite H.
  cbn [List.length Nat.eqb ingressesNetworkingV1beta1].
  unfold objectWithRuleV1beta1, objectWithPathsV1beta1. cbn [app].
  rewrite ingressNetworkingV1beta1_no_default by reflexivity.
  cbn [networkingV1beta1.Ingress.Spec networkingV1beta1.IngressSpec.Rules rulesNetworkingV1beta1].
  rewrite ruleNetworkingV1beta1_eq by reflexivity.
  unfold mergeRuleView, ruleViewNetworkingV1beta1, pathsOfV1beta1.
  cbn [View.host View.matches networkingV1beta1.IngressRule.Host
       networkingV1beta1.IngressRule.HTTP networkingV1beta1.HTTPIngressRuleValue.Paths
       networkingV1beta1.Ingress.Name networkingV1beta1.Ingress.Namespace].
  unfold hostPolicy. cbn [InboundTrafficPolicy.Rules].
  rewrite He1. cbn [map List.length Nat.ltb Nat.leb bind].
  rewrite ingressNetworkingV1beta1_no_default by reflexivity.
  cbn [networkingV1beta1.Ingress.Spec networkingV1beta1.IngressSpec.Rules rulesNetworkingV1beta1].
  rewrite ruleNetworkingV1beta1_eq by reflexivity.
  unfold mergeRuleView, ruleViewNetworkingV1beta1, pathsOfV1beta1.
  cbn [View.host View.matches networkingV1beta1.IngressRule.Host
       networkingV1beta1.IngressRule.HTTP networkingV1beta1.HTTPIngressRuleValue.Paths
       networkingV1beta1.Ingress.Name networkingV1beta1.Ingress.Namespace].
  unfold hostPolicy. cbn [InboundTrafficPolicy.Rules].
  destruct (routeMatchesNetworkingV1beta1 svc paths2) as [|m2 ms2]; [now contradict Hne2|].
  cbn [map List.length Nat.ltb Nat.leb].
  now rewrite MergeInboundPolicies_nil.
Qed.

(** X14.  A rule with an empty host is filed under the wildcard token, the
    hostname of the policy of the default backend: for an object whose
    default backend names the service and whose only rule has an empty host
    and gives at least one route match, each extractor returns one policy,
    keyed by the wildcard token, whose rules are the rule of the default
    backend followed by the rules of the paths.  (In networking/v1 the
    backends of the paths are to refer to services; the loop panics on the
    [nil] [Service] of one that does not.) *)
Theorem empty_host_shares_default_backend_policy (mc : MeshCatalog.t)
    (svc : MeshService.t) (name ns : string) :
  (forall paths,
      pathsReadableV1 paths = true ->
      routeMatchesNetworkingV1 svc paths <> [] ->
      MeshCatalog.GetIngressNetworkingV1 mc svc
      = ([objectWithRuleV1 name ns (Some (backendOfV1 svc)) EmptyString paths], None) ->
      getIngressPoliciesNetworkingV1 mc svc
      = Ret ([InboundTrafficPolicy.mk
                (getIngressTrafficPolicyName name ns WildcardHTTPMethod)
                [WildcardHTTPMethod]
                (ruleFor (getDefaultWeightedClusterForService svc) WildCardRouteMatch
                 :: map (ruleFor (getDefaultWeightedClusterForService svc))
                      (routeMatchesNetworkingV1 svc paths))],
             None))
  /\ (forall paths,
         routeMatchesNetworkingV1beta1 svc paths <> [] ->
         MeshCatalog.GetIngressNetworkingV1beta1 mc svc
         = ([objectWithRuleV1beta1 name ns (Some (backendOfV1beta1 svc)) EmptyString
               paths], None) ->
         getIngressPoliciesNetworkingV1beta1 mc svc
         = Ret ([InboundTrafficPolicy.mk
                   (getIngressTrafficPolicyName name ns WildcardHTTPMethod)
                   [WildcardHTTPMethod]
                   (ruleFor (getDefaultWeightedClusterForService svc) WildCardRouteMatch
                    :: map (ruleFor (getDefaultWeightedClusterForService svc))
                         (routeMatchesNetworkingV1beta1 svc paths))],
                None)).
Proof.
  split; intros paths.
  - apply getIngressPoliciesNetworkingV1_empty_host.
  - apply getIngressPoliciesNetworkingV1beta1_empty_host.
Qed.

(** X15.  Two objects without a default backend, each with one rule for
    the same host, the ingress monitor returning the two and nothing
    else.  When the rule of each gives at least one route match, the
    extractor returns one policy: it is named after the first object, and
    its rules are those of the paths of the first object followed by those
    of the paths of the second.  When the rule of the first object gives
    no route match (its paths name other services, or have unknown path
    types) and the rule of the second gives one, the one policy is named
    after the second object and has the rules of its paths.  (In
    networking/v1 the backends of the paths are to refer to services.) *)
Theorem same_host_policy_named_after_first_contributor (mc : MeshCatalog.t)
    (svc : MeshService.t) (name1 ns1 name2 ns2 host : string) :
  (forall paths1 paths2,
      pathsReadableV1 paths1 = true ->
      pathsReadableV1 paths2 = true ->
      routeMatchesNetworkingV1 svc paths1 <> [] ->
      routeMatchesNetworkingV1 svc paths2 <> [] ->
      MeshCatalog.GetIngressNetworkingV1 mc svc
      = ([objectWithRuleV1 name1 ns1 None host paths1;
          objectWithRuleV1 name2 ns2 None host paths2], None) ->
      getIngressPoliciesNetworkingV1 mc svc
      = Ret ([InboundTrafficPolicy.mk
                (getIngressTrafficPolicyName name1 ns1 (domainOf host))
                [domainOf host]
                (map (ruleFor (getDefaultWeightedClusterForService svc))
                   (routeMatchesNetworkingV1 svc paths1
                    ++ routeMatchesNetworkingV1 svc paths2))],
             None))
  /\ (forall paths1 paths2,
         routeMatchesNetworkingV1beta1 svc paths1 <> [] ->
         routeMatchesNetworkingV1beta1 svc paths2 <> [] ->
         MeshCatalog.GetIngressNetworkingV1beta1 mc svc
         = ([objectWithRuleV1beta1 name1 ns1 None host paths1;
             objectWithRuleV1beta1 name2 ns2 None host paths2], None) ->
         getIngressPoliciesNetworkingV1beta1 mc svc
         = Ret ([InboundTrafficPolicy.mk
                   (getIngressTrafficPolicyName name1 ns1 (domainOf host))
                   [domainOf host]
                   (map (ruleFor (getDefaultWeightedClusterForService svc))
                      (routeMatchesNetworkingV1beta1 svc paths1
                       ++ routeMatchesNetworkingV1beta1 svc paths2))],
                None))
  /\ (forall paths1 paths2,
         pathsReadableV1 paths1 = true ->
         pathsReadableV1 paths2 = true ->
         routeMatchesNetworkingV1 svc paths1 = [] ->
         routeMatchesNetworkingV1 svc paths2 <> [] ->
         MeshCatalog.GetIngressNetworkingV1 mc svc
         = ([objectWithRuleV1 name1 ns1 None host paths1;
             objectWithRuleV1 name2 ns2 None host paths2], None) ->
         getIngressPoliciesNetworkingV1 mc svc
         = Ret ([InboundTrafficPolicy.mk
                   (getIngressTrafficPolicyName name2 ns2 (domainOf host))
                   [domainOf host]
                   (map (ruleFor (getDefaultWeightedClusterForService svc))
                      (routeMatchesNetworkingV1 svc paths2))],
                None))
  /\ (forall paths1 paths2,
         routeMatchesNetworkingV1beta1 svc paths1 = [] ->
         routeMatchesNetworkingV1beta1 svc paths2 <> [] ->
         MeshCatalog.GetIngressNetworkingV1beta1 mc svc
         = ([objectWithRuleV1beta1 name1 ns1 None host paths1;
             objectWithRuleV1beta1 name2 ns2 None host paths2], None) ->
         getIngressPoliciesNetworkingV1beta1 mc svc
         = Ret ([InboundTrafficPolicy.mk
                   (getIngressTrafficPolicyName name2 ns2 (domainOf host))
                   [domainOf host]
                   (map (ruleFor (getDefaultWeightedClusterForService svc))
                      (routeMatchesNetworkingV1beta1 svc paths2))],
                None)).
Proof.
  repeat apply conj; intros paths1 paths2.
  - apply getIngressPoliciesNetworkingV1_two_objects.
  - apply getIngressPoliciesNetworkingV1beta1_two_objects.
  - apply getIngressPoliciesNetworkingV1_second_object.
  - apply getIngressPoliciesNetworkingV1beta1_second_object.
Qed.


(** ** The nil pointers of the objects *)

(** X16.  On lists that represent the same objects field for field (and
    with the same error of the ingress monitor), the two extractors have
    the same outcome whenever every backend of the networking/v1 objects
    refers to a service: they return the same policies and the same error,
    or panic alike on a rule without an http section. *)
Theorem extractors_agree_when_backends_are_services (mc : MeshCatalog.t)
    (svc : MeshService.t) (l1 : list networkingV1.Ingress.t)
    (l2 : list networkingV1beta1.Ingress.t) (err : option error) :
  MeshCatalog.GetIngressNetworkingV1 mc svc = (l1, err) ->
  MeshCatalog.GetIngressNetworkingV1beta1 mc svc = (l2, err) ->
  Forall2 sameIngress l1 l2 ->
  forallb backendsAreServicesV1 l1 = true ->
  getIngressPoliciesNetworkingV1 mc svc = getIngressPoliciesNetworkingV1beta1 mc svc.
Proof. apply getIngressPolicies_same_objects. Qed.

(** X17.  Each extractor returns exactly when it can follow every pointer
    of the objects the ingress monitor gives it, and otherwise panics on a
    [nil] pointer other than a path type.  The step of a rule without an
    http section panics on [rule.HTTP] in both versions; the networking/v1
    path loop panics on the [Service] of the first backend that refers to
    no service, whatever service the paths before it name. *)
Theorem extractors_return_unless_nil_pointer (mc : MeshCatalog.t) (svc : MeshService.t) :
  (fetchReadableV1 mc svc = true ->
   exists policies,
     getIngressPoliciesNetworkingV1 mc svc
     = Ret (policies, snd (MeshCatalog.GetIngressNetworkingV1 mc svc)))
  /\ (fetchReadableV1 mc svc = false ->
      exists which,
        getIngressPoliciesNetworkingV1 mc svc = Abort (NilPointerDereference which)
        /\ which <> PathTypePointer)
  /\ (fetchReadableV1beta1 mc svc = true ->
      exists policies,
        getIngressPoliciesNetworkingV1beta1 mc svc
        = Ret (policies, snd (MeshCatalog.GetIngressNetworkingV1beta1 mc svc)))
  /\ (fetchReadableV1beta1 mc svc = false ->
      exists which,
        getIngressPoliciesNetworkingV1beta1 mc svc = Abort (NilPointerDereference which)
        /\ which <> PathTypePointer)
  /\ (forall c ingress acc host,
         ruleNetworkingV1 svc c ingress acc (networkingV1.IngressRule.mk host None)
         = Abort (NilPointerDereference HTTPPointer))
  /\ (forall c ingress acc host,
         ruleNetworkingV1beta1 svc c ingress acc
           (networkingV1beta1.IngressRule.mk host None)
         = Abort (NilPointerDereference HTTPPointer))
  /\ (forall c pol ps1 p pt ps2,
         pathsReadableV1 ps1 = true ->
         pathsNetworkingV1 svc c pol
           (ps1 ++ networkingV1.HTTPIngressPath.mk p pt resourceBackendV1 :: ps2)
         = Abort (NilPointerDereference ServicePointer)).
Proof.
  repeat apply conj.
  - intros R. destruct (getIngressPoliciesNetworkingV1_returns mc svc R) as [l [E _]].
    now exists l.
  - apply getIngressPoliciesNetworkingV1_panics.
  - intros R.
    destruct (getIngressPoliciesNetworkingV1beta1_returns mc svc R) as [l [E _]].
    now exists l.
  - apply getIngressPoliciesNetworkingV1beta1_panics.
  - reflexivity.
  - reflexivity.
  - intros c pol ps1 p pt ps2 R.
    rewrite pathsNetworkingV1_outcome, pathsReadableV1_app, R.
    reflexivity.
Qed.

End Catalog.

(** ** Runs on the sample objects *)

Local Notation "'sampleV1'" :=
  (getIngressPoliciesNetworkingV1 Sample.wildcard Sample.wildCardRouteMatch
     Sample.wildcardIdentity Sample.defaultCluster).
Local Notation "'sampleV1beta1'" :=
  (getIngressPoliciesNetworkingV1beta1 Sample.wildcard Sample.wildCardRouteMatch
     Sample.wildcardIdentity Sample.defaultCluster).
Local Notation "'sampleFromK8s'" :=
  (getIngressPoliciesFromK8s Sample.wildcard Sample.wildCardRouteMatch
     Sample.wildcardIdentity Sample.defaultCluster).
Local Notation "'sampleTrafficPolicy'" :=
  (getIngressTrafficPolicyFromK8s Sample.wildcard Sample.wildCardRouteMatch
     Sample.wildcardIdentity Sample.defaultCluster Sample.svcString Sample.serverName).

(** Two objects for the same host merge into one policy with both rules. *)
Example two_objects_one_host :
  sampleV1 (Sample.catalog ([Sample.fooV1; Sample.barV1], None) ([], None) false ([], None))
    Sample.svc
  = Ret ([trafficpolicy.InboundTrafficPolicy.mk "foo.default|a.com" ["a.com"]
            [trafficpolicy.Rule.mk
               (trafficpolicy.RouteWeightedClusters.mk
                  (trafficpolicy.HTTPRouteMatch.mk "/foo(/.*)?$"
                     trafficpolicy.PathMatchRegex ["*"])
                  [Sample.defaultCluster Sample.svc])
               "*";
             trafficpolicy.Rule.mk
               (trafficpolicy.RouteWeightedClusters.mk
                  (trafficpolicy.HTTPRouteMatch.mk "/bar"
                     trafficpolicy.PathMatchExact ["*"])
                  [Sample.defaultCluster Sample.svc])
               "*"]],
         None).
Proof. reflexivity. Qed.

Example port_80_http :
  trafficMatchesForPort Sample.svcString Sample.serverName Sample.svc false 80 "http"
  = [trafficpolicy.IngressTrafficMatch.mk "ingress_default/bookstore_80_http" 80 "http"
       [] false].
Proof. reflexivity. Qed.

(** A rule without an http section makes both extractors panic. *)
Example rule_without_http_panics :
  sampleV1 (Sample.catalog ([Sample.hostOnlyV1], None) ([], None) false ([], None))
    Sample.svc
  = Abort (NilPointerDereference HTTPPointer)
  /\ sampleV1beta1
       (Sample.catalog ([], None) ([Sample.hostOnlyV1beta1], None) false ([], None))
       Sample.svc
     = Abort (NilPointerDereference HTTPPointer).
Proof. split; reflexivity. Qed.

Lemma prefix_path_translation_witness :
  prefixPathV1 "*" ("/foo" ++ "/") Sample.backendV1
  = prefixPathV1 "*" "/foo" Sample.backendV1
  /\ prefixPathV1beta1 "*" ("/foo" ++ "/") Sample.backendV1beta1
     = prefixPathV1beta1 "*" "/foo" Sample.backendV1beta1.
Proof.
  apply (proj2 (proj2 (prefix_path_translation "*" "/foo" Sample.backendV1
                         Sample.backendV1beta1))); discriminate.
Defined.

(** C1 as stated fails on the empty path: it is not the root path, and with
    a slash appended it is the root path, which is translated to the
    pattern of the root path with kind Prefix, while the empty path is
    translated to the suffix alone with kind Regex. *)
Lemma prefix_trailing_slash_empty_path :
  EmptyString <> "/"
  /\ prefixPathV1 "*" (EmptyString ++ "/") Sample.backendV1
     = Ret (Route (trafficpolicy.HTTPRouteMatch.mk "/" trafficpolicy.PathMatchPrefix ["*"]))
  /\ prefixPathV1 "*" EmptyString Sample.backendV1
     = Ret (Route (trafficpolicy.HTTPRouteMatch.mk prefixMatchPathElementsRegex
                     trafficpolicy.PathMatchRegex ["*"]))
  /\ prefixPathV1 "*" (EmptyString ++ "/") Sample.backendV1
     <> prefixPathV1 "*" EmptyString Sample.backendV1
  /\ prefixPathV1beta1 "*" (EmptyString ++ "/") Sample.backendV1beta1
     <> prefixPathV1beta1 "*" EmptyString Sample.backendV1beta1.
Proof. repeat split; try discriminate. Qed.


Lemma default_backend_wildcard_policy_witness :
  sampleV1 (Sample.catalog ([Sample.defaultOnlyV1], None) ([], None) false ([], None))
    Sample.svc
  = Ret ([wildcardIngressPolicy Sample.wildcard Sample.wildCardRouteMatch
            Sample.wildcardIdentity "shop" "default" (Sample.defaultCluster Sample.svc)],
         None).
Proof.
  apply (default_backend_wildcard_policy Sample.wildcard Sample.wildCardRouteMatch
           Sample.wildcardIdentity Sample.defaultCluster Sample.svc "shop" "default").
  reflexivity.
Defined.

Lemma extractors_differ_on_backend_without_service_witness :
  Forall2 sameIngress [Sample.resourceV1] [Sample.resourceV1beta1]
  /\ sampleV1
       (Sample.catalog ([Sample.resourceV1], None) ([Sample.resourceV1beta1], None) false
          ([], None))
       Sample.svc
     = Abort (NilPointerDereference ServicePointer)
  /\ sampleV1beta1
       (Sample.catalog ([Sample.resourceV1], None) ([Sample.resourceV1beta1], None) false
          ([], None))
       Sample.svc
     = Ret ([trafficpolicy.InboundTrafficPolicy.mk "assets.default|a.com" ["a.com"]
               [trafficpolicy.Rule.mk
                  (trafficpolicy.RouteWeightedClusters.mk
                     (trafficpolicy.HTTPRouteMatch.mk "/"
                        trafficpolicy.PathMatchPrefix ["*"])
                     [Sample.defaultCluster Sample.svc])
                  "*"]],
            None).
Proof.
  pose proof (extractors_differ_on_backend_without_service Sample.wildcard
                Sample.wildCardRouteMatch Sample.wildcardIdentity Sample.defaultCluster
                (Sample.catalog ([Sample.resourceV1], None)
                   ([Sample.resourceV1beta1], None) false ([], None))
                Sample.svc "assets" "default" "a.com" "/static" (Some "Prefix")
                [networkingV1.HTTPIngressPath.mk "/" (Some "Prefix") Sample.backendV1]
                [networkingV1beta1.HTTPIngressPath.mk "/" (Some "Prefix")
                   Sample.backendV1beta1])
    as H.
  destruct H as [H1 [H2 [H3 _]]];
    [reflexivity|reflexivity|repeat constructor|].
  split; [exact H1|]. split; [exact H2|exact H3].
Defined.

Lemma fetch_errors_swallowed_resolver_error_fatal_witness :
  sampleFromK8s
    (Sample.catalog ([], Some Sample.unavailable) ([], Some Sample.unavailable) false
       ([], None))
    Sample.svc
  = Ret ([], None)
  /\ sampleTrafficPolicy
       (Sample.catalog ([], Some Sample.unavailable) ([Sample.defaultOnlyV1beta1], None)
          false ([], Some Sample.noPorts))
       Sample.svc
     = Ret (None,
            Some (Wrapf Sample.noPorts
                    "Error retrieving port to protocol mapping for service default/bookstore")).
Proof.
  split.
  - apply (fetch_errors_swallowed_resolver_error_fatal Sample.wildcard
             Sample.wildCardRouteMatch Sample.wildcardIdentity Sample.defaultCluster
             Sample.svcString Sample.serverName); discriminate.
  - eapply (fetch_errors_swallowed_resolver_error_fatal Sample.wildcard
              Sample.wildCardRouteMatch Sample.wildcardIdentity Sample.defaultCluster
              Sample.svcString Sample.serverName); reflexivity.
Defined.

Lemma traffic_matches_per_port_witness :
  trafficMatchesForPort Sample.svcString Sample.serverName Sample.svc true 80 "http"
  = [trafficpolicy.IngressTrafficMatch.mk "ingress_default/bookstore_80_https" 80 "https"
       [] true;
     trafficpolicy.IngressTrafficMatch.mk "ingress_default/bookstore_80_https_with_sni" 80
       "https" ["bookstore.default.svc.cluster.local"] true]
  /\ trafficMatchesForPort Sample.svcString Sample.serverName Sample.svc true 9090 "tcp"
     = [].
Proof.
  split.
  - apply (traffic_matches_per_port Sample.wildcard Sample.wildCardRouteMatch
             Sample.wildcardIdentity Sample.defaultCluster Sample.svcString
             Sample.serverName Sample.svc true 80 "http"); reflexivity.
  - apply (traffic_matches_per_port Sample.wildcard Sample.wildCardRouteMatch
             Sample.wildcardIdentity Sample.defaultCluster Sample.svcString
             Sample.serverName Sample.svc true 9090 "tcp"); discriminate.
Defined.

Lemma no_route_policies_no_ingress_policy_witness :
  sampleTrafficPolicy
    (withResolver (Sample.catalog ([], None) ([], None) true ([], None))
       (fun _ => ([], Some Sample.noPorts)))
    Sample.svc
  = Ret (None, None).
Proof.
  apply (no_route_policies_no_ingress_policy Sample.wildcard Sample.wildCardRouteMatch
           Sample.wildcardIdentity Sample.defaultCluster Sample.svcString
           Sample.serverName
           (Sample.catalog ([], None) ([], None) true ([], None)) Sample.svc
           (fun _ => ([], Some Sample.noPorts))); reflexivity.
Defined.


Lemma route_match_shape_of_path_witness :
  trafficpolicy.HTTPRouteMatch.Methods
    (trafficpolicy.HTTPRouteMatch.mk "/foo(/.*)?$" trafficpolicy.PathMatchRegex ["*"])
  = ["*"]
  /\ (trafficpolicy.HTTPRouteMatch.PathMatchType
        (trafficpolicy.HTTPRouteMatch.mk "/foo(/.*)?$" trafficpolicy.PathMatchRegex ["*"])
      = trafficpolicy.PathMatchExact
      <-> networkingV1.HTTPIngressPath.PathType
            (networkingV1.HTTPIngressPath.mk "/foo/" (Some "Prefix") Sample.backendV1)
          = Some "Exact").
Proof.
  pose proof (proj1 (route_match_shape_of_path "*")
                (networkingV1.HTTPIngressPath.mk "/foo/" (Some "Prefix") Sample.backendV1)
                (trafficpolicy.HTTPRouteMatch.mk "/foo(/.*)?$"
                   trafficpolicy.PathMatchRegex ["*"])
                eq_refl) as [H1 [H2 _]].
  split; [exact H1|exact H2].
Defined.

Lemma prefix_path_any_trailing_slashes_witness :
  prefixPathV1 "*" ("/foo" ++ slashes 3) Sample.backendV1
  = prefixPathV1 "*" "/foo" Sample.backendV1
  /\ prefixPathV1beta1 "*" ("/foo" ++ slashes 3) Sample.backendV1beta1
     = prefixPathV1beta1 "*" "/foo" Sample.backendV1beta1.
Proof.
  apply (prefix_path_any_trailing_slashes "*" "/foo" 3 Sample.backendV1
           Sample.backendV1beta1); discriminate.
Defined.

Lemma untargeted_objects_contribute_nothing_witness :
  sampleTrafficPolicy
    (Sample.catalog ([Sample.otherV1], None) ([Sample.otherV1beta1], None) false
       ([], Some Sample.noPorts))
    Sample.svc
  = Ret (None, None).
Proof.
  apply (untargeted_objects_contribute_nothing Sample.wildcard Sample.wildCardRouteMatch
           Sample.wildcardIdentity Sample.defaultCluster Sample.svcString
           Sample.serverName
           (Sample.catalog ([Sample.otherV1], None) ([Sample.otherV1beta1], None) false
              ([], Some Sample.noPorts))
           Sample.svc); reflexivity.
Defined.

Lemma fan_out_appends_without_merging_witness :
  exists policies,
    sampleV1
      (Sample.catalog ([Sample.shopV1], None) ([Sample.shopV1beta1], None) false
         ([], None))
      Sample.svc
    = Ret (policies, None)
    /\ sampleV1beta1
         (Sample.catalog ([Sample.shopV1], None) ([Sample.shopV1beta1], None) false
            ([], None))
         Sample.svc
       = Ret (policies, None)
    /\ sampleFromK8s
         (Sample.catalog ([Sample.shopV1], None) ([Sample.shopV1beta1], None) false
            ([], None))
         Sample.svc
       = Ret (policies ++ policies, None)
    /\ (policies <> [] ->
        ~ NoDup (map trafficpolicy.InboundTrafficPolicy.Hostnames (policies ++ policies))).
Proof.
  apply (fan_out_appends_without_merging Sample.wildcard Sample.wildCardRouteMatch
           Sample.wildcardIdentity Sample.defaultCluster _ Sample.svc
           [Sample.shopV1] [Sample.shopV1beta1]).
  - reflexivity.
  - reflexivity.
  - repeat constructor.
  - reflexivity.
Defined.

Lemma no_http_port_no_traffic_match_witness :
  sampleTrafficPolicy
    (Sample.catalog ([Sample.defaultOnlyV1], None) ([], None) true
       ([(9090%N, "tcp")], None))
    Sample.svc
  = Ret (Some (trafficpolicy.IngressTrafficPolicy.mk []
                 [wildcardIngressPolicy Sample.wildcard Sample.wildCardRouteMatch
                    Sample.wildcardIdentity "shop" "default"
                    (Sample.defaultCluster Sample.svc)]),
         None).
Proof.
  apply (no_http_port_no_traffic_match Sample.wildcard Sample.wildCardRouteMatch
           Sample.wildcardIdentity Sample.defaultCluster Sample.svcString
           Sample.serverName _ Sample.svc _ [] [(9090%N, "tcp")]).
  - reflexivity.
  - reflexivity.
  - repeat constructor. discriminate.
Defined.

Lemma policy_name_injective_witness :
  "shop" = "shop" /\ "default" = "default" /\ "a.com" = "a.com".
Proof.
  apply (policy_name_injective "shop" "default" "a.com" "shop" "default" "a.com");
    try reflexivity; unfold occurs; simpl; intuition discriminate.
Defined.

Lemma traffic_match_names_distinct_witness :
  NoDup (map trafficpolicy.IngressTrafficMatch.Name
           (buildTrafficMatches Sample.svcString Sample.serverName Sample.svc true []
              Sample.ports)).
Proof.
  apply (traffic_match_names_distinct Sample.svcString Sample.serverName Sample.svc true
           Sample.ports).
  repeat constructor; simpl; intuition discriminate.
Defined.

Lemma empty_host_shares_default_backend_policy_witness :
  sampleV1 (Sample.catalog ([Sample.anyHostV1], None) ([], None) false ([], None))
    Sample.svc
  = Ret ([trafficpolicy.InboundTrafficPolicy.mk
            (getIngressTrafficPolicyName "shop" "default" Sample.wildcard)
            [Sample.wildcard]
            (ruleFor Sample.wildcardIdentity (Sample.defaultCluster Sample.svc)
               Sample.wildCardRouteMatch
             :: map (ruleFor Sample.wildcardIdentity (Sample.defaultCluster Sample.svc))
                  (routeMatchesNetworkingV1 Sample.wildcard Sample.svc Sample.pathsV1))],
         None).
Proof.
  apply (proj1 (empty_host_shares_default_backend_policy Sample.wildcard
                  Sample.wildCardRouteMatch Sample.wildcardIdentity Sample.defaultCluster
                  (Sample.catalog ([Sample.anyHostV1], None) ([], None) false ([], None))
                  Sample.svc "shop" "default")).
  - reflexivity.
  - discriminate.
  - reflexivity.
Defined.

Lemma same_host_policy_named_after_first_contributor_witness :
  sampleV1 (Sample.catalog ([Sample.fooV1; Sample.barV1], None) ([], None) false ([], None))
    Sample.svc
  = Ret ([trafficpolicy.InboundTrafficPolicy.mk "foo.default|a.com" ["a.com"]
            [trafficpolicy.Rule.mk
               (trafficpolicy.RouteWeightedClusters.mk
                  (trafficpolicy.HTTPRouteMatch.mk "/foo(/.*)?$"
                     trafficpolicy.PathMatchRegex ["*"])
                  [Sample.defaultCluster Sample.svc])
               "*";
             trafficpolicy.Rule.mk
               (trafficpolicy.RouteWeightedClusters.mk
                  (trafficpolicy.HTTPRouteMatch.mk "/bar"
                     trafficpolicy.PathMatchExact ["*"])
                  [Sample.defaultCluster Sample.svc])
               "*"]],
         None)
  /\ sampleV1
       (Sample.catalog ([Sample.elsewhereV1; Sample.barV1], None) ([], None) false
          ([], None))
       Sample.svc
     = Ret ([trafficpolicy.InboundTrafficPolicy.mk "bar.default|a.com" ["a.com"]
               [trafficpolicy.Rule.mk
                  (trafficpolicy.RouteWeightedClusters.mk
                     (trafficpolicy.HTTPRouteMatch.mk "/bar"
                        trafficpolicy.PathMatchExact ["*"])
                     [Sample.defaultCluster Sample.svc])
                  "*"]],
            None).
Proof.
  split.
  - rewrite (proj1 (same_host_policy_named_after_first_contributor Sample.wildcard
                      Sample.wildCardRouteMatch Sample.wildcardIdentity
                      Sample.defaultCluster
                      (Sample.catalog ([Sample.fooV1; Sample.barV1], None) ([], None)
                         false ([], None))
                      Sample.svc "foo" "default" "bar" "default" "a.com")
               [networkingV1.HTTPIngressPath.mk "/foo" (Some "Prefix") Sample.backendV1]
               [networkingV1.HTTPIngressPath.mk "/bar" (Some "Exact") Sample.backendV1]);
      try reflexivity; discriminate.
  - rewrite (proj1 (proj2 (proj2
               (same_host_policy_named_after_first_contributor Sample.wildcard
                  Sample.wildCardRouteMatch Sample.wildcardIdentity
                  Sample.defaultCluster
                  (Sample.catalog ([Sample.elsewhereV1; Sample.barV1], None) ([], None)
                     false ([], None))
                  Sample.svc "foo" "default" "bar" "default" "a.com")))
               [networkingV1.HTTPIngressPath.mk "/foo" (Some "Prefix")
                  Sample.otherBackendV1]
               [networkingV1.HTTPIngressPath.mk "/bar" (Some "Exact") Sample.backendV1]);
      try reflexivity; discriminate.
Defined.

Lemma extractors_agree_when_backends_are_services_witness :
  sampleV1
    (Sample.catalog ([Sample.shopV1], None) ([Sample.shopV1beta1], None) false ([], None))
    Sample.svc
  = sampleV1beta1
      (Sample.catalog ([Sample.shopV1], None) ([Sample.shopV1beta1], None) false ([], None))
      Sample.svc.
Proof.
  apply (extractors_agree_when_backends_are_services Sample.wildcard
           Sample.wildCardRouteMatch Sample.wildcardIdentity Sample.defaultCluster _
           Sample.svc [Sample.shopV1] [Sample.shopV1beta1] None).
  - reflexivity.
  - reflexivity.
  - repeat constructor.
  - reflexivity.
Defined.

Lemma extractors_return_unless_nil_pointer_witness :
  exists which,
    sampleV1 (Sample.catalog ([Sample.hostOnlyV1], None) ([], None) false ([], None))
      Sample.svc
    = Abort (NilPointerDereference which)
    /\ which <> PathTypePointer.
Proof.
  apply (extractors_return_unless_nil_pointer Sample.wildcard Sample.wildCardRouteMatch
           Sample.wildcardIdentity Sample.defaultCluster
           (Sample.catalog ([Sample.hostOnlyV1], None) ([], None) false ([], None))
           Sample.svc).
  reflexivity.
Defined.
